(** * Pojang: a decorator registry and its wrapping policies

    A shallow embedding of the Python sources

      - [src/pojang/app.py]          (class [Pojang])
      - [src/pojang/helper/util.py]  (argument helpers, logger factory)
      - [src/yeezy/app.py]           (class [Yeezy], where it differs)
      - [src/experiment/util.py]     (the stand-alone [trace] decorator)

    Python values are split in two layers: immutable structural [data]
    and [pyval], which is either such a value or a reference to a mutable
    object living in the [store].  A callable is a record of the
    attributes the sources read by reflection together with a body that
    transforms the [world]; exceptions are an explicit result. *)

From Stdlib Require Import ZArith QArith Qcanon String List Lia.
From Stdlib Require PrimFloat Uint63.
From stdpp Require Import base tactics option list strings numbers pretty.

Set Default Proof Using "Type".
Set Warnings "-register-all".
Open Scope string_scope.
Open Scope list_scope.

(* ===================================================================== *)
(** * Part I: the embedding                                               *)
(* ===================================================================== *)

(** ** Python values *)

Definition loc := nat.

(** Immutable values.  [DEmpty] is [inspect.Parameter.empty], the marker
    the signature carries for a parameter without default.  [DObj] is an
    instance of a class that defines neither [__eq__] nor [__deepcopy__],
    [A()] for [class A: pass]: it is compared by identity, and
    [copy.deepcopy] makes a new instance of it.  The registry is handed
    to predicates as such an instance and is compared like one; it is
    never copied. *)
Inductive data : Type :=
| DNone
| DEmpty
| DBool (b : bool)
| DInt (z : Z)
| DStr (s : string)
| DList (xs : list data)
| DTuple (xs : list data)
| DObj (id : nat).

(** What a Python name is bound to: a value, or a reference to a mutable
    object (a list that [append] changes in place) held in the store. *)
Inductive pyval : Type :=
| Imm (d : data)
| Ref (l : loc).

(** Python's [==] on these values: [bool] is a subclass of [int], so
    [True == 1]; sequences compare element-wise; a list never equals a
    tuple; [DObj] and [DEmpty] compare by identity. *)
Definition num_of (d : data) : option Z :=
  match d with
  | DBool b => Some (if b then 1 else 0)%Z
  | DInt z => Some z
  | _ => None
  end.

Fixpoint py_eq (a b : data) {struct a} : bool :=
  let fix all_eq (xs ys : list data) {struct xs} : bool :=
    match xs, ys with
    | [], [] => true
    | x :: xs', y :: ys' => py_eq x y && all_eq xs' ys'
    | _, _ => false
    end in
  match a, b with
  | DNone, DNone => true
  | DEmpty, DEmpty => true
  | DBool _, _ | DInt _, _ =>
      match num_of a, num_of b with
      | Some x, Some y => Z.eqb x y
      | _, _ => false
      end
  | DStr s, DStr t => String.eqb s t
  | DList xs, DList ys => all_eq xs ys
  | DTuple xs, DTuple ys => all_eq xs ys
  | DObj i, DObj j => Nat.eqb i j
  | _, _ => false
  end.

(** [a != b] *)
Definition py_ne (a b : data) : bool := negb (py_eq a b).

(** [x in xs] for a list: some element equals [x]. *)
Definition py_in (x : data) (xs : list data) : bool := existsb (py_eq x) xs.


(** Truth value of an object, as [if x:] computes it. *)
Definition truthy (d : data) : bool :=
  match d with
  | DNone => false
  | DEmpty => true
  | DBool b => b
  | DInt z => negb (Z.eqb z 0)
  | DStr s => negb (String.eqb s "")
  | DList xs | DTuple xs => negb (Nat.eqb (length xs) 0)
  | DObj _ => true
  end.

(** ** Insertion-ordered dictionaries

    [dict] and [OrderedDict] keep their keys in insertion order; assigning
    to a key that is present replaces the value in place. *)
Section dict.
Context {K V : Type} `{EqDecision K}.

Fixpoint dict_get (k : K) (d : list (K * V)) : option V :=
  match d with
  | [] => None
  | (k', v) :: d' => if decide (k = k') then Some v else dict_get k d'
  end.

(** [k in d] *)
Definition dict_in (k : K) (d : list (K * V)) : bool :=
  match dict_get k d with Some _ => true | None => false end.

(** [d[k] = v] *)
Fixpoint dict_set (k : K) (v : V) (d : list (K * V)) : list (K * V) :=
  match d with
  | [] => [(k, v)]
  | (k', v') :: d' =>
      if decide (k = k') then (k, v) :: d' else (k', v') :: dict_set k v d'
  end.

(** [{**a, **b}] and [dict(pairs)]: later bindings win. *)
Definition dict_update (a b : list (K * V)) : list (K * V) :=
  fold_left (fun acc kv => dict_set kv.1 kv.2 acc) b a.

Definition dict_of_pairs (ps : list (K * V)) : list (K * V) :=
  dict_update [] ps.

Definition dict_keys (d : list (K * V)) : list K := map fst d.
End dict.

Definition kwargs := list (string * pyval).

(** ** Exceptions and results *)

(** The exception classes the sources raise or run into.
    [MutatedReferenceError] carries the three values its message is
    formatted from.  [InvalidPropertyError] is the name the specification
    uses for the rejection of [observe]; no source file raises it. *)
Inductive exn : Type :=
| TypeError (msg : string)
| ValueError (msg : string)
| KeyError (key : string)
| IndexError
| AttributeError (msg : string)
| NotClassException
| MutatedReferenceError (argument_name : string) (before after : data)
| InvalidPropertyError
| UserError (tag : nat).

Inductive result (A : Type) : Type :=
| Return (a : A)
| Raise (e : exn).
Arguments Return {A} a.
Arguments Raise {A} e.

(** ** The world a call runs in *)

(** Modelled from the spec: [src/pojang/helper/properties.py] is not part
    of the sources at hand.  The statistics object of an entry is the
    "mutable aggregate (count, cumulative/average duration)" of the
    specification, fed one observation per call as a "running average,
    count".  [Statistics(func)] and [TimeStatistics(func)] both start
    empty. *)
Inductive stats_kind : Type := KStatistics | KTimeStatistics.

(** Modelled from the spec: the state of a statistics object of
    [properties.py], a call count and an average duration. *)
Record stats : Type := mk_stats {
  s_kind : stats_kind;
  s_count : nat;
  s_average : Qc
}.

Definition Qc_of_nat (n : nat) : Qc := Qc_of_Z (Z.of_nat n).

(** Modelled from the spec: the constructors [Statistics(func)] and
    [TimeStatistics(func)] of [properties.py]. *)
Definition Statistics : stats := mk_stats KStatistics 0 0%Qc.
Definition TimeStatistics : stats := mk_stats KTimeStatistics 0 0%Qc.

(** Modelled from the spec: the method [update(x)] of [properties.py],
    which counts the observation and moves the running average. *)
Definition stats_update (x : Qc) (s : stats) : stats :=
  mk_stats (s_kind s) (S (s_count s))
    ((s_average s * Qc_of_nat (s_count s) + x) / Qc_of_nat (S (s_count s)))%Qc.

(** A registration entry: the dictionary
    [{'name': func_name, 'func': func, 'props': props}], to which the
    stopwatch adds the key ['input'].  The callable is kept by its object
    identity. *)
Record entry : Type := mk_entry {
  e_name : string;
  e_func : nat;
  e_props : stats;
  e_input : option Qc
}.

(** The fields of a [Pojang] instance that the modelled methods use. *)
Record pojang : Type := mk_pojang {
  functions : list (string * entry);   (* self.functions, an OrderedDict *)
  debug : bool;                        (* self.config['debug'] *)
  log_path : option string;            (* decides what self.log is *)
  profiler_enabled : bool              (* self._profiler, a cProfile.Profile *)
}.

(** Where a line of text goes: [print], or an append to a file. *)
Inductive sink : Type := Console | File (path : string).

(** One call made through [call]: callee identity and actual arguments. *)
Record call_record : Type := mk_call {
  c_callee : nat;
  c_args : list pyval;
  c_kwargs : kwargs
}.

Record world : Type := mk_world {
  store : list data;                   (* the mutable objects *)
  clock : Qc;                          (* what time.time() reads *)
  out : list (sink * string);          (* everything written so far *)
  self : pojang;                       (* the registry instance *)
  counters : list nat;                 (* closure cells of experiment.trace *)
  calls : list call_record;            (* ghost: calls made through [call] *)
  objects : nat;                       (* instances made so far: the
                                          identities below it are taken *)
  code_context : option (list string)  (* inspect.stack()[1].code_context
                                          where a decorator is applied: the
                                          source line of the caller, or None
                                          when the caller has no source *)
}.

Definition set_store (f : list data -> list data) (w : world) : world :=
  mk_world (f (store w)) (clock w) (out w) (self w) (counters w) (calls w)
    (objects w) (code_context w).
Definition set_clock (f : Qc -> Qc) (w : world) : world :=
  mk_world (store w) (f (clock w)) (out w) (self w) (counters w) (calls w)
    (objects w) (code_context w).
Definition set_out (f : list (sink * string) -> list (sink * string)) (w : world) : world :=
  mk_world (store w) (clock w) (f (out w)) (self w) (counters w) (calls w)
    (objects w) (code_context w).
Definition set_self (f : pojang -> pojang) (w : world) : world :=
  mk_world (store w) (clock w) (out w) (f (self w)) (counters w) (calls w)
    (objects w) (code_context w).
Definition set_counters (f : list nat -> list nat) (w : world) : world :=
  mk_world (store w) (clock w) (out w) (self w) (f (counters w)) (calls w)
    (objects w) (code_context w).
Definition set_calls (f : list call_record -> list call_record) (w : world) : world :=
  mk_world (store w) (clock w) (out w) (self w) (counters w) (f (calls w))
    (objects w) (code_context w).
Definition set_objects (n : nat) (w : world) : world :=
  mk_world (store w) (clock w) (out w) (self w) (counters w) (calls w)
    n (code_context w).

Definition set_functions (f : list (string * entry) -> list (string * entry))
    (p : pojang) : pojang :=
  mk_pojang (f (functions p)) (debug p) (log_path p) (profiler_enabled p).
Definition set_profiler (b : bool) (p : pojang) : pojang :=
  mk_pojang (functions p) (debug p) (log_path p) b.

(** The current value of whatever a name is bound to. *)
Definition deref (w : world) (v : pyval) : data :=
  match v with
  | Imm d => d
  | Ref l => default DNone (store w !! l)
  end.

(** ** A state and exception monad *)

Definition M (A : Type) : Type := world -> result A * world.

Definition ret {A} (a : A) : M A := fun w => (Return a, w).
Definition raise {A} (e : exn) : M A := fun w => (Raise e, w).
Definition bind {A B} (m : M A) (k : A -> M B) : M B :=
  fun w => match m w with
           | (Return a, w') => k a w'
           | (Raise e, w') => (Raise e, w')
           end.
Definition get_world : M world := fun w => (Return w, w).
Definition modify (f : world -> world) : M unit := fun w => (Return tt, f w).

Declare Scope py_scope.
Delimit Scope py_scope with py.
Notation "x <- m ;; k" := (bind m (fun x => k))
  (at level 100, m at next level, right associativity) : py_scope.
Notation "m ;;; k" := (bind m (fun _ => k))
  (at level 100, right associativity) : py_scope.
Open Scope py_scope.

(** [for x in xs: body(x)] *)
Fixpoint for_each {A} (xs : list A) (body : A -> M unit) : M unit :=
  match xs with
  | [] => ret tt
  | x :: xs' => body x ;;; for_each xs' body
  end.

(** ** Callables *)

Definition body_t : Type := list pyval -> kwargs -> M pyval.

(** A callable, as far as the sources look at one:
    - [f_id]: the identity of the function object;
    - [f_module], [f_qualname], [f_name]: [__module__], [__qualname__],
      [__name__];
    - [f_has_dict]: whether it has a [__dict__] ([def] and [lambda]
      functions do, built-in functions do not);
    - [f_params]: [inspect.signature(f).parameters], each name with its
      default, [Imm DEmpty] standing for "no default";
    - [f_varnames]: [f.__code__.co_varnames];
    - [f_args], [f_defaults]: the fields [args] and [defaults] of
      [inspect.getfullargspec(f)] ([None] when there is no default);
    - [f_body]: what a call does, binding of the actual arguments
      included. *)
Record pyfunc : Type := mk_pyfunc {
  f_id : nat;
  f_module : string;
  f_qualname : string;
  f_name : string;
  f_has_dict : bool;
  f_params : list (string * pyval);
  f_varnames : list string;
  f_args : list string;
  f_defaults : option (list pyval);
  f_body : body_t
}.

(** A call [f( *args, **kwargs)]; the ghost trace notes it. *)
Definition call (f : pyfunc) (args : list pyval) (kw : kwargs) : M pyval :=
  modify (set_calls (fun cs => cs ++ [mk_call (f_id f) args kw])) ;;;
  f_body f args kw.

(** [functools.wraps(func)(wrapper)]: the wrapper is a new function object
    with its own code; [__module__], [__name__] and [__qualname__] are
    copied from [func], and [inspect.signature] follows [__wrapped__] to
    the signature of [func].  [getfullargspec] does not: it sees the
    wrapper's own variadic parameters [args] and [kwargs]. *)
Definition wraps (func : pyfunc) (id : nat) (varnames : list string)
    (wrapper : body_t) : pyfunc :=
  mk_pyfunc id (f_module func) (f_qualname func) (f_name func) true
    (f_params func) varnames [] None wrapper.

(** [repr(x)] and [str(x)] are Python's own; the embedding takes them as
    an interface and never looks inside. *)
Class PyFormat : Type := {
  py_repr : data -> string;
  py_str : data -> string
}.

(** [print(msg)] *)
Definition print (msg : string) : M unit :=
  modify (set_out (fun o => o ++ [(Console, msg)])).

(** [time.time()] *)
Definition time_time : M Qc := fun w => (Return (clock w), w).

(** The values of the arguments of a call, as they are in [w]. *)
Definition args_in (w : world) (args : list pyval) : list data := map (deref w) args.
Definition kwargs_in (w : world) (kw : kwargs) : list (string * data) :=
  map (fun kv => (kv.1, deref w kv.2)) kw.

(** [copy.deepcopy].  Numbers, strings, [None] and classes are returned
    as they are; a list or a tuple is copied item by item; an instance is
    copied into a new instance, with an identity that no object has yet.
    The memo of the call, [copied], sees to it that an instance met twice
    is copied once. *)
Record memo : Type := mk_memo {
  copied : list (nat * nat);
  next : nat
}.

Fixpoint deepcopy_data (d : data) (m : memo) {struct d} : data * memo :=
  let fix copy_items (xs : list data) (m : memo) {struct xs} : list data * memo :=
    match xs with
    | [] => ([], m)
    | x :: xs' =>
        let r := deepcopy_data x m in
        let rs := copy_items xs' r.2 in
        (r.1 :: rs.1, rs.2)
    end in
  match d with
  | DList xs => let r := copy_items xs m in (DList r.1, r.2)
  | DTuple xs => let r := copy_items xs m in (DTuple r.1, r.2)
  | DObj id =>
      match dict_get id (copied m) with
      | Some id' => (DObj id', m)
      | None => (DObj (next m), mk_memo ((id, next m) :: copied m) (S (next m)))
      end
  | _ => (d, m)
  end.

Fixpoint deepcopy_items (xs : list data) (m : memo) : list data * memo :=
  match xs with
  | [] => ([], m)
  | x :: xs' =>
      let r := deepcopy_data x m in
      let rs := deepcopy_items xs' r.2 in
      (r.1 :: rs.1, rs.2)
  end.

(** The copy of a tuple and of a dictionary of arguments as they are in
    [w], and the number of instances there are when the copy is made. *)
Definition copy_args (w : world) (args : list pyval) : list data * nat :=
  let r := deepcopy_items (args_in w args) (mk_memo [] (objects w)) in
  (r.1, next r.2).
Definition copy_kwargs (w : world) (kw : kwargs) : list (string * data) * nat :=
  let r := deepcopy_items (map snd (kwargs_in w kw)) (mk_memo [] (objects w)) in
  (zip (map fst kw) r.1, next r.2).

(** [copy.deepcopy(x)] for a tuple and for a dictionary of arguments: the
    copy shares nothing with the store, so that what the caller's objects
    become later does not show in it. *)
Definition deepcopy_args (args : list pyval) : M (list data) :=
  fun w => (Return (copy_args w args).1, set_objects (copy_args w args).2 w).
Definition deepcopy_kwargs (kw : kwargs) : M (list (string * data)) :=
  fun w => (Return (copy_kwargs w kw).1, set_objects (copy_kwargs w kw).2 w).

(** ** [src/pojang/helper/util.py] *)

(** What the sources hand over where one callable or a list of them is
    accepted. *)
Inductive callables : Type :=
| OneCallable (f : pyfunc)
| ManyCallables (fs : list pyfunc).

(** [is_iterable]: [iter(obj)] succeeds on a list and raises [TypeError]
    on a function. *)
Definition is_iterable (obj : callables) : bool :=
  match obj with
  | OneCallable _ => false
  | ManyCallables _ => true
  end.

(** The loop of [fill_default_kwargs]:
    [for k, v in parameters.items(): if i >= arg_count: d[k] = v.default; i += 1]. *)
Fixpoint fill_defaults (parameters : list (string * pyval)) (i arg_count : nat)
    (d : kwargs) : kwargs :=
  match parameters with
  | [] => d
  | (k, v) :: rest =>
      fill_defaults rest (S i) arg_count
        (if (arg_count <=? i)%nat then dict_set k v d else d)
  end.

(** [fill_default_kwargs(fn, args, kwargs)] updates [kwargs] in place;
    [kwargs] is the wrapper's own dictionary, so the update is returned. *)
Definition fill_default_kwargs (fn : pyfunc) (args : list pyval) (kw : kwargs) : kwargs :=
  fill_defaults (f_params fn) 0 (length args) kw.


(** [is_class_instance(item)]: [hasattr(item, '__dict__')]. *)
Definition is_class_instance (f : pyfunc) : bool := f_has_dict f.

(** [get_unique_func_name] *)
Definition get_unique_func_name (func : pyfunc) : string :=
  f_module func +:+ "." +:+ f_qualname func.

(** The string has no dot in it: the qualified name of a function that
    is defined at the top of its module. *)
Fixpoint dot_free (s : string) : bool :=
  match s with
  | EmptyString => true
  | String c s' => negb (Ascii.eqb c (Ascii.ascii_of_nat 46)) && dot_free s'
  end.

(** [type(x)], as far as [validate_type] tells types apart. *)
Inductive pytype : Type :=
| TNoneType | TType | TBool | TInt | TStr | TList | TTuple | TObject.

Definition type_of (d : data) : pytype :=
  match d with
  | DNone => TNoneType
  | DEmpty => TType
  | DBool _ => TBool
  | DInt _ => TInt
  | DStr _ => TStr
  | DList _ => TList
  | DTuple _ => TTuple
  | DObj _ => TObject
  end.

Definition pytype_eqb (a b : pytype) : bool :=
  match a, b with
  | TNoneType, TNoneType | TType, TType | TBool, TBool | TInt, TInt
  | TStr, TStr | TList, TList | TTuple, TTuple | TObject, TObject => true
  | _, _ => false
  end.

(** [str(type(x))] *)
Definition type_str (t : pytype) : string :=
  match t with
  | TNoneType => "<class 'NoneType'>"
  | TType => "<class 'type'>"
  | TBool => "<class 'bool'>"
  | TInt => "<class 'int'>"
  | TStr => "<class 'str'>"
  | TList => "<class 'list'>"
  | TTuple => "<class 'tuple'>"
  | TObject => "<class 'object'>"
  end.

(** [isinstance(x, str)] *)
Definition is_str (d : data) : bool :=
  match d with DStr _ => true | _ => false end.

Section formatted.
Context `{PyFormat}.

(** [validate_type(obj, key, target_type)] *)
Definition validate_type (obj : kwargs) (key : string) (target_type : pytype) : M unit :=
  match dict_get key obj with
  | None => raise (KeyError key)
  | Some prop_val =>
      w <- get_world ;;
      if pytype_eqb (type_of (deref w prop_val)) target_type then ret tt
      else raise (TypeError (key +:+ " must be of type boolean. Passed in value: '"
                             +:+ py_str (deref w prop_val) +:+ "' of type: "
                             +:+ type_str (type_of (deref w prop_val))))
  end.

(** [create_properties(valid_properties, **kwargs)] *)
Fixpoint create_properties (valid_properties : list (string * (pytype * pyval)))
    (kw : kwargs) : M kwargs :=
  match valid_properties with
  | [] => ret []
  | (key, (data_type, default_value)) :: rest =>
      v <- (if dict_in key kw
            then validate_type kw key data_type ;;;
                 ret (default (Imm DNone) (dict_get key kw))
            else ret default_value) ;;
      properties <- create_properties rest kw ;;
      ret ((key, v) :: properties)
  end.

(** [str(v)] for a parameter [v] of a signature without annotations: the
    name, and [=] with the [repr] of the default when there is one. *)
Definition parameter_str (k : string) (v : pyval) (w : world) : string :=
  match v with
  | Imm DEmpty => k
  | _ => k +:+ "=" +:+ py_repr (deref w v)
  end.

(** The loop of [get_shallow_default_arg_dict]:
    [for k, v in parameters.items():
       if i >= arg_count: print(v); new_kwargs[k] = v.default
       i += 1] *)
Fixpoint shallow_defaults (parameters : list (string * pyval)) (i arg_count : nat)
    (new_kwargs : kwargs) : M kwargs :=
  match parameters with
  | [] => ret new_kwargs
  | (k, v) :: rest =>
      if (arg_count <=? i)%nat
      then w <- get_world ;;
           print (parameter_str k v w) ;;;
           shallow_defaults rest (S i) arg_count (dict_set k v new_kwargs)
      else shallow_defaults rest (S i) arg_count new_kwargs
  end.

(** [get_shallow_default_arg_dict(fn, args)] *)
Definition get_shallow_default_arg_dict (fn : pyfunc) (args : list pyval) : M kwargs :=
  let arg_count := length args in
  let args_names := take arg_count (f_varnames fn) in
  new_kwargs <- shallow_defaults (f_params fn) 0 arg_count [] ;;
  ret (dict_update (dict_of_pairs (zip args_names args)) new_kwargs).
End formatted.

(** The logger returned by [logger_factory(file_name, logger_name)]: its
    [write] calls [logger.log(contents_to_write)], and [Logger.log] takes
    the level first and the message second, so the call cannot bind. *)
Definition logger_write (contents_to_write : string) : M unit :=
  raise (TypeError "log() missing 1 required positional argument: 'msg'").

(** ** [src/pojang/app.py]: the registry *)

Definition path_is_set (p : option string) : bool :=
  match p with
  | Some s => negb (String.eqb s "")
  | None => false
  end.

(** [self.log]: [util.logger_factory(log_path, module_name) if log_path else print] *)
Definition log (msg : string) : M unit :=
  w <- get_world ;;
  if path_is_set (log_path (self w)) then logger_write msg else print msg.

(** [Pojang.log_debug] *)
Definition log_debug (msg : string) : M unit :=
  w <- get_world ;;
  if debug (self w) then log ("DEBUG: " +:+ msg) else ret tt.

(** [Pojang._update_decoration_info(func_name, func, props)].  [props] has
    no default; a call site that leaves it out is [None] here and fails
    when the call is bound. *)
Definition _update_decoration_info (func_name : string) (func : pyfunc)
    (props : option stats) : M unit :=
  match props with
  | None =>
      raise (TypeError
        "_update_decoration_info() missing 1 required positional argument: 'props'")
  | Some props =>
      w <- get_world ;;
      if dict_in func_name (functions (self w))
      then log_debug ("Found duplicate decorator with identity: " +:+ func_name)
      else modify (set_self (set_functions
             (dict_set func_name (mk_entry func_name (f_id func) props None))))
  end.

(** Keys of a function map: [register] stores under the name, and
    [Yeezy.register] looks the callable itself up. *)
Inductive map_key : Type :=
| KeyName (s : string)
| KeyFunc (id : nat).

Global Instance map_key_eq_dec : EqDecision map_key.
Proof. solve_decision. Defined.

(** [Pojang.register(func_name, func, function_map)] *)
Definition register (func_name : string) (func : pyfunc)
    (function_map : list (map_key * nat)) : list (map_key * nat) :=
  if negb (dict_in (KeyName func_name) function_map)
  then dict_set (KeyName func_name) (f_id func) function_map
  else function_map.

(** [Yeezy.register(func_name, func, function_map)]:
    [if func not in function_map: function_map[func_name] = func] *)
Definition yeezy_register (func_name : string) (func : pyfunc)
    (function_map : list (map_key * nat)) : list (map_key * nat) :=
  if negb (dict_in (KeyFunc (f_id func)) function_map)
  then dict_set (KeyName func_name) (f_id func) function_map
  else function_map.

(** [Pojang._register(func)] and the head of [Pojang.before(func)]: both
    call [_update_decoration_info(func_name, func)] with two arguments. *)
Definition _register (func : pyfunc) : M unit :=
  let func_name := get_unique_func_name func in
  _update_decoration_info func_name func None ;;;
  log_debug ("Function: " +:+ func_name +:+ " registered ... ").

Definition FUNCTION_PROPS : list (string * (pytype * pyval)) :=
  [("compute_statistics", (TBool, Imm (DBool true)))].

Section rules.
Context `{PyFormat}.

(** [Pojang._add_function_decorator_rule] *)
Definition _add_function_decorator_rule (func : pyfunc) (kw : kwargs) : M unit :=
  properties <- create_properties FUNCTION_PROPS kw ;;
  let func_name := get_unique_func_name func in
  _update_decoration_info func_name func None ;;;
  log_debug ("Function: " +:+ func_name +:+ " registered ... ").

(** [Pojang._add_class_decorator_rule]: [pass] *)
Definition _add_class_decorator_rule (cls : pyfunc) (kw : kwargs) : M unit :=
  ret tt.

(** [Pojang.add_decorator_rule] *)
Definition add_decorator_rule (obj_to_decorate : pyfunc) (kw : kwargs) : M unit :=
  if is_class_instance obj_to_decorate
  then _add_class_decorator_rule obj_to_decorate kw
  else _add_function_decorator_rule obj_to_decorate kw.
End rules.

(** ** [src/pojang/app.py]: the wrapping policies *)

(** The registry instance, where it is passed as a value. *)
Definition self_obj : pyval := Imm (DObj 0).

(** *** [Pojang.pure] *)

(** The callback of [pure]: the one the caller gave, or by default
    [raise MutatedReferenceError(f"Original input modified: {argument_name}.
    Before: {before}, after: {after}")]. *)
Definition pure_event_cb (event_cb : option pyfunc)
    (argument_name : string) (before : data) (after : pyval) : M unit :=
  match event_cb with
  | None =>
      w <- get_world ;;
      raise (MutatedReferenceError argument_name before (deref w after))
  | Some cb =>
      call cb [Imm (DStr argument_name); Imm before; after] [] ;;; ret tt
  end.

(** One round of [for key, value in input_data.items()]:
    [if value != original_input[key]: event_cb(key, original_input[key], input_data[key])]. *)
Definition pure_check (event_cb : option pyfunc) (original_input : list (string * data))
    (kv : string * pyval) : M unit :=
  w <- get_world ;;
  match dict_get kv.1 original_input with
  | None => raise (KeyError kv.1)
  | Some before =>
      if py_ne (deref w kv.2) before
      then pure_event_cb event_cb kv.1 before kv.2
      else ret tt
  end.

Section pure_inner.
Context `{PyFormat}.

(** [inner] of [pure]. *)
Definition pure_inner (event_cb : option pyfunc) (function : pyfunc) : body_t :=
  fun args kw =>
    input_data <- get_shallow_default_arg_dict function args ;;
    original_input <- deepcopy_kwargs input_data ;;
    output <- call function args kw ;;
    for_each input_data (pure_check event_cb original_input) ;;;
    ret output.
End pure_inner.

Section pure_decorator.
Context `{PyFormat}.

(** [wrapper] of [pure]: registers, then returns [inner]. *)
Definition pure_wrapper (event_cb : option pyfunc) (kw : kwargs)
    (function : pyfunc) : M body_t :=
  add_decorator_rule function kw ;;;
  ret (pure_inner event_cb function).
End pure_decorator.

(** *** [Pojang.fire_if] *)

(** The default predicate, [lambda x: x]: it binds exactly one argument. *)
Definition default_predicate : pyfunc :=
  mk_pyfunc 1 "src.pojang.app" "Pojang.<lambda>" "<lambda>" true
    [("x", Imm DEmpty)] ["x"] ["x"] None
    (fun args kw =>
       match args, kw with
       | [x], [] => ret x
       | [], [(k, x)] =>
           if String.eqb k "x" then ret x
           else raise (TypeError
                  ("<lambda>() got an unexpected keyword argument '" +:+ k +:+ "'"))
       | [], [] =>
           raise (TypeError "<lambda>() missing 1 required positional argument: 'x'")
       | [], _ :: _ :: _ =>
           raise (TypeError "<lambda>() got an unexpected keyword argument")
       | [_], _ :: _ =>
           raise (TypeError "<lambda>() got multiple values or an unexpected keyword argument")
       | _ :: _ :: _, _ =>
           raise (TypeError
                  ("<lambda>() takes 1 positional argument but "
                   +:+ pretty (length args) +:+ " were given"))
       end).

(** [wrapped] of [fire_if]. *)
Definition fire_if_wrapped (events_to_fire : list pyfunc) (predicate : pyfunc)
    (func : pyfunc) : body_t :=
  fun args kw =>
    output <- call func args kw ;;
    fire_event <- call predicate (output :: self_obj :: args) kw ;;
    w <- get_world ;;
    (if truthy (deref w fire_event)
     then for_each events_to_fire (fun event =>
            call event (output :: args) kw ;;; ret tt)
     else ret tt) ;;;
    ret output.

(** *** [Pojang.profile] *)

(** [self._profiler.enable()] and [self._profiler.disable()]: the
    profiler is an outside service, of which the flag is all that is kept. *)
Definition profiler_enable : M unit := modify (set_self (set_profiler true)).
Definition profiler_disable : M unit := modify (set_self (set_profiler false)).

(** [wrapped] of [profile]. *)
Definition profile_wrapped (func : pyfunc) : body_t :=
  fun args kw =>
    profiler_enable ;;;
    output <- call func args kw ;;
    profiler_disable ;;;
    ret output.

Definition profile_wrapped_varnames : list string := ["args"; "kwargs"; "output"].

(** *** [Pojang.trace] *)

(** [wrapper] of [Pojang.trace]. *)
Definition trace_wrapper (func : pyfunc) : body_t :=
  fun args kw => call func args kw.

(** [inspect.getfullargspec(func)]: a [pyfunc] carries what it returns,
    [f_args] and [f_defaults]; a callable whose signature [inspect]
    cannot read has neither and is no [pyfunc]. *)
Definition getfullargspec (func : pyfunc) : M (list string * option (list pyval)) :=
  ret (f_args func, f_defaults func).

(** [inspect.stack()[1].code_context[0].strip()]: the source line of the
    frame that applies the decorator.  Without source there is no list
    to take the line from.  The line is handed on as it is: nothing
    reads it, stripped or not. *)
Definition caller_code : M string :=
  w <- get_world ;;
  match code_context w with
  | None => raise (TypeError "'NoneType' object is not subscriptable")
  | Some [] => raise IndexError
  | Some (line :: _) => ret line
  end.

(** [inner_function] of [Pojang.trace].  The two reads of the interpreter
    come after the registration; what they return is bound to names that
    nothing uses. *)
Definition trace_inner_function (func : pyfunc) : M body_t :=
  let func_name := get_unique_func_name func in
  log_debug ("Decorated function with unique id: " +:+ func_name) ;;;
  _update_decoration_info func_name func (Some Statistics) ;;;
  argspecs <- getfullargspec func ;;
  caller_code <- caller_code ;;
  ret (trace_wrapper func).

(** *** [Pojang.stopwatch] *)

(** [self.functions[func_name]['input'] = x] *)
Definition set_entry_input (func_name : string) (x : Qc) : M unit :=
  w <- get_world ;;
  match dict_get func_name (functions (self w)) with
  | None => raise (KeyError func_name)
  | Some e =>
      modify (set_self (set_functions
        (dict_set func_name (mk_entry (e_name e) (e_func e) (e_props e) (Some x)))))
  end.

(** [self.functions[func_name]['props'].update(x)] *)
Definition update_entry_props (func_name : string) (x : Qc) : M unit :=
  w <- get_world ;;
  match dict_get func_name (functions (self w)) with
  | None => raise (KeyError func_name)
  | Some e =>
      modify (set_self (set_functions
        (dict_set func_name
           (mk_entry (e_name e) (e_func e) (stats_update x (e_props e)) (e_input e)))))
  end.

(** [wrapper] of [stopwatch]. *)
Definition stopwatch_wrapper (func_name : string) (func : pyfunc) : body_t :=
  fun args kw =>
    time_start <- time_time ;;
    output <- call func args kw ;;
    now <- time_time ;;
    let time_elapsed := (now - time_start)%Qc in
    set_entry_input func_name time_elapsed ;;;
    update_entry_props func_name time_elapsed ;;;
    ret output.

(** [decorator] of [stopwatch]. *)
Definition stopwatch_decorator (func : pyfunc) : M body_t :=
  let func_name := get_unique_func_name func in
  log ("Decorated function with unique id: " +:+ func_name) ;;;
  _update_decoration_info func_name func (Some TimeStatistics) ;;;
  set_entry_input func_name 0%Qc ;;;
  ret (stopwatch_wrapper func_name func).

(** *** [Pojang.run_before] *)

(** [preprocess(functions, ...)], in the two definitions that
    [is_iterable(functions)] chooses between.  The callables are bound to
    the first parameter of the closure, [funcs] or [func]; a keyword
    argument of that name then has no parameter left to go to. *)
Definition preprocess (functions : callables) (args : list pyval) (kw : kwargs) : M unit :=
  match functions with
  | ManyCallables funcs =>
      if dict_in "funcs" kw
      then raise (TypeError "preprocess() got multiple values for argument 'funcs'")
      else for_each funcs (fun f => call f args kw ;;; ret tt)
  | OneCallable func =>
      if dict_in "func" kw
      then raise (TypeError "preprocess() got multiple values for argument 'func'")
      else call func args kw ;;; ret tt
  end.

(** [inner] of [run_before]. *)
Definition run_before_inner (functions : callables) (fn : pyfunc) : body_t :=
  fun args kw =>
    let kw := fill_default_kwargs fn args kw in
    preprocess functions args kw ;;;
    output <- call fn args kw ;;
    ret output.

(** *** [Pojang.observe] *)

(** An object handed over where a class is expected: whether it has a
    [__dict__], its [__module__] and [__name__], and what
    [inspect.getmembers] lists for it, name by name. *)
Record pyobject : Type := mk_pyobject {
  o_has_dict : bool;
  o_module : string;
  o_name : string;
  o_members : list (string * data)
}.

(** The argument [properties] of [observe]. *)
Inductive observe_arg : Type :=
| ObsNone
| ObsList (props : list data)
| ObsTuple (props : list data)
| ObsClass (cls : pyobject).

Definition nl : string := String (Ascii.ascii_of_nat 10) EmptyString.

(** [inspect.getmembers(cls)]: a list of [(name, value)] tuples. *)
Definition getmembers (cls : pyobject) : list data :=
  map (fun nv => DTuple [DStr nv.1; nv.2]) (o_members cls).

(** [inspect.ismethod(x)]: [isinstance(x, types.MethodType)]; no value of
    [data] is a bound method, and a tuple in particular is not. *)
Definition ismethod (x : data) : bool := false.

(** [dir(cls)] *)
Definition dir (cls : pyobject) : list data :=
  map (fun nv => DStr nv.1) (o_members cls).

(** [_check_if_class] *)
Definition _check_if_class (cls : pyobject) : M unit :=
  if o_has_dict cls then ret tt else raise NotClassException.

Section observe.
Context `{PyFormat}.

(** [observe_class], the closure of [observe(properties)]. *)
Definition observe_class (properties : observe_arg) (cls : pyobject) : M unit :=
  let is_list_or_tuple :=
    match properties with ObsList _ | ObsTuple _ => true | _ => false end in
  _check_if_class cls ;;;
  let cls_name := o_module cls +:+ "." +:+ o_name cls in
  let class_props := List.filter (fun item => negb (ismethod item)) (getmembers cls) in
  print ("Props: " +:+ py_str (DList class_props) +:+ ", " +:+ py_str (DList (dir cls))) ;;;
  if is_list_or_tuple
  then
    for_each (match properties with ObsList ps | ObsTuple ps => ps | _ => [] end)
      (fun prop =>
         if negb (py_in prop class_props)
         then raise (ValueError
                ("Property '" +:+ py_str prop +:+ "' not found in class <" +:+ cls_name
                 +:+ ">." +:+ nl +:+ "Available props: " +:+ py_str (DList class_props)))
         else if negb (is_str prop)
         then raise (ValueError
                ("Properties passed to .observe() should be a string. Passed in value '"
                 +:+ py_str prop +:+ "' of type: " +:+ type_str (type_of prop)))
         else ret tt)
  else ret tt.

(** [observe(properties)]: applied at once when used as a bare
    decorator, otherwise the closure is returned. *)
Definition observe (properties : observe_arg) : M (option (pyobject -> M unit)) :=
  match properties with
  | ObsClass cls =>
      if o_has_dict cls
      then observe_class properties cls ;;; ret None
      else ret (Some (observe_class properties))
  | _ => ret (Some (observe_class properties))
  end.
End observe.

(** ** [src/experiment/util.py]: the stand-alone [trace] *)

(** [write_file(file_name)] returns [write], which appends to the file. *)
Definition write_file (file_name : string) (contents_to_write : string) : M unit :=
  modify (set_out (fun o => o ++ [(File file_name, contents_to_write)])).

(** [write_function = write_file(path) if path else print] *)
Definition write_function (path : option string) : string -> M unit :=
  if path_is_set path then write_file (default "" path) else print.

(** [s[:-2]] *)
Definition drop_last2 (s : string) : string :=
  substring 0 (String.length s - 2) s.

(** [count[func] += 1], on the cell the wrapper closes over. *)
Definition incr_counter (c : nat) : M nat := fun w =>
  match counters w !! c with
  | None => (Raise (KeyError "count"), w)
  | Some n => (Return (S n), set_counters (fun cs => <[c := S n]> cs) w)
  end.

(** [a == b] for two dictionaries with data values. *)
Definition py_dict_eq (a b : list (string * data)) : bool :=
  Nat.eqb (length a) (length b) &&
  forallb (fun kv => match dict_get kv.1 b with
                     | Some v => py_eq kv.2 v
                     | None => false
                     end) a.

Section experiment.
Context `{PyFormat}.

(** The loop [for test in argspecs.args] that renders the call. *)
Fixpoint render_inputs (func : pyfunc) (args_repr : list string) (args : list pyval)
    (kw : kwargs) (names : list string) (i default_index : nat)
    (function_input_str : string) : M string :=
  match names with
  | [] => ret function_input_str
  | test :: rest =>
      w <- get_world ;;
      vd <- (if (i <? length args)%nat
             then ret (default "" (args_repr !! i), default_index)
             else if negb (dict_in test kw)
             then match f_defaults func with
                  | None => raise (TypeError "'NoneType' object is not subscriptable")
                  | Some ds =>
                      match ds !! default_index with
                      | None => raise IndexError
                      | Some d => ret (py_str (deref w d), S default_index)
                      end
                  end
             else ret (py_str (deref w (default (Imm DNone) (dict_get test kw))),
                       default_index)) ;;
      render_inputs func args_repr args kw rest (S i) vd.2
        (function_input_str +:+ test +:+ "=" +:+ vd.1 +:+ "," +:+ " ")
  end.

(** [wrapper] of [trace]; [c] is the cell of [count]. *)
Definition experiment_trace_wrapper (path : option string) (func : pyfunc) (c : nat)
    : body_t :=
  fun args kw =>
    let function_name := f_name func in
    n <- incr_counter c ;;
    w <- get_world ;;
    let args_repr := map (fun a => py_repr (deref w a)) args in
    let kwargs_repr := map (fun kv => kv.1 +:+ "=" +:+ py_repr (deref w kv.2)) kw in
    s <- render_inputs func args_repr args kw (f_args func) 0 0
           ("Debug: " +:+ function_name +:+ "(") ;;
    let i := length (f_args func) in
    let s := if (0 <? i)%nat then drop_last2 s else s in
    let s := s +:+ ") called " +:+ py_str (DInt (Z.of_nat n)) +:+ " times." in
    write_function path s ;;;
    let signature := String.concat ", " (args_repr ++ kwargs_repr) in
    write_function path ("Calling " +:+ function_name +:+ "(" +:+ signature +:+ ")") ;;;
    deep_cpy_args <- deepcopy_args args ;;
    deep_cpy_kwargs <- deepcopy_kwargs kw ;;
    value <- call func args kw ;;
    w2 <- get_world ;;
    (if py_ne (DTuple deep_cpy_args) (DTuple (args_in w2 args))
     then write_function path "args has been modified" else ret tt) ;;;
    (if negb (py_dict_eq deep_cpy_kwargs (kwargs_in w2 kw))
     then write_function path "kwargs has been modified" else ret tt) ;;;
    w3 <- get_world ;;
    write_function path
      (py_repr (DStr (f_name func)) +:+ " returned " +:+ py_repr (deref w3 value)) ;;;
    ret value.

(** [inner_function] of [trace(silent, path)]: [count = {}],
    [count[func] = 0], and the wrapper around them. *)
Definition experiment_trace (path : option string) (func : pyfunc) : M body_t :=
  fun w =>
    let c := length (counters w) in
    (Return (experiment_trace_wrapper path func c),
     set_counters (fun cs => cs ++ [0]) w).
End experiment.

(** ** Sequences of operations *)

(** Registrations, alone or as the first step of a decorator. *)
Inductive reg_op : Type :=
| OpUpdate (func_name : string) (func : pyfunc) (props : option stats)
| OpTrace (func : pyfunc)
| OpStopwatch (func : pyfunc).

Definition run_op (op : reg_op) : M unit :=
  match op with
  | OpUpdate func_name func props => _update_decoration_info func_name func props
  | OpTrace func => trace_inner_function func ;;; ret tt
  | OpStopwatch func => stopwatch_decorator func ;;; ret tt
  end.

(** One operation after the other; each is a statement of its own, and the
    state it leaves is what the next one finds. *)
Fixpoint run_ops (ops : list reg_op) (w : world) : world :=
  match ops with
  | [] => w
  | op :: rest => run_ops rest (run_op op w).2
  end.

(** Successive calls of [wrapped], a callable that a decorator returned
    for [func].  Next to the final world, the duration of each call of
    [func] is noted: the clock after [func] has run minus the clock
    before, in the world in which [wrapped] is called. *)
Fixpoint timed_calls (wrapped : body_t) (func : pyfunc)
    (cs : list (list pyval * kwargs)) (w : world) : list Qc * world :=
  match cs with
  | [] => ([], w)
  | (args, kw) :: cs' =>
      let elapsed := (clock (call func args kw w).2 - clock w)%Qc in
      let w' := (wrapped args kw w).2 in
      let r := timed_calls wrapped func cs' w' in
      (elapsed :: r.1, r.2)
  end.

(** The world after the callables of the list have been called one after
    the other, each with the same arguments. *)
Definition after_calls (fs : list pyfunc) (args : list pyval) (kw : kwargs)
    (w : world) : world :=
  fold_left (fun w' f => (call f args kw w').2) fs w.

(** No instance occurs in [d]. *)
Fixpoint instance_free (d : data) : bool :=
  match d with
  | DObj _ => false
  | DList xs | DTuple xs => forallb instance_free xs
  | _ => true
  end.


(** What [call] adds to the ghost trace. *)
Definition noted (f : pyfunc) (args : list pyval) (kw : kwargs) (w : world) : world :=
  set_calls (fun cs => cs ++ [mk_call (f_id f) args kw]) w.

(** On these arguments [f] returns, and makes no call that the ghost
    trace would show. *)
Definition returns_on (f : pyfunc) (args : list pyval) (kw : kwargs) : Prop :=
  forall w, exists v, (f_body f args kw w).1 = Return v.
Definition leaf_on (f : pyfunc) (args : list pyval) (kw : kwargs) : Prop :=
  forall w, calls (f_body f args kw w).2 = calls w.




(** The dictionary that [get_shallow_default_arg_dict] returns: the
    positional arguments under the first names of the code object, then
    the defaults of the parameters that no positional argument reaches. *)
Definition input_data_of (fn : pyfunc) (args : list pyval) : kwargs :=
  dict_update (dict_of_pairs (zip (take (length args) (f_varnames fn)) args))
    (fill_defaults (f_params fn) 0 (length args) []).

(** The lines that it prints on the way, one for each such parameter. *)
Fixpoint param_lines `{PyFormat} (parameters : list (string * pyval)) (i arg_count : nat)
    (w : world) : list string :=
  match parameters with
  | [] => []
  | (k, v) :: rest =>
      (if (arg_count <=? i)%nat then [parameter_str k v w] else [])
      ++ param_lines rest (S i) arg_count w
  end.

(** Where [write_function] puts a line, and the world with one more. *)
Definition sink_of (path : option string) : sink :=
  if path_is_set path then File (default "" path) else Console.

Definition written (path : option string) (lines : list string) (w : world) : world :=
  set_out (fun o => o ++ map (fun line => (sink_of path, line)) lines) w.

(** What [pure] holds when it calls the function: the copy of the
    argument dictionary, and the world in which the defaults have been
    printed and the copy has been made. *)
Definition snapshot `{PyFormat} (fn : pyfunc) (args : list pyval) (w : world)
    : list (string * data) :=
  (copy_kwargs (written None (param_lines (f_params fn) 0 (length args) w) w)
     (input_data_of fn args)).1.
Definition snapshot_world `{PyFormat} (fn : pyfunc) (args : list pyval) (w : world)
    : world :=
  set_objects
    (copy_kwargs (written None (param_lines (f_params fn) 0 (length args) w) w)
       (input_data_of fn args)).2
    (written None (param_lines (f_params fn) 0 (length args) w) w).

(** Every entry of [w] is still registered in [w'], under the same name,
    for the same callable and with the same statistics object. *)
Definition entries_kept (w w' : world) : Prop :=
  forall name e,
    dict_get name (functions (self w)) = Some e ->
    exists e',
      dict_get name (functions (self w')) = Some e' /\
      e_name e' = e_name e /\ e_func e' = e_func e /\ e_props e' = e_props e.

(** How the registry of [w'] relates to that of [w] after registrations:
    the old keys come first and in their order, keys stay unique, the
    entries are kept, and the configuration is the same. *)
Definition registry_extends (w w' : world) : Prop :=
  dict_keys (functions (self w)) `prefix_of` dict_keys (functions (self w')) /\
  (NoDup (dict_keys (functions (self w))) -> NoDup (dict_keys (functions (self w')))) /\
  entries_kept w w' /\
  debug (self w') = debug (self w) /\
  log_path (self w') = log_path (self w).

(** ** Python functions to run the embedding on *)

Module Examples.

(** A rendering of values for the examples; it agrees with CPython on
    the values used here (strings without quotes or escapes). *)
Fixpoint render (quote : bool) (d : data) {struct d} : string :=
  let fix render_all (xs : list data) : list string :=
    match xs with
    | [] => []
    | x :: rest => render true x :: render_all rest
    end in
  match d with
  | DNone => "None"
  | DEmpty => "<class 'inspect._empty'>"
  | DBool b => if b then "True" else "False"
  | DInt z => pretty z
  | DStr s => if quote then "'" +:+ s +:+ "'" else s
  | DList xs => "[" +:+ String.concat ", " (render_all xs) +:+ "]"
  | DTuple xs =>
      "(" +:+ String.concat ", " (render_all xs)
      +:+ (if Nat.eqb (length xs) 1 then "," else "") +:+ ")"
  | DObj id => "<object " +:+ pretty id +:+ ">"
  end.

#[export] Instance simple_format : PyFormat :=
  {| py_repr := render true; py_str := render false |}.

(** Binding of actual arguments to positional-or-keyword parameters. *)
Definition is_empty_default (v : pyval) : bool :=
  match v with Imm DEmpty => true | _ => false end.

Fixpoint bind_rest (name : string) (rest : list (string * pyval)) (kw : kwargs)
    : exn + list (string * pyval) :=
  match rest with
  | [] => inr []
  | (k, d) :: rest' =>
      match (match dict_get k kw with
             | Some v => inr v
             | None =>
                 if is_empty_default d
                 then inl (TypeError
                        (name +:+ "() missing 1 required positional argument: '"
                         +:+ k +:+ "'"))
                 else inr d
             end), bind_rest name rest' kw with
      | inl e, _ => inl e
      | _, inl e => inl e
      | inr v, inr env => inr ((k, v) :: env)
      end
  end.

Definition bind_args (name : string) (params : list (string * pyval))
    (args : list pyval) (kw : kwargs) : exn + list (string * pyval) :=
  if (length params <? length args)%nat
  then inl (TypeError (name +:+ "() takes " +:+ pretty (length params)
                       +:+ " positional arguments but " +:+ pretty (length args)
                       +:+ " were given"))
  else
    let positional := zip (map fst params) args in
    match find (fun kv => negb (dict_in kv.1 params)) kw with
    | Some kv => inl (TypeError (name +:+ "() got an unexpected keyword argument '"
                                 +:+ kv.1 +:+ "'"))
    | None =>
        match find (fun kv => dict_in kv.1 positional) kw with
        | Some kv => inl (TypeError (name +:+ "() got multiple values for argument '"
                                     +:+ kv.1 +:+ "'"))
        | None =>
            match bind_rest name (drop (length args) params) kw with
            | inl e => inl e
            | inr env => inr (positional ++ env)
            end
        end
    end.

(** [def name(params): impl], defined in module [m]. *)
Definition py_def (id : nat) (m name : string) (params : list (string * pyval))
    (locals : list string) (impl : list (string * pyval) -> M pyval) : pyfunc :=
  mk_pyfunc id m name name true params (map fst params ++ locals) (map fst params)
    (match List.filter (fun p => negb (is_empty_default p.2)) params with
     | [] => None
     | ds => Some (map snd ds)
     end)
    (fun args kw =>
       match bind_args name params args kw with
       | inl e => raise e
       | inr env => impl env
       end).

Definition local (name : string) (env : list (string * pyval)) : pyval :=
  default (Imm DNone) (dict_get name env).

(** [x.append(item)] on a list object. *)
Definition list_append (x : pyval) (item : data) : M unit :=
  match x with
  | Ref l =>
      fun w =>
        match store w !! l with
        | Some (DList xs) =>
            (Return tt, set_store (fun s => <[l := DList (xs ++ [item])]> s) w)
        | _ => (Raise (AttributeError "object has no attribute 'append'"), w)
        end
  | Imm _ => raise (AttributeError "object has no attribute 'append'")
  end.

(** [sum(xs)] for a list of integers. *)
Fixpoint sum_ints (xs : list data) : Z :=
  match xs with
  | DInt z :: rest => (z + sum_ints rest)%Z
  | _ :: rest => sum_ints rest
  | [] => 0%Z
  end.

Definition items (d : data) : list data :=
  match d with DList xs | DTuple xs => xs | _ => [] end.

Definition empty_pojang : pojang := mk_pojang [] false None false.
Definition debug_pojang : pojang := mk_pojang [] true None false.
(** A script run from its file: the decorators find their source line,
    and the registry is the one instance there is. *)
Definition world_of (s : list data) (p : pojang) : world :=
  mk_world s 0%Qc [] p [] [] 1 (Some ["@decorator"]).

(** [def f(a): a.append(2)] *)
Definition f_append : pyfunc :=
  py_def 10 "__main__" "f" [("a", Imm DEmpty)] []
    (fun env => list_append (local "a" env) (DInt 2) ;;; ret (Imm DNone)).

(** [def g(a): return a] *)
Definition g_identity : pyfunc :=
  py_def 11 "__main__" "g" [("a", Imm DEmpty)] []
    (fun env => ret (local "a" env)).

(** [def fn(a, b=2): return b] *)
Definition fn_second : pyfunc :=
  py_def 12 "__main__" "fn" [("a", Imm DEmpty); ("b", Imm (DInt 2))] []
    (fun env => ret (local "b" env)).

(** [def cb(a, b): print(f"Run before func: {a}, {b}")] *)
Definition cb_print : pyfunc :=
  py_def 13 "__main__" "cb" [("a", Imm DEmpty); ("b", Imm DEmpty)] []
    (fun env =>
       w <- get_world ;;
       print ("Run before func: " +:+ py_str (deref w (local "a" env)) +:+ ", "
              +:+ py_str (deref w (local "b" env))) ;;;
       ret (Imm DNone)).

(** [def do_something(arr): return sum(arr)] *)
Definition do_something : pyfunc :=
  py_def 14 "__main__" "do_something" [("arr", Imm DEmpty)] []
    (fun env => w <- get_world ;;
                ret (Imm (DInt (sum_ints (items (deref w (local "arr" env))))))).


(** [def event(output, arr): print(f"Output: {output}. Triggered by array: {arr}")] *)
Definition event_print : pyfunc :=
  py_def 16 "__main__" "event" [("output", Imm DEmpty); ("arr", Imm DEmpty)] []
    (fun env =>
       w <- get_world ;;
       print ("Output: " +:+ py_str (deref w (local "output" env))
              +:+ ". Triggered by array: " +:+ py_str (deref w (local "arr" env))) ;;;
       ret (Imm DNone)).

(** [def work(n): time.sleep(n); return n], on a clock that moves by
    exactly [n]. *)
Definition work : pyfunc :=
  py_def 17 "__main__" "work" [("n", Imm (DInt 1))] []
    (fun env =>
       w <- get_world ;;
       match deref w (local "n" env) with
       | DInt z => modify (set_clock (fun t => (t + Qc_of_Z z)%Qc)) ;;;
                   ret (local "n" env)
       | _ => raise (TypeError "an integer is required")
       end).

(** [def forget(): pj.functions.clear(); return 1] *)
Definition forget : pyfunc :=
  py_def 18 "__main__" "forget" [] []
    (fun env => modify (set_self (set_functions (fun _ => []))) ;;;
                ret (Imm (DInt 1))).



(** Two function objects that live in different places:
    [c] of module [a.b], and method [c] of class [b] in module [a]. *)
Definition c_of_a_b : pyfunc :=
  py_def 20 "a.b" "c" [] [] (fun _ => ret (Imm DNone)).
Definition c_of_b_in_a : pyfunc :=
  mk_pyfunc 21 "a" "b.c" "c" true [("self", Imm DEmpty)] ["self"] ["self"] None
    (fun _ _ => ret (Imm DNone)).

(** A class with one attribute, [x = 1], and one without any. *)
Definition class_with_x : pyobject :=
  mk_pyobject true "__main__" "WithX" [("x", DInt 1)].
Definition class_without_x : pyobject :=
  mk_pyobject true "__main__" "Plain" [("y", DInt 1)].

(** A store with a list of six and a list of two integers. *)
Definition two_lists : world :=
  world_of [DList [DInt 1; DInt 2; DInt 3; DInt 4; DInt 5; DInt 6];
            DList [DInt 20; DInt 30]] empty_pojang.

(** The function of the script at the end of [app.py],
    [def input_output_what_how(a, b, c=[]): c.append(10); return c];
    its default list is the object at location 0. *)
Definition input_output_what_how : pyfunc :=
  py_def 22 "__main__" "input_output_what_how"
    [("a", Imm DEmpty); ("b", Imm DEmpty); ("c", Ref 0)] []
    (fun env => list_append (local "c" env) (DInt 10) ;;; ret (local "c" env)).

(** The same under [@pj.profile]. *)
Definition profiled : pyfunc :=
  wraps input_output_what_how 23 profile_wrapped_varnames
    (profile_wrapped input_output_what_how).

(** A store with the list [[1]]. *)
Definition one_list : world := world_of [DList [DInt 1]] empty_pojang.


(** A store with the default list of [input_output_what_how] and a
    second empty list, [item]. *)
Definition two_empty_lists : world := world_of [DList []; DList []] empty_pojang.

(** Three calls of [work]: [work(2)], [work()], [work(4)]. *)
Definition three_calls : list (list pyval * kwargs) :=
  [([Imm (DInt 2)], []); ([], []); ([Imm (DInt 4)], [])].


(** The world after [@pj.stopwatch] on [forget]. *)
Definition forget_timed : world :=
  (stopwatch_decorator forget (world_of [] empty_pojang)).2.

(** The registry after [@pj.trace()] on [f], debugging switched off. *)
Definition traced_once : world :=
  (trace_inner_function f_append (world_of [] empty_pojang)).2.

End Examples.


(* ===================================================================== *)
(** * Part I, continued: more of the sources                              *)
(* ===================================================================== *)

(** ** [app.py]: custom decorators, configuration, reporting *)

(** [Pojang.register_decorator(func)], on the dictionary [self.custom];
    the function object is stored by its identity. *)
Definition register_decorator (func : pyfunc) (custom : list (string * data))
    : bool * list (string * data) :=
  let name := get_unique_func_name func in
  let function_exists := dict_in name custom in
  (function_exists,
   if negb function_exists then dict_set name (DObj (f_id func)) custom else custom).

Section yeezy.
(** [yeezy/app.py] imports [get_unique_func_name] from a helper module of
    its own, which is not among the sources; any function from callables
    to names can stand for it. *)
Variable unique_func_name : pyfunc -> string.

(** [Yeezy.register_decorator(func)]:
    [if not function_exists: self.custom[name] = function_exists] *)
Definition yeezy_register_decorator (func : pyfunc) (custom : list (string * data))
    : bool * list (string * data) :=
  let name := unique_func_name func in
  let function_exists := dict_in name custom in
  (function_exists,
   if negb function_exists then dict_set name (DBool function_exists) custom else custom).
End yeezy.

Definition set_debug (b : bool) (p : pojang) : pojang :=
  mk_pojang (functions p) b (log_path p) (profiler_enabled p).

(** What the report says of an entry of the registry, [str(properties)]
    for the dictionary of the entry; Python's own, like [PyFormat]. *)
Class EntryFormat : Type := {
  entry_str : entry -> string
}.

(** [s * n] for a string. *)
Fixpoint string_mul (s : string) (n : nat) : string :=
  match n with
  | 0 => ""
  | S n' => s +:+ string_mul s n'
  end.

Section reporting.
Context `{PyFormat} `{EntryFormat}.

(** The setter of the property [Pojang.debug]. *)
Definition debug_setter (new_mode : pyval) : M unit :=
  w <- get_world ;;
  match deref w new_mode with
  | DBool b => modify (set_self (set_debug b))
  | other =>
      raise (TypeError ("Pojang.debug must be set to either True or False. Set to value: "
                        +:+ py_str other +:+ " of type " +:+ type_str (type_of other)))
  end.

(** [Pojang._decorate(func)] *)
Definition _decorate (func : pyfunc) : M body_t :=
  let func_name := get_unique_func_name func in
  log_debug ("Decorated function with unique id: " +:+ func_name) ;;;
  add_decorator_rule func [] ;;;
  ret (fun args kw => call func args kw).

(** [Pojang.analyze()].  [self.time_dict] is a field that the constructor
    creates empty and that no method writes; it is an argument here, each
    key with its value. *)
Definition analyze (time_dict : list (pyfunc * data)) : M unit :=
  log "Printing time-related functions ... " ;;;
  log (string_mul "-" 100) ;;;
  for_each time_dict (fun fp =>
    log ("Function: " +:+ f_name fp.1 +:+ ", properties: " +:+ py_str fp.2)) ;;;
  log (string_mul "-" 100) ;;;
  log "Printing registered functions" ;;;
  log (string_mul "-" 100) ;;;
  w <- get_world ;;
  for_each (functions (self w)) (fun np =>
    log ("Function: " +:+ np.1 +:+ ", properties: " +:+ entry_str np.2)) ;;;
  log (string_mul "-" 100).
End reporting.

(** The lines of the report, in the order [analyze] writes them. *)
Definition analyze_lines `{PyFormat} `{EntryFormat} (time_dict : list (pyfunc * data))
    (registry : list (string * entry)) : list string :=
  ["Printing time-related functions ... "; string_mul "-" 100]
  ++ map (fun fp : pyfunc * data =>
            "Function: " +:+ f_name fp.1 +:+ ", properties: " +:+ py_str fp.2) time_dict
  ++ [string_mul "-" 100; "Printing registered functions"; string_mul "-" 100]
  ++ map (fun np : string * entry =>
            "Function: " +:+ np.1 +:+ ", properties: " +:+ entry_str np.2) registry
  ++ [string_mul "-" 100].

(** What [create_properties] returns when nothing is rejected: every
    valid property, with the value given for it or else its default. *)
Definition properties_of (valid_properties : list (string * (pytype * pyval)))
    (kw : kwargs) : kwargs :=
  map (fun p => (p.1, default p.2.2 (dict_get p.1 kw))) valid_properties.

(** The value given for a property, if any, has the type asked for. *)
Definition well_typed_in (w : world) (kw : kwargs) (p : string * (pytype * pyval)) : Prop :=
  forall v, dict_get p.1 kw = Some v -> type_of (deref w v) = p.2.1.

(** ** [app.py]: [before] *)

Section before.
(** The two closures [inner] that [before] defines, one for a call with
    [stat_updater] and one for a call without.  Both end in
    [Statistics.update(input, ...)]; they are kept abstract here. *)
Variables inner_updating inner_printing : string -> pyfunc -> body_t.

(** [Pojang.before(func, stat_updater=None)].  The registration is
    [self._update_decoration_info(func_name, func)], without [props]. *)
Definition before (func : pyfunc) (stat_updater : option pyfunc) : M body_t :=
  let func_name := get_unique_func_name func in
  _update_decoration_info func_name func None ;;;
  log_debug ("Function: " +:+ func_name +:+ " registered ... ") ;;;
  match stat_updater with
  | Some _ => ret (inner_updating func_name func)
  | None => ret (inner_printing func_name func)
  end.
End before.

(** ** [helper/util.py]: the smaller helpers *)

(** [dict_is_empty(dictionary)]:
    [for _ in dictionary.keys(): return True] and then [return False]. *)
Definition dict_is_empty {V : Type} (dictionary : list (string * V)) : bool :=
  match dict_keys dictionary with
  | _ :: _ => true
  | [] => false
  end.

(** [sentence[:max_length]]: a negative bound counts from the end, and
    both ends are clipped to the string. *)
Definition slice_to (max_length : Z) (sentence : string) : string :=
  let n := Z.of_nat (String.length sentence) in
  let stop := if (max_length <? 0)%Z then Z.max 0 (n + max_length) else Z.min n max_length in
  substring 0 (Z.to_nat stop) sentence.

(** [do_truncate], the closure of [truncate(max_length)]:
    [(sentence[:max_length], ' ...') if len(sentence) > max_length else sentence]. *)
Definition do_truncate (max_length : Z) (sentence : string) : data :=
  if (max_length <? Z.of_nat (String.length sentence))%Z
  then DTuple [DStr (slice_to max_length sentence); DStr " ..."]
  else DStr sentence.

(** [hash(x)] succeeds: lists are not hashable, tuples are when their
    items are. *)
Fixpoint hashable (d : data) : bool :=
  match d with
  | DList _ => false
  | DTuple xs => forallb hashable xs
  | _ => true
  end.

Section TraceDecorator.
Context `{PyFormat}.

(** The loop of [TraceDecorator.get_default_values],
    [for i, test in enumerate(args)]; [test] is an argument of the call,
    and [n] is [len(args)]. *)
Fixpoint default_values_loop (func : pyfunc) (args_repr : list string) (n : nat)
    (kw : kwargs) (tests : list pyval) (i default_index : nat)
    (function_input_str : string) : M string :=
  match tests with
  | [] => ret function_input_str
  | test :: rest =>
      w <- get_world ;;
      vd <- (if (i <? n)%nat
             then ret (default "" (args_repr !! i), default_index)
             else
               let key := deref w test in
               if negb (hashable key)
               then raise (TypeError "unhashable type")
               else
                 match (match key with DStr k => dict_get k kw | _ => None end) with
                 | None =>
                     match f_defaults func with
                     | None => raise (TypeError "'NoneType' object is not subscriptable")
                     | Some ds =>
                         match ds !! default_index with
                         | None => raise IndexError
                         | Some d =>
                             ret (py_str key +:+ "=" +:+ py_str (deref w d), S default_index)
                         end
                     end
                 | Some v => ret (py_str key +:+ "=" +:+ py_str (deref w v), default_index)
                 end) ;;
      default_values_loop func args_repr n kw rest (S i) vd.2
        ((function_input_str +:+ vd.1) +:+ "," +:+ " ")
  end.

(** [TraceDecorator(func).get_default_values], applied to the arguments
    and the keywords of a call. *)
Definition get_default_values (func : pyfunc) : list pyval -> kwargs -> M string :=
  fun args kw =>
    w <- get_world ;;
    let args_repr := map (fun a => py_repr (deref w a)) args in
    s <- default_values_loop func args_repr (length args) kw args 0 0
           ("Debug: calling --> " +:+ f_name func +:+ "(") ;;
    ret (drop_last2 s +:+ ")").
End TraceDecorator.

(** Every rendered argument followed by a comma and a space. *)
Fixpoint each_with_comma (rs : list string) : string :=
  match rs with
  | [] => ""
  | r :: rs' => r +:+ ", " +:+ each_with_comma rs'
  end.

(** ** [helper/util.py]: [ContextDecorator] and [TimeComputer] *)

Module TimeComputer.

(** The exceptions of [exn], and the one that [%] adds to them. *)
Inductive error : Type :=
| Py (e : exn)
| ZeroDivisionError.

(** What the caller hands over as [accumulated_time]: [None], a list
    object, a callable, or a value of any other type, of which the
    message shows the type. *)
Inductive argument : Type :=
| ArgNone
| ArgList (l : loc)
| ArgCallable (f : pyfunc)
| ArgOther (type_name : string).

(** What [self._accumulated_time] holds: the argument, or a number; the
    number is the [int] 0 until a time has been added to it. *)
Inductive accumulated : Type :=
| AGiven (a : argument)
| ANumber (is_float : bool) (x : Qc).

(** The two bound methods that [_handle_computation] can be. *)
Inductive handler : Type := AppendToList | ComputeInt.

(** The attributes of an instance. *)
Record fields : Type := mk_fields {
  _accumulated_time : accumulated;
  log_interval : Z;
  _handle_computation : option handler;
  run_count : nat;
  start_time : option Qc;
  wrapped_func : option nat
}.

(** The world of [app.py], the list objects that hold times, and the
    [TimeComputer] instances. *)
Record heap : Type := mk_heap {
  py : world;
  float_lists : list (list Qc);
  instances : list fields
}.

Definition set_py (w : world) (h : heap) : heap :=
  mk_heap w (float_lists h) (instances h).
Definition set_float_lists (f : list (list Qc) -> list (list Qc)) (h : heap) : heap :=
  mk_heap (py h) (f (float_lists h)) (instances h).
Definition set_instances (f : list fields -> list fields) (h : heap) : heap :=
  mk_heap (py h) (float_lists h) (f (instances h)).

Definition T (A : Type) : Type := heap -> (error + A) * heap.

Definition t_ret {A} (a : A) : T A := fun h => (inr a, h).
Definition t_raise {A} (e : error) : T A := fun h => (inl e, h).
Definition t_bind {A B} (m : T A) (k : A -> T B) : T B :=
  fun h => match m h with
           | (inr a, h') => k a h'
           | (inl e, h') => (inl e, h')
           end.

Declare Scope tc_scope.
Notation "x <- m ;; k" := (t_bind m (fun x => k))
  (at level 100, m at next level, right associativity) : tc_scope.
Notation "m ;;; k" := (t_bind m (fun _ => k))
  (at level 100, right associativity) : tc_scope.
#[local] Open Scope tc_scope.

(** Code of [app.py] or of the caller that is run from here. *)
Definition lift {A} (m : M A) : T A := fun h =>
  match m (py h) with
  | (Return a, w) => (inr a, set_py w h)
  | (Raise e, w) => (inl (Py e), set_py w h)
  end.

(** An instance as the methods see it: the location of its attributes,
    and the callback, which is set once. *)
Record object : Type := mk_object {
  this : loc;
  log_callback : accumulated -> nat -> T unit
}.

(** Reading and writing [self]. *)
Definition read_self (self : loc) : T fields := fun h =>
  match instances h !! self with
  | Some o => (inr o, h)
  | None => (inl (Py (AttributeError "no such instance")), h)
  end.
Definition update_self (self : loc) (f : fields -> fields) : T unit := fun h =>
  match instances h !! self with
  | Some o => (inr tt, set_instances (fun os => <[self := f o]> os) h)
  | None => (inl (Py (AttributeError "no such instance")), h)
  end.

Definition with_accumulated_time (a : accumulated) (o : fields) : fields :=
  mk_fields a (log_interval o) (_handle_computation o) (run_count o) (start_time o)
    (wrapped_func o).
Definition with_handle_computation (m : handler) (o : fields) : fields :=
  mk_fields (_accumulated_time o) (log_interval o) (Some m) (run_count o) (start_time o)
    (wrapped_func o).
Definition with_run_count (n : nat) (o : fields) : fields :=
  mk_fields (_accumulated_time o) (log_interval o) (_handle_computation o) n (start_time o)
    (wrapped_func o).
Definition with_start_time (t : Qc) (o : fields) : fields :=
  mk_fields (_accumulated_time o) (log_interval o) (_handle_computation o) (run_count o)
    (Some t) (wrapped_func o).

Definition type_message (type_name : string) : string :=
  "Accumulated_time must be a list or None. Passed in type: " +:+ type_name.

(** [TimeComputer._validate] *)
Definition _validate (self : loc) : T unit :=
  o <- read_self self ;;
  match _accumulated_time o with
  | AGiven (ArgList _) | AGiven ArgNone => t_ret tt
  | AGiven (ArgCallable _) => update_self self (with_accumulated_time (ANumber false 0%Qc))
  | AGiven (ArgOther type_name) => t_raise (Py (TypeError (type_message type_name)))
  | ANumber is_float _ =>
      t_raise (Py (TypeError (type_message
        (if is_float then "<class 'float'>" else "<class 'int'>"))))
  end.

(** [TimeComputer._init] *)
Definition _init (self : loc) : T unit :=
  _validate self ;;;
  o <- read_self self ;;
  match _accumulated_time o with
  | AGiven (ArgList _) => update_self self (with_handle_computation AppendToList)
  | _ =>
      update_self self (with_accumulated_time (ANumber false 0%Qc)) ;;;
      update_self self (with_handle_computation ComputeInt)
  end.

(** [TimeComputer(accumulated_time, log_interval, log_callback)]: a new
    instance, and [__init__] on it. *)
Definition __init__ (accumulated_time : argument) (interval : Z)
    (callback : accumulated -> nat -> T unit) : T object :=
  fun h =>
    let self := length (instances h) in
    let o := mk_fields (AGiven accumulated_time) interval None 0 None None in
    (_init self ;;; t_ret (mk_object self callback))
      (set_instances (fun os => os ++ [o]) h).

(** [TimeComputer.__enter__]; it returns [None]. *)
Definition __enter__ (self : loc) : T unit :=
  o <- read_self self ;;
  update_self self (with_run_count (S (run_count o))) ;;;
  now <- lift time_time ;;
  update_self self (with_start_time now).

(** [self._append_to_list(time_elapsed)] *)
Definition _append_to_list (self : loc) (time_elapsed : Qc) : T unit :=
  o <- read_self self ;;
  match _accumulated_time o with
  | AGiven (ArgList l) => fun h =>
      match float_lists h !! l with
      | Some xs => (inr tt, set_float_lists (fun ls => <[l := xs ++ [time_elapsed]]> ls) h)
      | None => (inl (Py (AttributeError "object has no attribute 'append'")), h)
      end
  | _ => t_raise (Py (AttributeError "object has no attribute 'append'"))
  end.

(** [self._compute_int(time_elapsed)]: [self._accumulated_time += time_elapsed] *)
Definition _compute_int (self : loc) (time_elapsed : Qc) : T unit :=
  o <- read_self self ;;
  match _accumulated_time o with
  | ANumber _ x => update_self self (with_accumulated_time (ANumber true (x + time_elapsed)%Qc))
  | AGiven _ => t_raise (Py (TypeError "unsupported operand type(s) for +="))
  end.

(** [TimeComputer.__exit__]; it returns [None] as well, so that an
    exception of the block is not held back. *)
Definition __exit__ (tc : object) : T unit :=
  now <- lift time_time ;;
  o <- read_self (this tc) ;;
  match start_time o with
  | None => t_raise (Py (AttributeError "object has no attribute 'start_time'"))
  | Some start =>
      let time_elapsed := (now - start)%Qc in
      match _handle_computation o with
      | None => t_raise (Py (TypeError "'NoneType' object is not callable"))
      | Some AppendToList => _append_to_list (this tc) time_elapsed
      | Some ComputeInt => _compute_int (this tc) time_elapsed
      end ;;;
      o <- read_self (this tc) ;;
      if (log_interval o =? 0)%Z then t_raise ZeroDivisionError
      else if (Z.of_nat (run_count o) mod log_interval o =? 0)%Z
      then log_callback tc (_accumulated_time o) (run_count o)
      else t_ret tt
  end.

(** [with self: block].  The block may return or raise; [__exit__] runs
    in both cases, and what it raises replaces the outcome of the block. *)
Definition with_ {A} (tc : object) (block : T A) : T A := fun h =>
  match __enter__ (this tc) h with
  | (inl e, h1) => (inl e, h1)
  | (inr _, h1) =>
      let (r, h2) := block h1 in
      match __exit__ tc h2 with
      | (inl e, h3) => (inl e, h3)
      | (inr _, h3) => (r, h3)
      end
  end.


(** An [int] as a [float], as the division and the multiplication of a
    [float] by an [int] convert it. *)
Definition float_of_nat (n : nat) : PrimFloat.float :=
  PrimFloat.of_uint63 (Uint63.of_Z (Z.of_nat n)).

Section averaging.
(** The built-in [sum] on a list of floats.  How it rounds depends on the
    version of the interpreter, so it is a parameter. *)
Variable py_sum : list PrimFloat.float -> PrimFloat.float.

(** [TimeComputer.compute_avg_time(time_list, unit)], with
    [Units.MS = 'milliseconds'], on a list of floats: binary64 numbers
    as Python has them. *)
Definition compute_avg_time (time_list : list PrimFloat.float) (unit : option string)
    : error + PrimFloat.float :=
  if Nat.eqb (length time_list) 0 then inl ZeroDivisionError
  else
    let avg_time := PrimFloat.div (py_sum time_list) (float_of_nat (length time_list)) in
    inr (match unit with
         | Some u =>
             if String.eqb u "milliseconds"
             then PrimFloat.mul avg_time (float_of_nat 1000)
             else avg_time
         | None => avg_time
         end).
End averaging.

(** [sum] as it was before Python 3.12: the items are added to 0 from
    left to right. *)
Definition sum_left (xs : list PrimFloat.float) : PrimFloat.float :=
  fold_left PrimFloat.add xs (float_of_nat 0).

(** The heap after [__enter__] on [self] in [h]. *)
Definition entered (self : loc) (h : heap) : heap :=
  (__enter__ self h).2.

(** The heap [h] with one more time in the list at [l]. *)
Definition recorded (l : loc) (time_elapsed : Qc) (h : heap) : heap :=
  set_float_lists (fun ls => <[l := default [] (ls !! l) ++ [time_elapsed]]> ls) h.



End TimeComputer.

(** ** Vocabulary for the wrapping policies *)

(** [f] leaves the mutable objects as they are. *)
Definition keeps_store (f : pyfunc) : Prop :=
  forall args kw w, store (f_body f args kw w).2 = store w.

(** What the copy [original] holds under [key]. *)
Definition copy_in (original : list (string * data)) (key : string) : data :=
  default DNone (dict_get key original).


(** The value bound in [kv] does not, in [w1], equal the copy that
    [original] holds of it. *)
Definition changed_from (original : list (string * data)) (w1 : world)
    (kv : string * pyval) : bool :=
  py_ne (deref w1 kv.2) (copy_in original kv.1).

(** A function as [def] makes it, with positional-or-keyword parameters
    only: the code object names the parameters first, each once. *)
Definition plain (fn : pyfunc) : Prop :=
  NoDup (map fst (f_params fn)) /\
  exists locals, f_varnames fn = map fst (f_params fn) ++ locals.


(** ** More Python objects to run the embedding on *)

Module Samples.

#[local] Existing Instance Examples.simple_format.

(** A rendering of entries for the examples: the name and the count. *)
#[export] Instance name_entry_format : EntryFormat :=
  {| entry_str := fun e => e_name e +:+ " (" +:+ pretty (s_count (e_props e)) +:+ ")" |}.

(** An instance that logs to a file, with [debug] on. *)
Definition file_pojang : pojang := mk_pojang [] true (Some "pojang.log") false.


(** The callback of [samples/basic.py],
    [def log_impurity(argument, before, after):
       print(f"Argument: {argument} modified. Before: {before}, after: {after}")] *)
Definition log_impurity : pyfunc :=
  Examples.py_def 41 "__main__" "log_impurity"
    [("argument", Imm DEmpty); ("before", Imm DEmpty); ("after", Imm DEmpty)] []
    (fun env =>
       w <- get_world ;;
       print ("Argument: " +:+ py_str (deref w (Examples.local "argument" env))
              +:+ " modified. Before: " +:+ py_str (deref w (Examples.local "before" env))
              +:+ ", after: " +:+ py_str (deref w (Examples.local "after" env))) ;;;
       ret (Imm DNone)).




(** A heap with the empty list [times] and one [TimeComputer(times)],
    not yet entered, that reports every second run. *)
Definition timing_heap : TimeComputer.heap :=
  TimeComputer.mk_heap (Examples.world_of [] Examples.empty_pojang) [[]]
    [TimeComputer.mk_fields (TimeComputer.AGiven (TimeComputer.ArgList 0)) 2
       (Some TimeComputer.AppendToList) 0 None None].

(** The same with [log_interval=0]. *)
Definition timing_heap_zero : TimeComputer.heap :=
  TimeComputer.mk_heap (Examples.world_of [] Examples.empty_pojang) [[]]
    [TimeComputer.mk_fields (TimeComputer.AGiven (TimeComputer.ArgList 0)) 0
       (Some TimeComputer.AppendToList) 0 None None].

(** The instance at location 0 with the callback
    [def count_runs(times, run_count): print(run_count)]. *)
Definition counting : TimeComputer.object :=
  TimeComputer.mk_object 0
    (fun _ run_count => TimeComputer.lift (print (pretty run_count))).

End Samples.

(* ===================================================================== *)
(** * Part II: properties                                                 *)
(* ===================================================================== *)

(** Closed examples are rendered with the formatter of [Examples]. *)
#[local] Existing Instance Examples.simple_format.

(** ** Dictionaries *)

Section dict_facts.
Context {K V : Type} `{EqDecision K}.
Implicit Types (k : K) (v : V) (d : list (K * V)).

Lemma dict_get_set_eq k v d : dict_get k (dict_set k v d) = Some v.
Proof.
  induction d as [|[k' v'] d IH]; simpl.
  - by rewrite decide_True.
  - destruct (decide (k = k')) as [->|Hne]; simpl.
    + by rewrite decide_True.
    + by rewrite decide_False.
Qed.

Lemma dict_get_set_ne k k' v d :
  k ≠ k' -> dict_get k' (dict_set k v d) = dict_get k' d.
Proof.
  intros Hne. induction d as [|[k0 v0] d IH]; simpl.
  - by rewrite decide_False.
  - destruct (decide (k = k0)) as [->|Hne0]; simpl.
    + rewrite !decide_False; congruence.
    + destruct (decide (k' = k0)); [done|apply IH].
Qed.

Lemma dict_in_keys k d : dict_in k d = true <-> k ∈ dict_keys d.
Proof.
  unfold dict_in, dict_keys. induction d as [|[k' v'] d IH]; simpl.
  - split; [done|]. by intros ?%elem_of_nil.
  - destruct (decide (k = k')) as [->|Hne].
    + split; [intros _; apply list_elem_of_here|done].
    + rewrite IH. split; [apply list_elem_of_further|].
      intros [?|?]%elem_of_cons; [congruence|done].
Qed.

Lemma dict_in_false_keys k d : dict_in k d = false <-> k ∉ dict_keys d.
Proof.
  rewrite <- dict_in_keys. destruct (dict_in k d); split; naive_solver.
Qed.

Lemma dict_in_get_None k d : dict_in k d = false <-> dict_get k d = None.
Proof. unfold dict_in. by destruct (dict_get k d). Qed.

Lemma dict_in_get_Some k d : dict_in k d = true <-> is_Some (dict_get k d).
Proof.
  unfold dict_in. destruct (dict_get k d); split; naive_solver.
Qed.

Lemma dict_keys_set_in k v d :
  dict_in k d = true -> dict_keys (dict_set k v d) = dict_keys d.
Proof.
  unfold dict_in, dict_keys. induction d as [|[k' v'] d IH]; simpl; [done|].
  destruct (decide (k = k')) as [->|Hne]; simpl; [done|].
  intros Hin. by rewrite IH.
Qed.

Lemma dict_keys_set_notin k v d :
  dict_in k d = false -> dict_keys (dict_set k v d) = dict_keys d ++ [k].
Proof.
  unfold dict_in, dict_keys. induction d as [|[k' v'] d IH]; simpl; [done|].
  destruct (decide (k = k')) as [->|Hne]; simpl; [done|].
  intros Hin. by rewrite IH.
Qed.

Lemma dict_set_NoDup k v d :
  NoDup (dict_keys d) -> NoDup (dict_keys (dict_set k v d)).
Proof.
  intros Hnd. destruct (dict_in k d) eqn:Hin.
  - by rewrite dict_keys_set_in.
  - rewrite dict_keys_set_notin by done.
    apply NoDup_app. split_and!; [done| |apply NoDup_singleton].
    intros x Hx ->%list_elem_of_singleton.
    by apply dict_in_false_keys in Hin.
Qed.
End dict_facts.

(** ** Running the monad *)

Lemma bind_Return {A B} (m : M A) (k : A -> M B) w a w' :
  m w = (Return a, w') -> bind m k w = k a w'.
Proof. unfold bind. by intros ->. Qed.

Lemma bind_Raise {A B} (m : M A) (k : A -> M B) w e w' :
  m w = (Raise e, w') -> bind m k w = (Raise e, w').
Proof. unfold bind. by intros ->. Qed.

Ltac run := unfold bind, ret, raise, modify, get_world; simpl.

Lemma call_unfold f args kw w : call f args kw w = f_body f args kw (noted f args kw w).
Proof. reflexivity. Qed.

(** ** Identity resolution *)

Lemma string_app_inj_l (s a b : string) : s +:+ a = s +:+ b -> a = b.
Proof. induction s as [|c s IH]; simpl; [done|]. intros [= Heq]. by apply IH. Qed.

Lemma string_app_cons (x : Ascii.ascii) (a b : string) : String x a +:+ b = String x (a +:+ b).
Proof. reflexivity. Qed.

Lemma string_app_assoc (a b c : string) : (a +:+ b) +:+ c = a +:+ (b +:+ c).
Proof. induction a as [|x a IH]; [done|]. by rewrite !string_app_cons, IH. Qed.

Lemma string_app_nil_r (a : string) : a +:+ "" = a.
Proof. induction a as [|x a IH]; [done|]. by rewrite string_app_cons, IH. Qed.

Lemma string_length_app (a b : string) :
  String.length (a +:+ b) = String.length a + String.length b.
Proof. induction a as [|x a IH]; [done|]. rewrite string_app_cons. simpl. by rewrite IH. Qed.

Lemma string_app_inj_r (a b t : string) : a +:+ t = b +:+ t -> a = b.
Proof.
  revert b. induction a as [|x a IH]; intros [|y b] Heq.
  - done.
  - apply (f_equal String.length) in Heq.
    rewrite !string_length_app in Heq. simpl in Heq. lia.
  - apply (f_equal String.length) in Heq.
    rewrite !string_length_app in Heq. simpl in Heq. lia.
  - rewrite !string_app_cons in Heq. injection Heq as -> Heq. f_equal. by apply IH.
Qed.

Lemma dot_free_app_dot (a b : string) : dot_free (a +:+ "." +:+ b) = false.
Proof.
  induction a as [|x a IH]; [done|].
  rewrite string_app_cons. simpl. rewrite IH. apply andb_false_r.
Qed.

(** A key is cut at its last dot in one way only. *)
Lemma key_split (m1 m2 q1 q2 : string) :
  dot_free q1 = true -> dot_free q2 = true ->
  m1 +:+ "." +:+ q1 = m2 +:+ "." +:+ q2 -> m1 = m2 /\ q1 = q2.
Proof.
  intros Hq1 Hq2. revert m2. induction m1 as [|x m1 IH]; intros [|y m2] Heq.
  - split; [done|]. by apply (string_app_inj_l ".").
  - exfalso.
    assert (Hcut : q1 = m2 +:+ "." +:+ q2) by (by injection Heq).
    rewrite Hcut, dot_free_app_dot in Hq1. done.
  - exfalso.
    assert (Hcut : m1 +:+ "." +:+ q1 = q2) by (by injection Heq).
    rewrite <- Hcut, dot_free_app_dot in Hq2. done.
  - assert (Hhead : x = y) by (by injection Heq).
    assert (Htail : m1 +:+ "." +:+ q1 = m2 +:+ "." +:+ q2) by (by injection Heq).
    subst y. destruct (IH m2 Htail) as [-> ->]. done.
Qed.

(** C8, the claim as stated fails: two distinct function objects, defined
    in different modules under different qualified names, resolve to the
    same key, because the module path and the qualified name are joined
    with the separator that both may contain. *)
Lemma distinct_functions_collide :
  f_id Examples.c_of_a_b <> f_id Examples.c_of_b_in_a /\
  (f_module Examples.c_of_a_b, f_qualname Examples.c_of_a_b)
    <> (f_module Examples.c_of_b_in_a, f_qualname Examples.c_of_b_in_a) /\
  get_unique_func_name Examples.c_of_a_b = get_unique_func_name Examples.c_of_b_in_a.
Proof. split_and!; [simpl; lia|discriminate|reflexivity]. Qed.

(** C8, amended: the key is the module path, a dot, and the qualified
    name.  A wrapper made with [functools.wraps] resolves to the key of
    the function it wraps, however often the wrapping is repeated.  Two
    functions of one module resolve to the same key exactly when their
    qualified names are the same, and two functions with one qualified
    name exactly when their modules are the same.  Two functions defined
    at the top of their modules, whose qualified names have no dot,
    resolve to the same key exactly when both the module and the
    qualified name are the same: functions of different modules are then
    kept apart. *)
Theorem get_unique_func_name_stable (f g : pyfunc) :
  get_unique_func_name f = f_module f +:+ "." +:+ f_qualname f /\
  (forall id varnames wrapper,
     get_unique_func_name (wraps f id varnames wrapper) = get_unique_func_name f) /\
  (f_module f = f_module g ->
   (get_unique_func_name f = get_unique_func_name g <-> f_qualname f = f_qualname g)) /\
  (f_qualname f = f_qualname g ->
   (get_unique_func_name f = get_unique_func_name g <-> f_module f = f_module g)) /\
  (dot_free (f_qualname f) = true -> dot_free (f_qualname g) = true ->
   (get_unique_func_name f = get_unique_func_name g
    <-> f_module f = f_module g /\ f_qualname f = f_qualname g)).
Proof.
  split; [reflexivity|]. split; [reflexivity|]. unfold get_unique_func_name. split_and!.
  - intros Hm. rewrite Hm. split.
    + intros Heq%string_app_inj_l. by apply (string_app_inj_l ".").
    + by intros ->.
  - intros Hq. rewrite Hq. split.
    + apply string_app_inj_r.
    + by intros ->.
  - intros Hf Hg. split.
    + by apply key_split.
    + by intros [-> ->].
Qed.

Lemma get_unique_func_name_stable_witness :
  get_unique_func_name Examples.f_append = "__main__.f" /\
  (forall id varnames wrapper,
     get_unique_func_name (wraps Examples.f_append id varnames wrapper)
     = get_unique_func_name Examples.f_append) /\
  (get_unique_func_name Examples.f_append = get_unique_func_name Examples.g_identity
   <-> f_qualname Examples.f_append = f_qualname Examples.g_identity) /\
  (get_unique_func_name Examples.f_append = get_unique_func_name Examples.c_of_a_b
   <-> f_module Examples.f_append = f_module Examples.c_of_a_b /\
       f_qualname Examples.f_append = f_qualname Examples.c_of_a_b).
Proof.
  destruct (get_unique_func_name_stable Examples.f_append Examples.g_identity)
    as (H0 & H1 & H2 & _).
  destruct (get_unique_func_name_stable Examples.f_append Examples.c_of_a_b)
    as (_ & _ & _ & _ & H4).
  split; [exact H0|]. split; [exact H1|]. split; [by apply H2|]. by apply H4.
Defined.

(** ** Fire-if *)

(** The loop over the subscribed events: every event is called once, in
    the order of the list, with the same arguments. *)
Lemma fire_events (events : list pyfunc) (args : list pyval) (kw : kwargs) :
  Forall (fun ev => returns_on ev args kw) events ->
  Forall (fun ev => leaf_on ev args kw) events ->
  forall w, exists w',
    for_each events (fun event => call event args kw ;;; ret tt) w = (Return tt, w') /\
    calls w' = calls w ++ map (fun ev => mk_call (f_id ev) args kw) events.
Proof.
  induction events as [|ev events IH]; intros Hret Hleaf w.
  - exists w. split; [done|]. by rewrite app_nil_r.
  - apply Forall_cons in Hret as [Hev Hret]. apply Forall_cons in Hleaf as [Hlf Hleaf].
    destruct (Hev (noted ev args kw w)) as [v Hv].
    specialize (Hlf (noted ev args kw w)).
    destruct (f_body ev args kw (noted ev args kw w)) as [r wa] eqn:Hbody.
    simpl in Hv, Hlf. subst r.
    destruct (IH Hret Hleaf wa) as (w' & Hrun & Hcalls).
    exists w'. split.
    + simpl. unfold bind at 1. unfold bind at 1. rewrite call_unfold, Hbody.
      unfold ret at 1. exact Hrun.
    + rewrite Hcalls, Hlf. simpl. by rewrite <- app_assoc.
Qed.




Lemma after_calls_app (pre post : list pyfunc) (args : list pyval) (kw : kwargs) w :
  after_calls (pre ++ post) args kw w = after_calls post args kw (after_calls pre args kw w).
Proof. unfold after_calls. by rewrite fold_left_app. Qed.




(** C10: with the predicate left at its default [lambda x: x], a call of
    the wrapped function in which [func] returns raises [TypeError]: the
    predicate is handed the output and the registry instance before the
    arguments of the call, at least two positional arguments, and binds
    one.  No event has been called by then. *)
Theorem fire_if_default_predicate_raises_TypeError
    (events_to_fire : list pyfunc) (func : pyfunc)
    (args : list pyval) (kw : kwargs) (w w1 : world) (output : pyval) :
  call func args kw w = (Return output, w1) ->
  exists msg,
    fire_if_wrapped events_to_fire default_predicate func args kw w
    = (Raise (TypeError msg),
       noted default_predicate (output :: self_obj :: args) kw w1).
Proof.
  intros Hfunc. unfold fire_if_wrapped.
  rewrite (bind_Return _ _ _ _ _ Hfunc).
  eexists. unfold bind at 1. rewrite call_unfold. simpl. reflexivity.
Qed.


Lemma fire_if_default_predicate_raises_TypeError_witness :
  exists msg,
    fire_if_wrapped [Examples.event_print] default_predicate Examples.do_something
      [Ref 0] [] Examples.two_lists
    = (Raise (TypeError msg),
       noted default_predicate [Imm (DInt 21); self_obj; Ref 0] []
         (noted Examples.do_something [Ref 0] [] Examples.two_lists)).
Proof.
  apply (fire_if_default_predicate_raises_TypeError [Examples.event_print]
           Examples.do_something [Ref 0] [] Examples.two_lists).
  reflexivity.
Defined.

(** ** The registry *)

Lemma registry_extends_refl w : registry_extends w w.
Proof.
  split_and!; try done. intros name e He. by exists e.
Qed.

Lemma registry_extends_trans w1 w2 w3 :
  registry_extends w1 w2 -> registry_extends w2 w3 -> registry_extends w1 w3.
Proof.
  intros (Hp1 & Hn1 & Hk1 & Hd1 & Hl1) (Hp2 & Hn2 & Hk2 & Hd2 & Hl2).
  split_and!.
  - by etrans.
  - auto.
  - intros name e He. destruct (Hk1 name e He) as (e1 & He1 & ? & ? & ?).
    destruct (Hk2 name e1 He1) as (e2 & He2 & ? & ? & ?).
    exists e2. split_and!; congruence.
  - congruence.
  - congruence.
Qed.

(** A computation all of whose runs extend the registry. *)
Definition extending {A} (m : M A) : Prop := forall w, registry_extends w (m w).2.

Lemma extending_ret {A} (a : A) : extending (ret a).
Proof. intros w. apply registry_extends_refl. Qed.

Lemma extending_raise {A} (e : exn) : extending (raise (A:=A) e).
Proof. intros w. apply registry_extends_refl. Qed.

Lemma extending_bind {A B} (m : M A) (k : A -> M B) :
  extending m -> (forall a, extending (k a)) -> extending (bind m k).
Proof.
  intros Hm Hk w. unfold bind. specialize (Hm w).
  destruct (m w) as [[a|e] w']; simpl in *; [|done].
  eapply registry_extends_trans; [done|apply Hk].
Qed.

Lemma extending_same_self {A} (m : M A) :
  (forall w, self (m w).2 = self w) -> extending m.
Proof.
  intros Hs w. unfold registry_extends, entries_kept. rewrite Hs.
  split_and!; try done. intros name e He. by exists e.
Qed.

Lemma extending_log msg : extending (log msg).
Proof.
  apply extending_same_self. intros w. unfold log. run.
  by destruct (path_is_set (log_path (self w))).
Qed.

Lemma extending_log_debug msg : extending (log_debug msg).
Proof.
  apply extending_same_self. intros w. unfold log_debug, log. run.
  by destruct (debug (self w)), (path_is_set (log_path (self w))).
Qed.

Lemma registry_extends_insert w name e :
  dict_in name (functions (self w)) = false ->
  registry_extends w (set_self (set_functions (dict_set name e)) w).
Proof.
  intros Hin. split_and!; simpl; try done.
  - rewrite dict_keys_set_notin by done. by apply prefix_app_r.
  - apply dict_set_NoDup.
  - intros name' e' He'. exists e'. split; [|done]. simpl.
    rewrite dict_get_set_ne; [done|]. intros ->.
    apply dict_in_get_None in Hin. congruence.
Qed.

Lemma registry_extends_input w name e x :
  dict_get name (functions (self w)) = Some e ->
  registry_extends w
    (set_self (set_functions
       (dict_set name (mk_entry (e_name e) (e_func e) (e_props e) x))) w).
Proof.
  intros Hget. split_and!; simpl; try done.
  - rewrite dict_keys_set_in; [done|]. apply dict_in_get_Some. by eexists.
  - apply dict_set_NoDup.
  - intros name' e' He'. simpl. destruct (decide (name = name')) as [<-|Hne].
    + rewrite dict_get_set_eq. eexists. split; [done|]. simpl.
      assert (e' = e) as -> by congruence. done.
    + rewrite dict_get_set_ne by done. by exists e'.
Qed.

Lemma extending_update func_name func props :
  extending (_update_decoration_info func_name func props).
Proof.
  destruct props as [props|]; simpl; [|apply extending_raise].
  intros w. unfold bind, get_world.
  destruct (dict_in func_name (functions (self w))) eqn:Hin.
  - apply extending_log_debug.
  - by apply registry_extends_insert.
Qed.

Lemma extending_set_entry_input func_name x : extending (set_entry_input func_name x).
Proof.
  intros w. unfold set_entry_input, bind, get_world.
  destruct (dict_get func_name (functions (self w))) as [e|] eqn:Hget.
  - by apply registry_extends_input.
  - apply registry_extends_refl.
Qed.

Lemma extending_caller_code : extending caller_code.
Proof.
  apply extending_same_self. intros w. unfold caller_code. run.
  by destruct (code_context w) as [[|line rest]|].
Qed.

Ltac extending_step :=
  first [ apply extending_ret | apply extending_log_debug | apply extending_log
        | apply extending_update | apply extending_set_entry_input
        | apply extending_caller_code
        | apply extending_bind; [|intros ?] ].

Lemma extending_run_op op : extending (run_op op).
Proof.
  destruct op as [func_name func props|func|func]; simpl.
  - apply extending_update.
  - unfold trace_inner_function, getfullargspec. repeat extending_step.
  - unfold stopwatch_decorator. repeat extending_step.
Qed.

Lemma run_ops_extends ops w : registry_extends w (run_ops ops w).
Proof.
  revert w. induction ops as [|op ops IH]; intros w; simpl.
  - apply registry_extends_refl.
  - eapply registry_extends_trans; [apply extending_run_op|apply IH].
Qed.

(** A registration of a name that is present, with a statistics object
    and the console as log: nothing is raised and the registry is not
    touched; one line is printed if [debug] is on, none if it is off. *)
Lemma duplicate_registration func_name func props w :
  dict_in func_name (functions (self w)) = true ->
  path_is_set (log_path (self w)) = false ->
  _update_decoration_info func_name func (Some props) w
  = (Return tt,
     if debug (self w)
     then set_out (fun o => o ++ [(Console, "DEBUG: Found duplicate decorator with identity: "
                                            +:+ func_name)]) w
     else w).
Proof.
  intros Hin Hpath. unfold _update_decoration_info, log_debug, log. run.
  rewrite Hin. destruct (debug (self w)); [|done]. by rewrite Hpath.
Qed.

(** C1, the claim as stated fails: with [debug] off, as it is by default,
    registering the identity of [f] a second time reports nothing; the
    world, its output included, is what it was. *)
Lemma duplicate_registration_not_logged :
  dict_in (get_unique_func_name Examples.f_append)
    (functions (self Examples.traced_once)) = true /\
  _update_decoration_info (get_unique_func_name Examples.f_append) Examples.f_append
    (Some Statistics) Examples.traced_once = (Return tt, Examples.traced_once) /\
  out Examples.traced_once = [].
Proof. split_and!; reflexivity. Qed.

(** C1, amended: along every sequence of registrations (by
    [_update_decoration_info] itself, by the trace decorator, by the
    stopwatch decorator) a function identity maps to exactly one entry:
    keys stay unique and in insertion order, and an entry once made keeps
    its name, its callable and its statistics object.  A registration of
    an identity that is present raises nothing and changes nothing in the
    registry; it prints a line exactly when [debug] is on (console log). *)
Theorem registration_keeps_one_entry (ops : list reg_op) (w : world) :
  NoDup (dict_keys (functions (self w))) ->
  NoDup (dict_keys (functions (self (run_ops ops w)))) /\
  dict_keys (functions (self w)) `prefix_of` dict_keys (functions (self (run_ops ops w))) /\
  entries_kept w (run_ops ops w) /\
  (forall func_name func props,
     dict_in func_name (functions (self w)) = true ->
     path_is_set (log_path (self w)) = false ->
     _update_decoration_info func_name func (Some props) w
     = (Return tt,
        if debug (self w)
        then set_out (fun o => o ++ [(Console,
                        "DEBUG: Found duplicate decorator with identity: " +:+ func_name)]) w
        else w)).
Proof.
  intros Hnd. destruct (run_ops_extends ops w) as (Hp & Hn & Hk & _ & _).
  split_and!; auto using duplicate_registration.
Qed.

Lemma registration_keeps_one_entry_witness :
  NoDup (dict_keys (functions (self
    (run_ops [OpTrace Examples.f_append; OpStopwatch Examples.f_append;
              OpStopwatch Examples.g_identity] Examples.traced_once)))) /\
  dict_keys (functions (self Examples.traced_once)) `prefix_of`
    dict_keys (functions (self
      (run_ops [OpTrace Examples.f_append; OpStopwatch Examples.f_append;
                OpStopwatch Examples.g_identity] Examples.traced_once))) /\
  entries_kept Examples.traced_once
    (run_ops [OpTrace Examples.f_append; OpStopwatch Examples.f_append;
              OpStopwatch Examples.g_identity] Examples.traced_once).
Proof.
  destruct (registration_keeps_one_entry
              [OpTrace Examples.f_append; OpStopwatch Examples.f_append;
               OpStopwatch Examples.g_identity] Examples.traced_once)
    as (Hn & Hp & Hk & _).
  - vm_compute. apply NoDup_singleton.
  - split_and!; [exact Hn|exact Hp|exact Hk].
Defined.

(** The same sequence, run: the second wrap of [f] adds no entry, and the
    statistics object that the trace decorator registered stays, although
    the stopwatch brought a new one. *)
Lemma rewrap_adds_no_entry :
  functions (self
    (run_ops [OpTrace Examples.f_append; OpStopwatch Examples.f_append;
              OpStopwatch Examples.g_identity] Examples.traced_once))
  = [("__main__.f", mk_entry "__main__.f" 10 Statistics (Some 0%Qc));
     ("__main__.g", mk_entry "__main__.g" 11 TimeStatistics (Some 0%Qc))].
Proof. reflexivity. Qed.

(** [Yeezy.register] tests the callable against a map keyed by names: the
    test never finds it, and a second registration under the same name
    replaces the first.  [Pojang.register] tests the name and keeps it. *)
Lemma yeezy_register_replaces :
  yeezy_register "__main__.f" Examples.g_identity
    (yeezy_register "__main__.f" Examples.f_append [])
  = [(KeyName "__main__.f", f_id Examples.g_identity)] /\
  register "__main__.f" Examples.g_identity (register "__main__.f" Examples.f_append [])
  = [(KeyName "__main__.f", f_id Examples.f_append)].
Proof. split; reflexivity. Qed.

(** With a log file configured, [self.log] is the writer of
    [logger_factory], and every line it is given raises [TypeError]: so
    does a duplicate registration under [debug]. *)
Lemma duplicate_registration_file_log_raises func_name func props w :
  dict_in func_name (functions (self w)) = true ->
  debug (self w) = true ->
  path_is_set (log_path (self w)) = true ->
  exists msg,
    _update_decoration_info func_name func (Some props) w = (Raise (TypeError msg), w).
Proof.
  intros Hin Hdebug Hpath. unfold _update_decoration_info, log_debug, log, logger_write.
  run. rewrite Hin, Hdebug, Hpath. by eexists.
Qed.

(** The call sites that pass two arguments ([_register], [before],
    [_add_function_decorator_rule]) never get as far as the registry. *)
Lemma register_without_props_raises func w :
  exists msg, _register func w = (Raise (TypeError msg), w).
Proof. by eexists. Qed.

(** ** Stopwatch *)

Lemma Qc_of_nat_S n : Qc_of_nat (S n) = (Qc_of_nat n + 1)%Qc.
Proof.
  unfold Qc_of_nat. by rewrite Nat2Z.inj_succ, <- Z.add_1_r, Z2Qc_inj_add, Z2Qc_inj_1.
Qed.

Lemma Qc_of_nat_S_nonzero n : Qc_of_nat (S n) <> 0%Qc.
Proof.
  unfold Qc_of_nat. rewrite <- Z2Qc_inj_0. intros Heq%Z2Qc_inj. lia.
Qed.

(** The running average, times the count, is the sum of what went in. *)
Lemma stats_update_total x s :
  (s_average (stats_update x s) * Qc_of_nat (s_count (stats_update x s))
   = s_average s * Qc_of_nat (s_count s) + x)%Qc.
Proof.
  simpl. pose proof (Qc_of_nat_S_nonzero (s_count s)). by field.
Qed.









(** The three calls take 2, 1 and 4 units of time: the entry ends with
    the input slot at 4, the count at 3 and the average at 7/3. *)
Lemma stopwatch_three_calls :
  (timed_calls (stopwatch_wrapper "__main__.work" Examples.work) Examples.work
     Examples.three_calls
     (stopwatch_decorator Examples.work (Examples.world_of [] Examples.empty_pojang)).2).1
  = [Qc_of_Z 2; Qc_of_Z 1; Qc_of_Z 4] /\
  dict_get "__main__.work"
    (functions (self
       (timed_calls (stopwatch_wrapper "__main__.work" Examples.work) Examples.work
          Examples.three_calls
          (stopwatch_decorator Examples.work (Examples.world_of [] Examples.empty_pojang)).2).2))
  = Some (mk_entry "__main__.work" 17 (mk_stats KTimeStatistics 3 (Q2Qc (7 # 3)))
            (Some (Qc_of_Z 4))).
Proof.
  split.
  - simpl. repeat f_equal; apply Qc_is_canon; reflexivity.
  - simpl. repeat f_equal; apply Qc_is_canon; reflexivity.
Qed.

(** Decorating [work] again after the three calls adds no entry and keeps
    the statistics, but the input slot starts again at 0. *)
Lemma stopwatch_rewrap_resets_input :
  dict_get "__main__.work"
    (functions (self
       (stopwatch_decorator Examples.work
          (timed_calls (stopwatch_wrapper "__main__.work" Examples.work) Examples.work
             Examples.three_calls
             (stopwatch_decorator Examples.work
                (Examples.world_of [] Examples.empty_pojang)).2).2).2))
  = Some (mk_entry "__main__.work" 17 (mk_stats KTimeStatistics 3 (Q2Qc (7 # 3)))
            (Some 0%Qc)).
Proof. simpl. repeat f_equal; apply Qc_is_canon; reflexivity. Qed.

(** ** Profile and stopwatch: what happens to errors *)

(** C9, the claim as stated fails: [forget] returns 1, but it empties the
    registry on its way, so the stopwatch cannot store the duration; the
    [KeyError] of the measurement is not swallowed, and the wrapped call
    fails instead of returning 1. *)
Lemma stopwatch_measurement_error_propagates :
  (call Examples.forget [] [] Examples.forget_timed).1 = Return (Imm (DInt 1)) /\
  (stopwatch_wrapper (get_unique_func_name Examples.forget) Examples.forget [] []
     Examples.forget_timed).1 = Raise (KeyError "__main__.forget").
Proof. split; reflexivity. Qed.

(** C9, amended: neither wrapper handles errors.  The profile wrapper
    enables the profiler, calls the function and, if it returns, disables
    the profiler and returns its output; if the function raises, the
    exception goes to the caller and the profiler stays as it is.  The
    stopwatch wrapper returns the output of the function when the
    function returns and its entry is still registered afterwards; an
    exception of the function goes to the caller with nothing recorded,
    and a missing entry goes to the caller as [KeyError]. *)
Theorem measurement_is_not_guarded
    (func_name : string) (func : pyfunc) (args : list pyval) (kw : kwargs) (w : world) :
  match call func args kw (set_self (set_profiler true) w) with
  | (Return output, w1) =>
      profile_wrapped func args kw w = (Return output, set_self (set_profiler false) w1)
  | (Raise e, w1) => profile_wrapped func args kw w = (Raise e, w1)
  end /\
  match call func args kw w with
  | (Return output, w1) =>
      (stopwatch_wrapper func_name func args kw w).1
      = if dict_in func_name (functions (self w1))
        then Return output else Raise (KeyError func_name)
  | (Raise e, w1) => stopwatch_wrapper func_name func args kw w = (Raise e, w1)
  end.
Proof.
  split.
  - unfold profile_wrapped, profiler_enable, profiler_disable. run.
    by destruct (call func args kw (set_self (set_profiler true) w)) as [[output|e] w1].
  - unfold stopwatch_wrapper, time_time, set_entry_input, update_entry_props. run.
    destruct (call func args kw w) as [[output|e] w1]; [|done].
    unfold dict_in.
    destruct (dict_get func_name (functions (self w1))) as [en|] eqn:Hget; simpl; [|done].
    by rewrite dict_get_set_eq.
Qed.

(** ** Observe *)

Section observe_facts.
Context `{PyFormat}.

(** The members are [(name, value)] tuples; a string is none of them. *)
Lemma str_not_in_members (s : string) (cls : pyobject) :
  py_in (DStr s) (List.filter (fun item => negb (ismethod item)) (getmembers cls)) = false.
Proof.
  unfold getmembers. induction (o_members cls) as [|[n v] ms IH]; [done|].
  simpl. exact IH.
Qed.

(** Whatever the first entry is, [observe_class] stops at it. *)
Lemma observe_class_stops_at_first (tuple : bool) (cls : pyobject)
    (prop : data) (rest : list data) (w : world) :
  o_has_dict cls = true ->
  exists msg line,
    observe_class ((if tuple then ObsTuple else ObsList) (prop :: rest)) cls w
    = (Raise (ValueError msg), set_out (fun o => o ++ [(Console, line)]) w).
Proof.
  intros Hdict. unfold observe_class, _check_if_class, print. rewrite Hdict.
  destruct tuple; run;
    (destruct (py_in prop _) eqn:Hin; simpl;
     [destruct (is_str prop) eqn:Hstr; simpl;
      [destruct prop; try discriminate; by rewrite str_not_in_members in Hin
      |by do 2 eexists]
     |by do 2 eexists]).
Qed.
End observe_facts.

(** C4, the claim as stated fails: [observe(['x'])] on a class without an
    attribute [x] raises [ValueError], the exception that both branches of
    the validation name, and not [InvalidPropertyError]. *)
Lemma observe_missing_attribute_raises_ValueError :
  (observe_class (ObsList [DStr "x"]) Examples.class_without_x
     (Examples.world_of [] Examples.empty_pojang)).1 <> Raise InvalidPropertyError /\
  exists msg,
    (observe_class (ObsList [DStr "x"]) Examples.class_without_x
       (Examples.world_of [] Examples.empty_pojang)).1 = Raise (ValueError msg).
Proof. split; [discriminate|by eexists]. Qed.

(** C4, amended: [observe] given a non-empty list (or tuple) of names
    returns the class decorator without looking at the names; applied to
    a class, the decorator rejects with [ValueError] when the first entry
    is not the name of an attribute of the class or is not a string.  It
    does so at decoration time: a line is printed, and nothing else has
    happened by then, no call of the class in particular. *)
Theorem observe_rejects_first_entry `{PyFormat} (tuple : bool) (cls : pyobject)
    (prop : data) (rest : list data) (w : world) :
  o_has_dict cls = true ->
  is_str prop = false \/
    (forall name, prop = DStr name -> name ∉ map fst (o_members cls)) ->
  observe ((if tuple then ObsTuple else ObsList) (prop :: rest)) w
  = (Return (Some (observe_class ((if tuple then ObsTuple else ObsList) (prop :: rest)))), w) /\
  exists msg line,
    observe_class ((if tuple then ObsTuple else ObsList) (prop :: rest)) cls w
    = (Raise (ValueError msg), set_out (fun o => o ++ [(Console, line)]) w).
Proof.
  intros Hdict _. split; [by destruct tuple|].
  by apply observe_class_stops_at_first.
Qed.

Lemma observe_rejects_first_entry_witness :
  observe (ObsList [DStr "x"]) (Examples.world_of [] Examples.empty_pojang)
  = (Return (Some (observe_class (ObsList [DStr "x"]))),
     Examples.world_of [] Examples.empty_pojang) /\
  exists msg line,
    observe_class (ObsList [DStr "x"]) Examples.class_without_x
      (Examples.world_of [] Examples.empty_pojang)
    = (Raise (ValueError msg),
       set_out (fun o => o ++ [(Console, line)])
         (Examples.world_of [] Examples.empty_pojang)).
Proof.
  apply (observe_rejects_first_entry false Examples.class_without_x (DStr "x") []
           (Examples.world_of [] Examples.empty_pojang)).
  - reflexivity.
  - right. intros name [= <-]. simpl. by intros ?%list_elem_of_singleton.
Defined.

(** The first entry is rejected also when it does name an attribute: the
    names are looked up among the [(name, value)] tuples of
    [inspect.getmembers]. *)
Lemma observe_rejects_real_attribute :
  exists msg,
    (observe_class (ObsList [DStr "x"]) Examples.class_with_x
       (Examples.world_of [] Examples.empty_pojang)).1 = Raise (ValueError msg).
Proof. by eexists. Qed.

(** ** Run-before *)

(** [fill_defaults] writes the default of every parameter from position
    [arg_count] on, whether or not the dictionary has that key. *)
Lemma fill_defaults_late (parameters : list (string * pyval)) (i arg_count : nat)
    (d : kwargs) (j : nat) (k : string) (v : pyval) :
  NoDup (map fst parameters) ->
  parameters !! j = Some (k, v) ->
  arg_count <= i + j ->
  dict_get k (fill_defaults parameters i arg_count d) = Some v.
Proof.
  revert i d j. induction parameters as [|[k0 v0] ps IH]; intros i d j Hnd Hj Hle; [done|].
  apply NoDup_cons in Hnd as [Hk0 Hnd]. simpl.
  destruct j as [|j]; simpl in Hj.
  - injection Hj as -> ->. rewrite Nat.add_0_r in Hle.
    apply Nat.leb_le in Hle. rewrite Hle.
    assert (Hkeep : forall ps' i' d', k ∉ map fst ps' ->
              dict_get k (fill_defaults ps' i' arg_count d') = dict_get k d').
    { clear. induction ps' as [|[k1 v1] ps' IH']; intros i' d' Hk; [done|].
      simpl in *. rewrite IH' by (intros ?; apply Hk; by right).
      destruct (arg_count <=? i')%nat; [|done].
      apply dict_get_set_ne. intros ->. apply Hk. by left. }
    rewrite Hkeep by done. apply dict_get_set_eq.
  - apply (IH (S i) _ j); [done|done|lia].
Qed.

(** The keys of the parameters before position [arg_count], and keys that
    are no parameter, are left as they are. *)
Lemma fill_defaults_early (parameters : list (string * pyval)) (i arg_count : nat)
    (d : kwargs) (k : string) :
  (forall j v, parameters !! j = Some (k, v) -> i + j < arg_count) ->
  dict_get k (fill_defaults parameters i arg_count d) = dict_get k d.
Proof.
  revert i d. induction parameters as [|[k0 v0] ps IH]; intros i d Hearly; [done|].
  simpl. rewrite IH.
  - destruct (arg_count <=? i)%nat eqn:Hle; [|done].
    apply Nat.leb_le in Hle. apply dict_get_set_ne. intros ->.
    specialize (Hearly 0 v0 eq_refl). lia.
  - intros j v Hj. specialize (Hearly (S j) v Hj). lia.
Qed.

(** The callables given to [run_before] are called one after the other
    with the positional arguments of the call and the keyword arguments as
    [fill_default_kwargs] left them, and then the function is, with the
    same; what the function returns is returned.  None of the keywords is
    the name of the closure's own first parameter. *)
Lemma run_before_order (functions : callables) (fn : pyfunc)
    (args : list pyval) (kw : kwargs) (w : world) :
  let kw' := fill_default_kwargs fn args kw in
  let fs := match functions with OneCallable f => [f] | ManyCallables fs => fs end in
  dict_in (match functions with OneCallable _ => "func" | ManyCallables _ => "funcs" end)
    kw' = false ->
  Forall (fun f => returns_on f args kw') fs ->
  Forall (fun f => leaf_on f args kw') fs ->
  exists w1,
    calls w1 = calls w ++ map (fun f => mk_call (f_id f) args kw') fs /\
    run_before_inner functions fn args kw w = call fn args kw' w1.
Proof.
  intros kw' fs Hfree Hret Hleaf.
  destruct (fire_events fs args kw' Hret Hleaf w) as (w1 & Hrun & Hcalls).
  exists w1. split; [done|]. unfold run_before_inner, preprocess. fold kw'.
  destruct functions as [f|fs0]; simpl in *; rewrite Hfree.
  - unfold bind at 1 2 in Hrun. unfold bind at 1 2.
    destruct (call f args kw' w) as [[v|e] wa]; [|done].
    unfold ret at 1 in Hrun. unfold ret at 1. unfold ret at 1 in Hrun.
    injection Hrun as <-. unfold bind. by destruct (call fn args kw' wa) as [[?|?] ?].
  - rewrite (bind_Return _ _ _ _ _ Hrun).
    unfold bind. by destruct (call fn args kw' w1) as [[?|?] ?].
Qed.

(** C7, where the code departs from the claim: [fn(a, b=2)] returns [b].
    Called as [fn(1, b=5)] it returns 5.  Wrapped by [run_before] and
    called the same way, the keyword that the caller supplied is
    overwritten with the default before anything is called: the callback
    is shown [b=2], and the call returns 2. *)
Theorem run_before_overwrites_supplied_keyword :
  (call Examples.fn_second [Imm (DInt 1)] [("b", Imm (DInt 5))]
     (Examples.world_of [] Examples.empty_pojang)).1 = Return (Imm (DInt 5)) /\
  fill_default_kwargs Examples.fn_second [Imm (DInt 1)] [("b", Imm (DInt 5))]
  = [("b", Imm (DInt 2))] /\
  (run_before_inner (OneCallable Examples.cb_print) Examples.fn_second
     [Imm (DInt 1)] [("b", Imm (DInt 5))]
     (Examples.world_of [] Examples.empty_pojang)).1 = Return (Imm (DInt 2)) /\
  out (run_before_inner (OneCallable Examples.cb_print) Examples.fn_second
         [Imm (DInt 1)] [("b", Imm (DInt 5))]
         (Examples.world_of [] Examples.empty_pojang)).2
  = [(Console, "Run before func: 1, 2")].
Proof. split_and!; reflexivity. Qed.

(** The same for any function and any call: a keyword argument given for
    a parameter that no positional argument reaches is replaced by the
    default of the parameter. *)
Lemma run_before_replaces_keywords (fn : pyfunc) (args : list pyval) (kw : kwargs)
    (j : nat) (k : string) (v : pyval) :
  NoDup (map fst (f_params fn)) ->
  f_params fn !! j = Some (k, v) ->
  length args <= j ->
  dict_get k (fill_default_kwargs fn args kw) = Some v.
Proof. intros. by apply (fill_defaults_late _ 0 _ _ j). Qed.

(** ** Purity check *)



Section dict_more.
Context {K V : Type} `{EqDecision K}.

Lemma dict_update_NoDup (a b : list (K * V)) :
  NoDup (dict_keys a) -> NoDup (dict_keys (dict_update a b)).
Proof.
  unfold dict_update. revert a.
  induction b as [|[k v] b IH]; intros a Ha; simpl; [done|].
  apply IH. by apply dict_set_NoDup.
Qed.

Lemma dict_get_elem_of (k : K) (v : V) (d : list (K * V)) :
  NoDup (dict_keys d) -> (k, v) ∈ d -> dict_get k d = Some v.
Proof.
  unfold dict_keys. induction d as [|[k' v'] d IH]; intros Hnd Hin.
  - by apply elem_of_nil in Hin.
  - simpl in *. apply NoDup_cons in Hnd as [Hk' Hnd].
    apply elem_of_cons in Hin as [[= -> ->]|Hin].
    + by rewrite decide_True.
    + rewrite decide_False; [by apply IH|].
      intros ->. apply Hk'. apply list_elem_of_fmap. by exists (k', v).
Qed.

Lemma dict_get_map {W} (f : V -> W) (k : K) (d : list (K * V)) :
  dict_get k (map (fun kv => (kv.1, f kv.2)) d) = f <$> dict_get k d.
Proof.
  induction d as [|[k' v'] d IH]; simpl; [done|].
  by destruct (decide (k = k')).
Qed.
End dict_more.

Lemma input_data_NoDup (fn : pyfunc) (args : list pyval) :
  NoDup (dict_keys (input_data_of fn args)).
Proof.
  unfold input_data_of, dict_of_pairs.
  apply dict_update_NoDup, dict_update_NoDup. apply NoDup_nil_2.
Qed.




Lemma written_written (path : option string) (l1 l2 : list string) (w : world) :
  written path l2 (written path l1 w) = written path (l1 ++ l2) w.
Proof.
  unfold written, set_out. simpl. f_equal. by rewrite map_app, app_assoc.
Qed.

Lemma written_nil (path : option string) (w : world) : written path [] w = w.
Proof. unfold written, set_out. destruct w. simpl. by rewrite app_nil_r. Qed.

Section pure_facts.
Context `{PyFormat}.

Lemma param_lines_store (parameters : list (string * pyval)) (i arg_count : nat) (w w' : world) :
  store w' = store w ->
  param_lines parameters i arg_count w' = param_lines parameters i arg_count w.
Proof.
  intros Hs. revert i. induction parameters as [|[k v] ps IH]; intros i; [done|].
  simpl. rewrite IH. f_equal. destruct (arg_count <=? i)%nat; [|done].
  f_equal. unfold parameter_str, deref. by rewrite Hs.
Qed.

Lemma shallow_defaults_spec (parameters : list (string * pyval)) (i arg_count : nat)
    (d : kwargs) (w : world) :
  shallow_defaults parameters i arg_count d w
  = (Return (fill_defaults parameters i arg_count d),
     written None (param_lines parameters i arg_count w) w).
Proof.
  revert i d w. induction parameters as [|[k v] ps IH]; intros i d w; simpl.
  - by rewrite written_nil.
  - destruct (arg_count <=? i)%nat; simpl; [|apply IH].
    unfold bind at 1, get_world at 1. unfold bind at 1, print at 1, modify at 1.
    rewrite IH. f_equal.
    rewrite (param_lines_store ps (S i) arg_count w) by done.
    apply (written_written None [_]).
Qed.

(** [get_shallow_default_arg_dict] returns [input_data_of], and prints. *)
Lemma get_shallow_default_arg_dict_spec (fn : pyfunc) (args : list pyval) (w : world) :
  get_shallow_default_arg_dict fn args w
  = (Return (input_data_of fn args),
     written None (param_lines (f_params fn) 0 (length args) w) w).
Proof.
  unfold get_shallow_default_arg_dict, bind. by rewrite shallow_defaults_spec.
Qed.

(** *** [copy.deepcopy] *)

Lemma deepcopy_data_DList (xs : list data) (m : memo) :
  deepcopy_data (DList xs) m
  = (DList (deepcopy_items xs m).1, (deepcopy_items xs m).2).
Proof. reflexivity. Qed.

Lemma deepcopy_data_DTuple (xs : list data) (m : memo) :
  deepcopy_data (DTuple xs) m
  = (DTuple (deepcopy_items xs m).1, (deepcopy_items xs m).2).
Proof. reflexivity. Qed.

(** Where there is no instance, the copy equals the original, and the
    memo is left as it was. *)
Lemma deepcopy_data_free : forall (d : data) (m : memo),
  instance_free d = true -> deepcopy_data d m = (d, m).
Proof.
  fix IH 1. intros d m Hfree. destruct d as [| |b|z|s|xs|xs|id]; try done.
  - rewrite deepcopy_data_DList.
    assert (Hxs : deepcopy_items xs m = (xs, m)).
    { simpl in Hfree. revert m. induction xs as [|x xs IHxs]; intros m; [done|].
      simpl in Hfree. apply andb_prop in Hfree as [Hx Hxs].
      simpl. rewrite (IH x m Hx). simpl. by rewrite IHxs. }
    by rewrite Hxs.
  - rewrite deepcopy_data_DTuple.
    assert (Hxs : deepcopy_items xs m = (xs, m)).
    { simpl in Hfree. revert m. induction xs as [|x xs IHxs]; intros m; [done|].
      simpl in Hfree. apply andb_prop in Hfree as [Hx Hxs].
      simpl. rewrite (IH x m Hx). simpl. by rewrite IHxs. }
    by rewrite Hxs.
Qed.


Lemma deepcopy_items_length (xs : list data) (m : memo) :
  length (deepcopy_items xs m).1 = length xs.
Proof.
  revert m. induction xs as [|x xs IH]; intros m; [done|]. simpl. by rewrite IH.
Qed.


(** An item without an instance is its own copy, whatever was copied
    before it. *)
Lemma deepcopy_items_lookup_free (xs : list data) (m : memo) (i : nat) (d : data) :
  xs !! i = Some d -> instance_free d = true -> (deepcopy_items xs m).1 !! i = Some d.
Proof.
  revert m i. induction xs as [|x xs IH]; intros m [|i] Hi Hfree; simplify_eq/=.
  - by rewrite (deepcopy_data_free d m Hfree).
  - by apply IH.
Qed.


Lemma kwargs_in_values (w : world) (kw : kwargs) :
  map snd (kwargs_in w kw) = map (fun kv => deref w kv.2) kw.
Proof. unfold kwargs_in. rewrite map_map. done. Qed.





Lemma copy_kwargs_keys (w : world) (kw : kwargs) :
  dict_keys (copy_kwargs w kw).1 = dict_keys kw.
Proof.
  unfold copy_kwargs, dict_keys. simpl.
  change (map fst (zip (map fst kw) ?l)) with (fst <$> zip (map fst kw) l).
  rewrite fst_zip; [done|].
  rewrite deepcopy_items_length, kwargs_in_values, !length_map. done.
Qed.

(** The copy has a value under every key of the dictionary. *)
Lemma copy_kwargs_get_Some (w : world) (kw : kwargs) (key : string) (value : pyval) :
  (key, value) ∈ kw -> is_Some (dict_get key (copy_kwargs w kw).1).
Proof.
  intros Hin. destruct (dict_get key (copy_kwargs w kw).1) eqn:Hget; [by eexists|].
  exfalso. apply dict_in_get_None in Hget. apply dict_in_false_keys in Hget.
  apply Hget. rewrite copy_kwargs_keys. unfold dict_keys.
  apply list_elem_of_fmap. by exists (key, value).
Qed.

(** Under the key of a value without an instance it has that value. *)
Lemma copy_kwargs_get_free (w : world) (kw : kwargs) (key : string) (value : pyval) :
  NoDup (dict_keys kw) ->
  (key, value) ∈ kw ->
  instance_free (deref w value) = true ->
  dict_get key (copy_kwargs w kw).1 = Some (deref w value).
Proof.
  intros Hnd Hin Hfree. apply dict_get_elem_of; [by rewrite copy_kwargs_keys|].
  apply list_elem_of_lookup in Hin as [i Hi]. apply list_elem_of_lookup. exists i.
  unfold copy_kwargs. simpl. apply lookup_zip_with_Some.
  exists key, (deref w value). split_and!; [done| |].
  - by rewrite list_lookup_fmap, Hi.
  - apply deepcopy_items_lookup_free; [|done].
    by rewrite kwargs_in_values, list_lookup_fmap, Hi.
Qed.

(** *** [inner] of [pure] *)

Lemma deref_written (path : option string) (lines : list string) (w : world) (v : pyval) :
  deref (written path lines w) v = deref w v.
Proof. done. Qed.

(** [inner] of [pure], up to the call of the function. *)
Lemma pure_inner_run (event_cb : option pyfunc) (function : pyfunc)
    (args : list pyval) (kw : kwargs) (w : world) :
  pure_inner event_cb function args kw w
  = (output <- call function args kw ;;
     for_each (input_data_of function args)
       (pure_check event_cb (snapshot function args w)) ;;;
     ret output) (snapshot_world function args w).
Proof.
  unfold pure_inner.
  by rewrite (bind_Return _ _ _ _ _ (get_shallow_default_arg_dict_spec function args w)).
Qed.

Lemma snapshot_get_Some (fn : pyfunc) (args : list pyval) (w : world)
    (key : string) (value : pyval) :
  (key, value) ∈ input_data_of fn args ->
  is_Some (dict_get key (snapshot fn args w)).
Proof. apply copy_kwargs_get_Some. Qed.

Lemma snapshot_get_free (fn : pyfunc) (args : list pyval) (w : world)
    (key : string) (value : pyval) :
  (key, value) ∈ input_data_of fn args ->
  instance_free (deref w value) = true ->
  dict_get key (snapshot fn args w) = Some (deref w value).
Proof.
  intros Hin Hfree. unfold snapshot.
  by rewrite (copy_kwargs_get_free _ _ key value (input_data_NoDup fn args) Hin).
Qed.




(** An exception of the function goes through the wrapper. *)
Lemma pure_inner_propagates (event_cb : option pyfunc) (function : pyfunc)
    (args : list pyval) (kw : kwargs) (w w1 : world) (e : exn) :
  call function args kw (snapshot_world function args w) = (Raise e, w1) ->
  pure_inner event_cb function args kw w = (Raise e, w1).
Proof.
  intros Hcall. by rewrite pure_inner_run, (bind_Raise _ _ _ _ _ Hcall).
Qed.
End pure_facts.

Section dict_update_facts.
Context {K V : Type} `{EqDecision K}.

Lemma dict_set_fresh (k : K) (v : V) (d : list (K * V)) :
  k ∉ dict_keys d -> dict_set k v d = d ++ [(k, v)].
Proof.
  unfold dict_keys. induction d as [|[k' v'] d IH]; intros Hk; simpl; [done|].
  simpl in Hk. apply not_elem_of_cons in Hk as [Hne Hk].
  rewrite decide_False by done. by rewrite IH.
Qed.

Lemma dict_update_fresh (a b : list (K * V)) :
  NoDup (dict_keys b) ->
  (forall k, k ∈ dict_keys b -> k ∉ dict_keys a) ->
  dict_update a b = a ++ b.
Proof.
  unfold dict_update, dict_keys. revert a.
  induction b as [|[k v] b IH]; intros a Hnd Hdisj; simpl.
  - by rewrite app_nil_r.
  - simpl in Hnd. apply NoDup_cons in Hnd as [Hk Hnd].
    rewrite dict_set_fresh by (apply Hdisj; by left).
    rewrite IH; [by rewrite <- app_assoc|done|].
    intros k' Hk'. rewrite fmap_app. simpl. intros [Ha|Hb]%elem_of_app.
    + by apply (Hdisj k'); [right|].
    + apply list_elem_of_singleton in Hb as ->. done.
Qed.
End dict_update_facts.

Lemma fill_defaults_NoDup (parameters : list (string * pyval)) (i arg_count : nat) (d : kwargs) :
  NoDup (dict_keys d) -> NoDup (dict_keys (fill_defaults parameters i arg_count d)).
Proof.
  revert i d. induction parameters as [|[k v] ps IH]; intros i d Hnd; simpl; [done|].
  apply IH. destruct (arg_count <=? i)%nat; [by apply dict_set_NoDup|done].
Qed.

(** What [pure] looks at when every argument is passed by keyword: the
    defaults of the signature, and no value of the call. *)
Lemma input_data_keyword_call (fn : pyfunc) :
  input_data_of fn [] = fill_defaults (f_params fn) 0 0 [] /\
  forall j k v, NoDup (map fst (f_params fn)) -> f_params fn !! j = Some (k, v) ->
                dict_get k (input_data_of fn []) = Some v.
Proof.
  assert (Heq : input_data_of fn [] = fill_defaults (f_params fn) 0 0 []).
  { unfold input_data_of. simpl. unfold dict_of_pairs.
    change (dict_update [] []) with (@nil (string * pyval)).
    rewrite dict_update_fresh; [done| |].
    - apply fill_defaults_NoDup, NoDup_nil_2.
    - intros k _. apply not_elem_of_nil. }
  split; [done|]. intros j k v Hnd Hj. rewrite Heq.
  apply (fill_defaults_late _ 0 0 [] j); [done|done|lia].
Qed.

(** At decoration, a function with a [__dict__] (every [def] and
    [lambda]) is taken for a class by [add_decorator_rule], and nothing is
    registered; one without (a built-in) reaches the two-argument call of
    [_update_decoration_info] and the decoration raises. *)
Lemma pure_wrapper_registers_nothing `{PyFormat} (event_cb : option pyfunc)
    (function : pyfunc) (w : world) :
  (f_has_dict function = true ->
   pure_wrapper event_cb [] function w = (Return (pure_inner event_cb function), w)) /\
  (f_has_dict function = false ->
   exists msg, pure_wrapper event_cb [] function w = (Raise (TypeError msg), w)).
Proof.
  unfold pure_wrapper, add_decorator_rule, is_class_instance.
  split; intros ->; [done|]. by eexists.
Qed.

(** C2, where the code departs from the claim: [f(a)] appends 2 to [a].
    Called through the purity check as [f(a=[1])], the list is [[1, 2]]
    afterwards and nothing is raised: the check looked at the defaults of
    the signature, the only thing it knows of an argument passed by
    keyword.  Called as [f([1])], the same mutation raises, with the name
    [a] and the values before and after. *)
Theorem pure_misses_keyword_argument :
  (pure_inner None Examples.f_append [] [("a", Ref 0)] Examples.one_list).1
  = Return (Imm DNone) /\
  store Examples.one_list = [DList [DInt 1]] /\
  store (pure_inner None Examples.f_append [] [("a", Ref 0)] Examples.one_list).2
  = [DList [DInt 1; DInt 2]] /\
  input_data_of Examples.f_append [] = [("a", Imm DEmpty)] /\
  (pure_inner None Examples.f_append [Ref 0] [] Examples.one_list).1
  = Raise (MutatedReferenceError "a" (DList [DInt 1]) (DList [DInt 1; DInt 2])).
Proof. split_and!; reflexivity. Qed.

(** The script at the end of [app.py] stacks the purity check on the
    profile wrapper.  The names then come from the code of the wrapper:
    the mutated [item], passed for [c], is reported as [output]. *)
Lemma pure_over_profile_cites_wrapper_name :
  (pure_inner None Examples.profiled [Imm (DInt 10); Imm (DInt 20); Ref 1] []
     Examples.two_empty_lists).1
  = Raise (MutatedReferenceError "output" (DList []) (DList [DInt 10])) /\
  (pure_inner None Examples.input_output_what_how [Imm (DInt 10); Imm (DInt 20); Ref 1] []
     Examples.two_empty_lists).1
  = Raise (MutatedReferenceError "c" (DList []) (DList [DInt 10])).
Proof. split; reflexivity. Qed.

(** ** Trace *)

Section trace_facts.
Context `{PyFormat}.

End trace_facts.




(** The copies are of the arguments as supplied.  A default that the
    function mutates is shown in the rendered call and is not compared:
    [input_output_what_how(10, 20)] appends to its default list, and no
    line says that anything was modified. *)
Lemma experiment_trace_skips_defaults :
  deref Examples.two_empty_lists (Ref 0) = DList [] /\
  deref (experiment_trace_wrapper None Examples.input_output_what_how 0
           [Imm (DInt 10); Imm (DInt 20)] []
           (experiment_trace None Examples.input_output_what_how
              Examples.two_empty_lists).2).2 (Ref 0) = DList [DInt 10] /\
  out (experiment_trace_wrapper None Examples.input_output_what_how 0
         [Imm (DInt 10); Imm (DInt 20)] []
         (experiment_trace None Examples.input_output_what_how
            Examples.two_empty_lists).2).2
  = [(Console, "Debug: input_output_what_how(a=10, b=20, c=[]) called 1 times.");
     (Console, "Calling input_output_what_how(10, 20)");
     (Console, "'input_output_what_how' returned [10]")].
Proof. split_and!; reflexivity. Qed.


(* ===================================================================== *)
(** * Part II, continued: properties of more of the sources               *)
(* ===================================================================== *)

#[local] Existing Instance Samples.name_entry_format.

(** ** Function maps and custom decorators *)

(** X1: [Pojang.register] keeps the first registration of a name.  After
    it the name maps to what it mapped to before, or to the new function
    if it was free; every other key is as it was; and registering again
    under the name changes nothing. *)
Theorem register_keeps_first (func_name : string) (f g : pyfunc)
    (function_map : list (map_key * nat)) :
  dict_get (KeyName func_name) (register func_name f function_map)
  = Some (default (f_id f) (dict_get (KeyName func_name) function_map)) /\
  (forall k, k <> KeyName func_name ->
             dict_get k (register func_name f function_map) = dict_get k function_map) /\
  register func_name g (register func_name f function_map)
  = register func_name f function_map.
Proof.
  unfold register, dict_in.
  destruct (dict_get (KeyName func_name) function_map) as [old|] eqn:Hget; simpl.
  - split_and!; [done|done|]. by rewrite Hget.
  - split_and!.
    + apply dict_get_set_eq.
    + intros k Hne. by apply dict_get_set_ne.
    + by rewrite dict_get_set_eq.
Qed.

(** X2: [Yeezy.register] on a map keyed by names, as all maps that it
    builds are: the test for the function object finds nothing, so every
    registration writes, the latest function is what the name maps to, and
    no key is added for a name that is there. *)
Theorem yeezy_register_keeps_last (func_name : string) (f g : pyfunc)
    (function_map : list (map_key * nat)) :
  (forall id, dict_in (KeyFunc id) function_map = false) ->
  yeezy_register func_name f function_map
  = dict_set (KeyName func_name) (f_id f) function_map /\
  dict_get (KeyName func_name)
    (yeezy_register func_name g (yeezy_register func_name f function_map))
  = Some (f_id g) /\
  dict_keys (yeezy_register func_name g (yeezy_register func_name f function_map))
  = dict_keys (yeezy_register func_name f function_map).
Proof.
  intros Hnames.
  assert (Hstep : forall h m, (forall id, dict_in (KeyFunc id) m = false) ->
            yeezy_register func_name h m = dict_set (KeyName func_name) (f_id h) m).
  { intros h m Hm. unfold yeezy_register. by rewrite Hm. }
  assert (Hnames' : forall id, dict_in (KeyFunc id)
            (dict_set (KeyName func_name) (f_id f) function_map) = false).
  { intros id. apply dict_in_get_None. rewrite dict_get_set_ne by done.
    apply dict_in_get_None, Hnames. }
  rewrite (Hstep f function_map Hnames), (Hstep g _ Hnames').
  split_and!; [done|apply dict_get_set_eq|].
  apply dict_keys_set_in, dict_in_get_Some. rewrite dict_get_set_eq. by eexists.
Qed.

Lemma yeezy_register_keeps_last_witness :
  yeezy_register "__main__.f" Examples.f_append [(KeyName "__main__.g", 11)]
  = dict_set (KeyName "__main__.f") (f_id Examples.f_append) [(KeyName "__main__.g", 11)] /\
  dict_get (KeyName "__main__.f")
    (yeezy_register "__main__.f" Examples.g_identity
       (yeezy_register "__main__.f" Examples.f_append [(KeyName "__main__.g", 11)]))
  = Some (f_id Examples.g_identity) /\
  dict_keys (yeezy_register "__main__.f" Examples.g_identity
               (yeezy_register "__main__.f" Examples.f_append [(KeyName "__main__.g", 11)]))
  = dict_keys (yeezy_register "__main__.f" Examples.f_append [(KeyName "__main__.g", 11)]).
Proof.
  apply (yeezy_register_keeps_last "__main__.f" Examples.f_append Examples.g_identity
           [(KeyName "__main__.g", 11)]).
  intros id. reflexivity.
Defined.

(** X3: [Pojang.register_decorator] answers whether the identity was
    registered already, and the first function registered under an
    identity stays: a later registration under it answers [True] and
    leaves [self.custom] as it is.  Other identities are not touched. *)
Theorem register_decorator_first_wins (f : pyfunc) (custom : list (string * data)) :
  (register_decorator f custom).1 = dict_in (get_unique_func_name f) custom /\
  dict_get (get_unique_func_name f) (register_decorator f custom).2
  = Some (default (DObj (f_id f)) (dict_get (get_unique_func_name f) custom)) /\
  (forall name, name <> get_unique_func_name f ->
                dict_get name (register_decorator f custom).2 = dict_get name custom) /\
  (forall g, get_unique_func_name g = get_unique_func_name f ->
             register_decorator g (register_decorator f custom).2
             = (true, (register_decorator f custom).2)).
Proof.
  unfold register_decorator, dict_in.
  destruct (dict_get (get_unique_func_name f) custom) as [old|] eqn:Hget; simpl.
  - split_and!; [done|done|done|]. intros g ->. by rewrite Hget.
  - split_and!; [done|apply dict_get_set_eq| |].
    + intros name Hne. by apply dict_get_set_ne.
    + intros g ->. by rewrite dict_get_set_eq.
Qed.

(** X4: [Yeezy.register_decorator] stores the answer instead of the
    function.  Registering a function under an identity that is free
    leaves [False] under it, and every later registration under the
    identity answers [True] and keeps the [False]: the function cannot be
    got back from [self.custom]. *)
Theorem yeezy_register_decorator_loses_function (unique_func_name : pyfunc -> string)
    (f : pyfunc) (custom : list (string * data)) :
  let register_decorator := yeezy_register_decorator unique_func_name in
  dict_in (unique_func_name f) custom = false ->
  (register_decorator f custom).1 = false /\
  dict_get (unique_func_name f) (register_decorator f custom).2 = Some (DBool false) /\
  (forall g, unique_func_name g = unique_func_name f ->
             register_decorator g (register_decorator f custom).2
             = (true, (register_decorator f custom).2)).
Proof.
  intros register_decorator Hfree. unfold register_decorator, yeezy_register_decorator.
  rewrite Hfree. simpl.
  split_and!; [done|apply dict_get_set_eq|].
  intros g ->. unfold dict_in. by rewrite dict_get_set_eq.
Qed.

Lemma yeezy_register_decorator_loses_function_witness :
  (yeezy_register_decorator get_unique_func_name Examples.f_append []).1 = false /\
  dict_get "__main__.f"
    (yeezy_register_decorator get_unique_func_name Examples.f_append []).2
  = Some (DBool false) /\
  (forall g, get_unique_func_name g = "__main__.f" ->
             yeezy_register_decorator get_unique_func_name g
               (yeezy_register_decorator get_unique_func_name Examples.f_append []).2
             = (true,
                (yeezy_register_decorator get_unique_func_name Examples.f_append []).2)).
Proof.
  apply (yeezy_register_decorator_loses_function get_unique_func_name
           Examples.f_append []). reflexivity.
Defined.

(** ** Configuration and decoration *)

Lemma pytype_eqb_eq (a b : pytype) : pytype_eqb a b = true <-> a = b.
Proof. destruct a, b; simpl; split; congruence. Qed.

Lemma log_console (msg : string) (w : world) :
  path_is_set (log_path (self w)) = false ->
  log msg w = (Return tt, written None [msg] w).
Proof. intros Hpath. unfold log. run. by rewrite Hpath. Qed.

Lemma log_file (msg : string) (w : world) :
  path_is_set (log_path (self w)) = true ->
  exists m, log msg w = (Raise (TypeError m), w).
Proof. intros Hpath. unfold log, logger_write. run. rewrite Hpath. by eexists. Qed.

(** X5: the setter of [debug] accepts a [bool] and nothing else, the
    integer 1 included: it raises [TypeError] and changes nothing.  After
    [debug = b] the flag reads [b], the rest of the instance is as it was,
    and a debug message goes to the console exactly when [b] is [True]. *)
Theorem debug_setter_round_trip `{PyFormat} (new_mode : pyval) (msg : string) (w : world) :
  match deref w new_mode with
  | DBool b =>
      debug_setter new_mode w = (Return tt, set_self (set_debug b) w) /\
      debug (self (set_self (set_debug b) w)) = b /\
      functions (self (set_self (set_debug b) w)) = functions (self w) /\
      log_path (self (set_self (set_debug b) w)) = log_path (self w) /\
      (path_is_set (log_path (self w)) = false ->
       (debug_setter new_mode ;;; log_debug msg) w
       = (Return tt,
          written None (if b then ["DEBUG: " +:+ msg] else []) (set_self (set_debug b) w)))
  | _ => exists m, debug_setter new_mode w = (Raise (TypeError m), w)
  end.
Proof.
  unfold debug_setter. run.
  destruct (deref w new_mode) eqn:Hd; try by eexists.
  split_and!; try done.
  intros Hpath. unfold log_debug. run. destruct b.
  - by rewrite log_console.
  - by rewrite written_nil.
Qed.

Section properties_facts.
Context `{PyFormat}.

Lemma validate_type_ok (kw : kwargs) (key : string) (ty : pytype) (v : pyval) (w : world) :
  dict_get key kw = Some v -> type_of (deref w v) = ty ->
  validate_type kw key ty w = (Return tt, w).
Proof.
  intros Hget Hty. unfold validate_type. rewrite Hget. run.
  by rewrite (proj2 (pytype_eqb_eq _ _) Hty).
Qed.

Lemma validate_type_wrong (kw : kwargs) (key : string) (ty : pytype) (v : pyval) (w : world) :
  dict_get key kw = Some v -> type_of (deref w v) <> ty ->
  exists m, validate_type kw key ty w = (Raise (TypeError m), w).
Proof.
  intros Hget Hty. unfold validate_type. rewrite Hget. run.
  destruct (pytype_eqb (type_of (deref w v)) ty) eqn:Heq; [|by eexists].
  by apply pytype_eqb_eq in Heq.
Qed.

(** One round of the loop of [create_properties]: the property is bound
    and the loop goes on, or the value given for it is rejected. *)
Lemma create_properties_step (key : string) (ty : pytype) (dflt : pyval)
    (rest : list (string * (pytype * pyval))) (kw : kwargs) (w : world) :
  (exists v, create_properties ((key, (ty, dflt)) :: rest) kw w
             = bind (create_properties rest kw)
                 (fun properties => ret ((key, v) :: properties)) w) \/
  (exists m, create_properties ((key, (ty, dflt)) :: rest) kw w = (Raise (TypeError m), w)).
Proof.
  simpl. unfold dict_in. destruct (dict_get key kw) as [v|] eqn:Hget.
  - destruct (pytype_eqb (type_of (deref w v)) ty) eqn:Heq.
    + left. exists v. unfold bind at 1. unfold bind at 1.
      rewrite (validate_type_ok _ _ _ v); [done|done|by apply pytype_eqb_eq].
    + destruct (validate_type_wrong kw key ty v w Hget) as [m Hm].
      { intros Hc. apply pytype_eqb_eq in Hc. congruence. }
      right. exists m. unfold bind at 1. unfold bind at 1. by rewrite Hm.
  - left. by exists dflt.
Qed.

(** [create_properties] reads the world and never changes it; it returns,
    or it raises [TypeError]. *)
Lemma create_properties_outcome (valid_properties : list (string * (pytype * pyval)))
    (kw : kwargs) (w : world) :
  (create_properties valid_properties kw w).2 = w /\
  ((exists props, (create_properties valid_properties kw w).1 = Return props) \/
   (exists m, (create_properties valid_properties kw w).1 = Raise (TypeError m))).
Proof.
  induction valid_properties as [|[key [ty dflt]] rest [IHw IHr]].
  - split; [done|]. left. by eexists.
  - destruct (create_properties_step key ty dflt rest kw w) as [[v Hx]|[m Hx]]; rewrite Hx.
    + unfold bind. destruct (create_properties rest kw w) as [[props|e] w']; simpl in *.
      * split; [done|]. left. by eexists.
      * split; [done|]. destruct IHr as [[? ?]|[m Hm]]; [done|]. right. by exists m.
    + split; [done|]. right. by exists m.
Qed.
End properties_facts.

(** X6: [create_properties] returns one binding for every valid
    property, in their order, with the value given or else the default,
    when every value given has the type asked for; keywords that name no
    valid property are ignored.  The first value of another type makes it
    raise [TypeError]; [1] where a [bool] is asked for is such a value. *)
Theorem create_properties_spec `{PyFormat}
    (ok rest : list (string * (pytype * pyval))) (kw : kwargs) (w : world) :
  Forall (well_typed_in w kw) ok ->
  create_properties ok kw w = (Return (properties_of ok kw), w) /\
  (forall key ty dflt v,
     dict_get key kw = Some v -> type_of (deref w v) <> ty ->
     exists m, create_properties (ok ++ (key, (ty, dflt)) :: rest) kw w
               = (Raise (TypeError m), w)).
Proof.
  intros Hok. induction Hok as [|[key [ty dflt]] ok Hp Hok [IH1 IH2]].
  - split; [done|]. intros key ty dflt v Hget Hty. simpl.
    unfold dict_in. rewrite Hget.
    destruct (validate_type_wrong kw key ty v w Hget Hty) as [m Hm].
    exists m. unfold bind at 1. unfold bind at 1. by rewrite Hm.
  - assert (Hhead : forall vp,
        create_properties ((key, (ty, dflt)) :: vp) kw w
        = bind (create_properties vp kw)
            (fun properties => ret ((key, default dflt (dict_get key kw)) :: properties)) w).
    { intros vp. simpl. unfold dict_in.
      destruct (dict_get key kw) as [v|] eqn:Hget; [|done].
      unfold bind at 1. unfold bind at 1.
      by rewrite (validate_type_ok _ _ _ v w Hget (Hp v Hget)). }
    split.
    + rewrite Hhead. unfold bind. by rewrite IH1.
    + intros key' ty' dflt' v Hget Hty.
      destruct (IH2 key' ty' dflt' v Hget Hty) as [m Hm].
      exists m. rewrite <- app_comm_cons, Hhead. unfold bind. by rewrite Hm.
Qed.

Lemma create_properties_spec_witness :
  create_properties FUNCTION_PROPS [("verbose", Imm (DInt 3))]
    (Examples.world_of [] Examples.empty_pojang)
  = (Return (properties_of FUNCTION_PROPS [("verbose", Imm (DInt 3))]),
     Examples.world_of [] Examples.empty_pojang) /\
  (forall key ty dflt v,
     dict_get key [("verbose", Imm (DInt 3))] = Some v ->
     type_of (deref (Examples.world_of [] Examples.empty_pojang) v) <> ty ->
     exists m, create_properties (FUNCTION_PROPS ++ (key, (ty, dflt)) :: [])
                 [("verbose", Imm (DInt 3))] (Examples.world_of [] Examples.empty_pojang)
               = (Raise (TypeError m), Examples.world_of [] Examples.empty_pojang)).
Proof.
  apply (create_properties_spec FUNCTION_PROPS [] [("verbose", Imm (DInt 3))]
           (Examples.world_of [] Examples.empty_pojang)).
  repeat constructor. intros v. discriminate.
Defined.

(** X7: decorating through [add_decorator_rule] never touches the
    registry, whatever keywords come with it.  An object with a
    [__dict__], every [def] function among them, is taken for a class and
    nothing is done; for any other the rule raises [TypeError].
    [_decorate] therefore registers nothing either: for an object with a
    [__dict__] it returns the wrapper, having written one line if [debug]
    is on and nothing else. *)
Theorem decoration_rules_register_nothing `{PyFormat} (func : pyfunc) (kw : kwargs)
    (w : world) :
  (add_decorator_rule func kw w).2 = w /\
  (if f_has_dict func
   then add_decorator_rule func kw w = (Return tt, w)
   else exists m, add_decorator_rule func kw w = (Raise (TypeError m), w)) /\
  functions (self (_decorate func w).2) = functions (self w) /\
  (f_has_dict func = true -> path_is_set (log_path (self w)) = false ->
   exists wrapped,
     _decorate func w
     = (Return wrapped,
        written None
          (if debug (self w)
           then ["DEBUG: Decorated function with unique id: " +:+ get_unique_func_name func]
           else []) w) /\
     forall args kw' w', wrapped args kw' w' = call func args kw' w').
Proof.
  assert (Hrule : (add_decorator_rule func kw w).2 = w /\
    (if f_has_dict func
     then add_decorator_rule func kw w = (Return tt, w)
     else exists m, add_decorator_rule func kw w = (Raise (TypeError m), w))).
  { unfold add_decorator_rule, is_class_instance.
    destruct (f_has_dict func); [done|].
    unfold _add_function_decorator_rule, bind.
    destruct (create_properties_outcome FUNCTION_PROPS kw w) as [Hw Hr].
    destruct (create_properties FUNCTION_PROPS kw w) as [[props|e] w'] eqn:Hc;
      simpl in Hw; subst w'.
    - split; [done|]. by eexists.
    - split; [done|]. destruct Hr as [[? ?]|[m Hm]]; [done|].
      simpl in Hm. exists m. congruence. }
  destruct Hrule as [Hw Hr]. split; [done|]. split; [done|]. split.
  - unfold _decorate, add_decorator_rule, is_class_instance, log_debug, log, logger_write.
    run. destruct (debug (self w)), (path_is_set (log_path (self w))),
      (f_has_dict func); simpl; try done.
    all: unfold _add_function_decorator_rule, bind;
      by destruct (create_properties FUNCTION_PROPS [] _) as [[?|?] ?].
  - intros Hdict Hpath. unfold _decorate, add_decorator_rule, is_class_instance, log_debug.
    run. rewrite Hdict. destruct (debug (self w)).
    + rewrite log_console by done. simpl. by eexists.
    + simpl. rewrite written_nil. by eexists.
Qed.

Lemma decoration_rules_register_nothing_witness :
  exists wrapped,
    _decorate Examples.f_append (Examples.world_of [] Examples.debug_pojang)
    = (Return wrapped,
       written None ["DEBUG: Decorated function with unique id: __main__.f"]
         (Examples.world_of [] Examples.debug_pojang)) /\
    forall args kw' w', wrapped args kw' w' = call Examples.f_append args kw' w'.
Proof.
  destruct (decoration_rules_register_nothing Examples.f_append []
              (Examples.world_of [] Examples.debug_pojang)) as (_ & _ & _ & Hd).
  apply Hd; reflexivity.
Defined.

(** ** Reporting, and the log behind it *)

Lemma log_written (msg : string) (l : list string) (w : world) :
  path_is_set (log_path (self w)) = false ->
  log msg (written None l w) = (Return tt, written None (l ++ [msg]) w).
Proof. intros Hpath. rewrite log_console by done. by rewrite written_written. Qed.

Lemma log_each_written {A} (f : A -> string) (xs : list A) (l : list string) (w : world) :
  path_is_set (log_path (self w)) = false ->
  for_each xs (fun x => log (f x)) (written None l w)
  = (Return tt, written None (l ++ map f xs) w).
Proof.
  intros Hpath. revert l. induction xs as [|x xs IH]; intros l; simpl.
  - by rewrite app_nil_r.
  - rewrite (bind_Return _ _ _ _ _ (log_written (f x) l w Hpath)).
    rewrite IH. by rewrite <- app_assoc.
Qed.

(** X8: with the console as log, [analyze] raises nothing and changes
    nothing but the output, to which it adds the two headers, the rulers
    and one line for every registered function, in the order in which the
    functions were registered: six lines and one more for every entry of
    the two dictionaries. *)
Theorem analyze_reports_in_order `{PyFormat} `{EntryFormat}
    (time_dict : list (pyfunc * data)) (w : world) :
  path_is_set (log_path (self w)) = false ->
  analyze time_dict w
  = (Return tt, written None (analyze_lines time_dict (functions (self w))) w) /\
  length (analyze_lines time_dict (functions (self w)))
  = 6 + length time_dict + length (functions (self w)).
Proof.
  intros Hpath. split.
  - unfold analyze, analyze_lines.
    rewrite (bind_Return _ _ _ _ _ (log_console _ w Hpath)).
    rewrite (bind_Return _ _ _ _ _ (log_written _ _ w Hpath)).
    rewrite (bind_Return _ _ _ _ _ (log_each_written _ time_dict _ w Hpath)).
    do 3 rewrite (bind_Return _ _ _ _ _ (log_written _ _ w Hpath)).
    unfold bind at 1, get_world at 1.
    change (functions (self (written None _ w))) with (functions (self w)).
    rewrite (bind_Return _ _ _ _ _ (log_each_written _ (functions (self w)) _ w Hpath)).
    rewrite log_written by done. do 2 f_equal.
    by rewrite <- !app_assoc.
  - unfold analyze_lines. rewrite !length_app, !length_map. simpl. lia.
Qed.

Lemma analyze_reports_in_order_witness :
  analyze [] Examples.traced_once
  = (Return tt,
     written None (analyze_lines [] (functions (self Examples.traced_once)))
       Examples.traced_once) /\
  length (analyze_lines [] (functions (self Examples.traced_once)))
  = 6 + 0 + length (functions (self Examples.traced_once)).
Proof.
  apply (analyze_reports_in_order [] Examples.traced_once). reflexivity.
Defined.

(** X9: with a log file configured, whatever is handed to [self.log]
    raises [TypeError], because the writer that [logger_factory] returns
    calls [logger.log] with the message alone.  The stopwatch decorator,
    which logs first, then fails for every function and registers
    nothing; so does the report; the trace decorator fails in the same
    way when [debug] is on. *)
Theorem file_log_blocks_decoration `{PyFormat} `{EntryFormat}
    (func : pyfunc) (time_dict : list (pyfunc * data)) (w : world) :
  path_is_set (log_path (self w)) = true ->
  (exists m, stopwatch_decorator func w = (Raise (TypeError m), w)) /\
  (exists m, analyze time_dict w = (Raise (TypeError m), w)) /\
  (debug (self w) = true ->
   exists m, trace_inner_function func w = (Raise (TypeError m), w)).
Proof.
  intros Hpath. split_and!.
  - destruct (log_file ("Decorated function with unique id: " +:+ get_unique_func_name func)
                w Hpath) as [m Hm].
    exists m. unfold stopwatch_decorator. by rewrite (bind_Raise _ _ _ _ _ Hm).
  - destruct (log_file "Printing time-related functions ... " w Hpath) as [m Hm].
    exists m. unfold analyze. by rewrite (bind_Raise _ _ _ _ _ Hm).
  - intros Hdebug.
    destruct (log_file ("DEBUG: " +:+ "Decorated function with unique id: "
                        +:+ get_unique_func_name func) w Hpath) as [m Hm].
    exists m. unfold trace_inner_function.
    rewrite (bind_Raise _ _ w (TypeError m) w); [done|].
    unfold log_debug. run. by rewrite Hdebug.
Qed.

Lemma file_log_blocks_decoration_witness :
  (exists m, stopwatch_decorator Examples.work (Examples.world_of [] Samples.file_pojang)
             = (Raise (TypeError m), Examples.world_of [] Samples.file_pojang)) /\
  (exists m, analyze [] (Examples.world_of [] Samples.file_pojang)
             = (Raise (TypeError m), Examples.world_of [] Samples.file_pojang)) /\
  (debug (self (Examples.world_of [] Samples.file_pojang)) = true ->
   exists m, trace_inner_function Examples.work (Examples.world_of [] Samples.file_pojang)
             = (Raise (TypeError m), Examples.world_of [] Samples.file_pojang)).
Proof.
  apply (file_log_blocks_decoration Examples.work []
                     (Examples.world_of [] Samples.file_pojang)).
  reflexivity.
Defined.

(** ** Fire-if and run-before: a callback that raises *)








(** ** Purity check: what it sees, and what a callback is shown *)

Lemma deref_store (w w' : world) (v : pyval) :
  store w' = store w -> deref w' v = deref w v.
Proof. intros Hs. unfold deref. by rewrite Hs. Qed.

(** The loop of [pure] with a callback that returns, calls nothing and
    leaves the objects alone: it is called for the values that do not
    equal their copy, in order, and for nothing else. *)
Lemma pure_loop_observes (cb : pyfunc) (original : list (string * data))
    (items : kwargs) (w1 : world) :
  (forall name before after, returns_on cb [Imm (DStr name); Imm before; after] []) ->
  (forall name before after, leaf_on cb [Imm (DStr name); Imm before; after] []) ->
  keeps_store cb ->
  Forall (fun kv => is_Some (dict_get kv.1 original)) items ->
  forall wc, store wc = store w1 ->
    exists w2,
      for_each items (pure_check (Some cb) original) wc = (Return tt, w2) /\
      calls w2 = calls wc
                 ++ map (fun kv => mk_call (f_id cb)
                                     [Imm (DStr kv.1); Imm (copy_in original kv.1); kv.2] [])
                      (List.filter (changed_from original w1) items) /\
      store w2 = store w1.
Proof.
  intros Hret Hleaf Hkeep Hitems.
  induction Hitems as [|[key value] items [before Hget] _ IH]; intros wc Hs.
  - exists wc. split_and!; [done|by rewrite app_nil_r|done].
  - simpl in Hget.
    assert (Hch : changed_from original w1 (key, value) = py_ne (deref w1 value) before)
      by (unfold changed_from, copy_in; simpl; by rewrite Hget).
    assert (Hcp : copy_in original key = before) by (unfold copy_in; by rewrite Hget).
    simpl. unfold bind at 1. unfold pure_check at 1. run. rewrite Hget, Hch.
    rewrite (deref_store w1 wc) by done.
    destruct (py_ne (deref w1 value) before) eqn:Hne; simpl.
    + unfold bind at 1. rewrite call_unfold, Hcp.
      set (a := [Imm (DStr key); Imm before; value]).
      destruct (Hret key before value (noted cb a [] wc)) as [v Hv].
      pose proof (Hleaf key before value (noted cb a [] wc)) as Hl.
      pose proof (Hkeep a [] (noted cb a [] wc)) as Hk.
      unfold a in *. clear a.
      destruct (f_body cb _ [] (noted cb _ [] wc)) as [r wa] eqn:Hbody.
      simpl in Hv, Hl, Hk. subst r.
      destruct (IH wa) as (w2 & Hrun & Hcalls & Hstore); [congruence|].
      exists w2. split_and!; [done| |done].
      rewrite Hcalls, Hl. by rewrite <- app_assoc.
    + destruct (IH wc Hs) as (w2 & Hrun & Hcalls & Hstore). by exists w2.
Qed.

(** X12: the purity check with a callback of the caller's.  The check
    deep-copies the values it looks at and calls the function.  When the
    function returns, the callback is called once for every such value
    that does not equal its copy, in the order of the arguments, with the
    name, the copy and the object itself; it is called for no other, and
    the wrapped call returns what the function returned.  The copy of a
    value that holds no instance is the value it had before the call.
    Stated for a callback that returns, calls nothing and changes no
    object. *)
Theorem pure_callback_observes_changes `{PyFormat} (cb function : pyfunc)
    (args : list pyval) (kw : kwargs) (w w1 : world) (output : pyval) :
  call function args kw (snapshot_world function args w) = (Return output, w1) ->
  (forall name before after, returns_on cb [Imm (DStr name); Imm before; after] []) ->
  (forall name before after, leaf_on cb [Imm (DStr name); Imm before; after] []) ->
  keeps_store cb ->
  (exists w2,
     pure_inner (Some cb) function args kw w = (Return output, w2) /\
     calls w2 = calls w1
                ++ map (fun kv => mk_call (f_id cb)
                                    [Imm (DStr kv.1);
                                     Imm (copy_in (snapshot function args w) kv.1); kv.2] [])
                     (List.filter (changed_from (snapshot function args w) w1)
                        (input_data_of function args)) /\
     store w2 = store w1) /\
  (forall key value,
     (key, value) ∈ input_data_of function args ->
     instance_free (deref w value) = true ->
     copy_in (snapshot function args w) key = deref w value).
Proof.
  intros Hcall Hret Hleaf Hkeep. split.
  - rewrite pure_inner_run, (bind_Return _ _ _ _ _ Hcall).
    destruct (pure_loop_observes cb (snapshot function args w)
                (input_data_of function args) w1 Hret Hleaf Hkeep) with (wc := w1)
      as (w2 & Hrun & Hcalls & Hstore); [|done|].
    + apply Forall_forall. intros [key value] Hin.
      by apply (snapshot_get_Some function args w key value).
    + exists w2. split_and!; [|done|done]. by rewrite (bind_Return _ _ _ _ _ Hrun).
  - intros key value Hin Hfree. unfold copy_in.
    by rewrite (snapshot_get_free function args w key value Hin Hfree).
Qed.

Lemma log_impurity_keeps_store : keeps_store Samples.log_impurity.
Proof.
  intros args kw w. simpl.
  by destruct (Examples.bind_args _ _ args kw) as [e|env].
Qed.

Lemma pure_callback_observes_changes_witness :
  exists w2,
    pure_inner (Some Samples.log_impurity) Examples.f_append [Ref 0] [] Examples.one_list
    = (Return (Imm DNone), w2) /\
    calls w2
    = [mk_call 10 [Ref 0] [];
       mk_call 41 [Imm (DStr "a"); Imm (DList [DInt 1]); Ref 0] []] /\
    store w2 = [DList [DInt 1; DInt 2]].
Proof.
  destruct (pure_callback_observes_changes Samples.log_impurity Examples.f_append [Ref 0] []
              Examples.one_list
              (call Examples.f_append [Ref 0] []
                 (snapshot_world Examples.f_append [Ref 0] Examples.one_list)).2
              (Imm DNone))
    as [(w2 & Hrun & Hcalls & Hstore) _].
  - reflexivity.
  - intros name before after w. eexists. reflexivity.
  - intros name before after w. reflexivity.
  - apply log_impurity_keeps_store.
  - exists w2. split_and!; [exact Hrun|by rewrite Hcalls|by rewrite Hstore].
Defined.

(** ** The argument dictionary of a plain function *)

Lemma fill_defaults_drop (parameters : list (string * pyval)) (i arg_count : nat) (d : kwargs) :
  NoDup (map fst parameters) ->
  (forall k, k ∈ map fst (drop (arg_count - i) parameters) -> k ∉ dict_keys d) ->
  fill_defaults parameters i arg_count d = d ++ drop (arg_count - i) parameters.
Proof.
  revert i d. induction parameters as [|[k v] ps IH]; intros i d Hnd Hfresh.
  - by rewrite drop_nil, app_nil_r.
  - simpl in Hnd. apply NoDup_cons in Hnd as [Hk Hnd]. simpl.
    destruct (arg_count <=? i)%nat eqn:Hle.
    + apply Nat.leb_le in Hle.
      replace (arg_count - i) with 0 in * by lia. simpl in *.
      rewrite dict_set_fresh by (apply Hfresh; by left).
      rewrite IH; [|done|].
      * replace (arg_count - S i) with 0 by lia. simpl. by rewrite <- app_assoc.
      * replace (arg_count - S i) with 0 by lia. simpl. intros k' Hk'.
        unfold dict_keys. rewrite map_app. simpl.
        intros [Hd|Hd]%elem_of_app.
        -- by apply (Hfresh k'); [right|].
        -- apply list_elem_of_singleton in Hd as ->. done.
    + apply Nat.leb_gt in Hle.
      replace (arg_count - i) with (S (arg_count - S i)) in * by lia. simpl in *.
      by apply IH.
Qed.

Lemma zip_keys (names : list string) (args : list pyval) :
  length names = length args -> dict_keys (zip names args) = names.
Proof.
  revert args. induction names as [|n names IH]; intros [|a args] Hlen; try done.
  simpl in *. f_equal. apply IH. lia.
Qed.

(** For a plain function called with no more positional arguments than
    it has parameters, the dictionary is the parameters in their order:
    those that an argument reaches with the argument, the others with
    their default. *)
Lemma input_data_of_plain (fn : pyfunc) (args : list pyval) :
  plain fn -> length args <= length (f_params fn) ->
  input_data_of fn args
  = zip (take (length args) (map fst (f_params fn))) args
    ++ drop (length args) (f_params fn).
Proof.
  intros [Hnd [locals Hvar]] Hlen. unfold input_data_of, dict_of_pairs.
  set (n := length args) in *. set (ps := f_params fn) in *.
  assert (Hnames : take n (f_varnames fn) = take n (map fst ps)).
  { rewrite Hvar. apply take_app_le. by rewrite length_map. }
  rewrite Hnames.
  assert (Hkeys : dict_keys (zip (take n (map fst ps)) args) = take n (map fst ps)).
  { apply zip_keys. rewrite length_take, length_map. unfold n in *. lia. }
  assert (Hsplit : NoDup (take n (map fst ps) ++ drop n (map fst ps)))
    by by rewrite take_drop.
  apply NoDup_app in Hsplit as (Hnd1 & Hdisj & Hnd2).
  rewrite (dict_update_fresh [] (zip (take n (map fst ps)) args)); simpl.
  - rewrite (fill_defaults_drop ps 0 n []); [|done|].
    + simpl. rewrite Nat.sub_0_r. apply dict_update_fresh.
      * unfold dict_keys. change (map fst (drop n ps)) with (fst <$> drop n ps).
        rewrite fmap_drop. exact Hnd2.
      * intros k Hk. rewrite Hkeys. intros Hin. apply (Hdisj k Hin).
        unfold dict_keys in Hk. change (map fst (drop n ps)) with (fst <$> drop n ps) in Hk.
        by rewrite fmap_drop in Hk.
    + intros k _. apply not_elem_of_nil.
  - by rewrite Hkeys.
  - intros k _. apply not_elem_of_nil.
Qed.

Lemma param_lines_drop `{PyFormat} (parameters : list (string * pyval)) (i arg_count : nat)
    (w : world) :
  param_lines parameters i arg_count w
  = map (fun kv => parameter_str kv.1 kv.2 w) (drop (arg_count - i) parameters).
Proof.
  revert i. induction parameters as [|[k v] ps IH]; intros i; simpl.
  - by rewrite drop_nil.
  - rewrite IH. destruct (arg_count <=? i)%nat eqn:Hle.
    + apply Nat.leb_le in Hle.
      replace (arg_count - i) with 0 by lia. replace (arg_count - S i) with 0 by lia.
      done.
    + apply Nat.leb_gt in Hle.
      replace (arg_count - i) with (S (arg_count - S i)) by lia. done.
Qed.

(** X13: [get_shallow_default_arg_dict] on a function with
    positional-or-keyword parameters only, called with no more positional
    arguments than parameters: the dictionary holds the parameters in
    their order, each one that an argument reaches with that argument and
    every other one with its default, and exactly the latter are printed,
    one line each, on the console. *)
Theorem get_shallow_default_arg_dict_plain `{PyFormat} (fn : pyfunc) (args : list pyval)
    (w : world) :
  plain fn -> length args <= length (f_params fn) ->
  get_shallow_default_arg_dict fn args w
  = (Return (zip (take (length args) (map fst (f_params fn))) args
             ++ drop (length args) (f_params fn)),
     written None
       (map (fun kv => parameter_str kv.1 kv.2 w) (drop (length args) (f_params fn))) w).
Proof.
  intros Hplain Hlen.
  rewrite get_shallow_default_arg_dict_spec, input_data_of_plain by done.
  by rewrite param_lines_drop, Nat.sub_0_r.
Qed.

Lemma plain_py_def (id : nat) (m name : string) (params : list (string * pyval))
    (locals : list string) (impl : list (string * pyval) -> M pyval) :
  NoDup (map fst params) -> plain (Examples.py_def id m name params locals impl).
Proof. intros Hnd. split; [done|]. by exists locals. Qed.

Lemma get_shallow_default_arg_dict_plain_witness :
  get_shallow_default_arg_dict Examples.fn_second [Imm (DInt 7)]
    (Examples.world_of [] Examples.empty_pojang)
  = (Return [("a", Imm (DInt 7)); ("b", Imm (DInt 2))],
     written None ["b=2"] (Examples.world_of [] Examples.empty_pojang)).
Proof.
  etrans.
  - apply (get_shallow_default_arg_dict_plain Examples.fn_second [Imm (DInt 7)]).
    + apply plain_py_def. simpl. apply (bool_decide_unpack _). vm_compute. reflexivity.
    + simpl. lia.
  - vm_compute. reflexivity.
Defined.









Lemma fill_defaults_get (parameters : list (string * pyval)) (i arg_count : nat)
    (d : kwargs) (k : string) :
  NoDup (map fst parameters) ->
  dict_get k (fill_defaults parameters i arg_count d)
  = match dict_get k (drop (arg_count - i) parameters) with
    | Some v => Some v
    | None => dict_get k d
    end.
Proof.
  revert i d. induction parameters as [|[k0 v0] ps IH]; intros i d Hnd.
  - by rewrite drop_nil.
  - simpl in Hnd. apply NoDup_cons in Hnd as [Hk0 Hnd]. simpl.
    rewrite IH by done.
    destruct (arg_count <=? i)%nat eqn:Hle.
    + apply Nat.leb_le in Hle.
      replace (arg_count - i) with 0 by lia. replace (arg_count - S i) with 0 by lia.
      simpl. rewrite drop_0. destruct (decide (k = k0)) as [Heq|Hne].
      * subst k0. assert (dict_get k ps = None) as ->
          by by apply dict_in_get_None, dict_in_false_keys.
        apply dict_get_set_eq.
      * by rewrite dict_get_set_ne.
    + apply Nat.leb_gt in Hle.
      replace (arg_count - i) with (S (arg_count - S i)) by lia. done.
Qed.

(** X16: [fill_default_kwargs] key by key: a parameter that no
    positional argument reaches ends up bound to its default, also when
    the caller passed it by keyword; every other key keeps the value it
    had. *)
Theorem fill_default_kwargs_get (fn : pyfunc) (args : list pyval) (kw : kwargs) (k : string) :
  NoDup (map fst (f_params fn)) ->
  dict_get k (fill_default_kwargs fn args kw)
  = match dict_get k (drop (length args) (f_params fn)) with
    | Some v => Some v
    | None => dict_get k kw
    end.
Proof.
  intros Hnd. unfold fill_default_kwargs.
  by rewrite fill_defaults_get, Nat.sub_0_r.
Qed.

Lemma fill_default_kwargs_get_witness :
  dict_get "b" (fill_default_kwargs Examples.fn_second [Imm (DInt 1)] [("b", Imm (DInt 5))])
  = match dict_get "b" (drop 1 (f_params Examples.fn_second)) with
    | Some v => Some v
    | None => dict_get "b" [("b", Imm (DInt 5))]
    end.
Proof.
  apply (fill_default_kwargs_get Examples.fn_second [Imm (DInt 1)] [("b", Imm (DInt 5))] "b").
  simpl. apply (bool_decide_unpack _). vm_compute. reflexivity.
Defined.

(** ** More of the decorators of [app.py] *)

Lemma filter_all {A : Type} (f : A -> bool) (xs : list A) :
  (forall x, f x = true) -> List.filter f xs = xs.
Proof.
  intros Hf. induction xs as [|x xs IH]; [done|].
  cbn [List.filter]. by rewrite Hf, IH.
Qed.

(** X17: [observe] used as a bare decorator, [@pj.observe] on a class:
    the class is checked, one line with its members is printed, and the
    decorator returns [None], not the class and not a closure. *)
Theorem observe_bare_decorator_returns_None `{PyFormat} (cls : pyobject) (w : world) :
  o_has_dict cls = true ->
  observe (ObsClass cls) w
  = (Return None,
     written None
       ["Props: " +:+ py_str (DList (getmembers cls)) +:+ ", " +:+ py_str (DList (dir cls))]
       w).
Proof.
  intros Hdict. unfold observe, observe_class, _check_if_class. rewrite Hdict.
  assert (Hall : List.filter (fun item => negb (ismethod item)) (getmembers cls)
                 = getmembers cls).
  { by apply filter_all. }
  rewrite Hall. reflexivity.
Qed.

Lemma observe_bare_decorator_returns_None_witness :
  (observe (ObsClass Examples.class_with_x)
     (Examples.world_of [] Examples.empty_pojang)).1 = Return None.
Proof.
  by rewrite (observe_bare_decorator_returns_None Examples.class_with_x
                (Examples.world_of [] Examples.empty_pojang) eq_refl).
Defined.

(** X18: [before] cannot be used, and neither can [_register]: both
    register through [_update_decoration_info] without the statistics
    object that the method requires, so every call of either raises
    [TypeError], with nothing registered, nothing logged and, for
    [before], no wrapper returned. *)
Theorem before_always_raises (inner_updating inner_printing : string -> pyfunc -> body_t)
    (func : pyfunc) (stat_updater : option pyfunc) (w : world) :
  (exists msg,
     before inner_updating inner_printing func stat_updater w = (Raise (TypeError msg), w)) /\
  (exists msg, _register func w = (Raise (TypeError msg), w)).
Proof. split; eexists; reflexivity. Qed.

(** X19: [stopwatch] on a function whose name is already registered
    keeps the entry: the callable and the statistics stay those of the
    first registration and only the last input is reset to 0.  The
    decoration is logged, and the duplicate is reported when debugging is
    on. *)
Theorem stopwatch_redecoration_keeps_statistics (func : pyfunc) (w : world) (e : entry) :
  let func_name := get_unique_func_name func in
  path_is_set (log_path (self w)) = false ->
  dict_get func_name (functions (self w)) = Some e ->
  exists w1,
    stopwatch_decorator func w = (Return (stopwatch_wrapper func_name func), w1) /\
    dict_get func_name (functions (self w1))
    = Some (mk_entry (e_name e) (e_func e) (e_props e) (Some 0%Qc)) /\
    dict_keys (functions (self w1)) = dict_keys (functions (self w)) /\
    out w1 = out w
             ++ (Console, "Decorated function with unique id: " +:+ func_name)
             :: (if debug (self w)
                 then [(Console, "DEBUG: Found duplicate decorator with identity: "
                                 +:+ func_name)]
                 else []).
Proof.
  intros func_name Hpath Hget.
  assert (Hin : dict_in func_name (functions (self w)) = true)
    by (apply dict_in_get_Some; by rewrite Hget).
  unfold stopwatch_decorator, log, _update_decoration_info, log_debug, log, set_entry_input.
  fold func_name. run. rewrite Hpath. run. rewrite Hin.
  destruct (debug (self w)) eqn:Hdebug; run; rewrite ?Hdebug; run.
  - rewrite Hpath. run. rewrite Hget. run.
    eexists. split; [reflexivity|]. simpl. split; [apply dict_get_set_eq|].
    split; [|by rewrite <- app_assoc].
    by apply dict_keys_set_in.
  - rewrite Hget. run.
    eexists. split; [reflexivity|]. simpl. split; [apply dict_get_set_eq|].
    split; [|done].
    by apply dict_keys_set_in.
Qed.

Lemma stopwatch_redecoration_keeps_statistics_witness :
  exists w1,
    stopwatch_decorator Examples.f_append Examples.traced_once
    = (Return (stopwatch_wrapper (get_unique_func_name Examples.f_append) Examples.f_append),
       w1) /\
    dict_get "__main__.f" (functions (self w1))
    = Some (mk_entry "__main__.f" 10 Statistics (Some 0%Qc)).
Proof.
  destruct (stopwatch_redecoration_keeps_statistics Examples.f_append Examples.traced_once
              (mk_entry "__main__.f" 10 Statistics None) eq_refl eq_refl)
    as (w1 & Hdec & Hget & _).
  exists w1. split; [exact Hdec|exact Hget].
Defined.

(** ** The stand-alone [trace]: a call that cannot be rendered *)

Lemma render_inputs_missing `{PyFormat} (func : pyfunc) (args_repr : list string)
    (args : list pyval) (kw : kwargs) (names : list string) (i default_index : nat)
    (acc : string) (w : world) (j : nat) (name : string) :
  f_defaults func = None ->
  names !! j = Some name -> length args <= i + j -> dict_in name kw = false ->
  render_inputs func args_repr args kw names i default_index acc w
  = (Raise (TypeError "'NoneType' object is not subscriptable"), w).
Proof.
  intros Hdefaults. revert i default_index acc j.
  induction names as [|test rest IH]; intros i default_index acc j Hname Hlen Hin; [done|].
  simpl. unfold bind at 1, get_world at 1.
  destruct (i <? length args)%nat eqn:Hi.
  - apply Nat.ltb_lt in Hi. destruct j as [|j]; [lia|].
    run. apply (IH _ _ _ j); [done|lia|done].
  - apply Nat.ltb_ge in Hi.
    destruct (dict_in test kw) eqn:Htest; simpl.
    + destruct j as [|j]; [simpl in Hname; congruence|].
      run. apply (IH _ _ _ j); [done|lia|done].
    + rewrite Hdefaults. reflexivity.
Qed.

(** X20: The stand-alone [trace] renders the call before it makes it.
    For a function without any default, a parameter that the call gives
    neither by position nor by keyword stops the wrapper with a
    [TypeError] about [None]: the function is not called and nothing is
    written, but the call has been counted. *)
Theorem experiment_trace_missing_argument `{PyFormat} (path : option string)
    (func : pyfunc) (c n : nat) (args : list pyval) (kw : kwargs) (w : world)
    (j : nat) (name : string) :
  counters w !! c = Some n ->
  f_defaults func = None ->
  f_args func !! j = Some name -> length args <= j -> dict_in name kw = false ->
  experiment_trace_wrapper path func c args kw w
  = (Raise (TypeError "'NoneType' object is not subscriptable"),
     set_counters (fun cs => <[c := S n]> cs) w).
Proof.
  intros Hc Hdefaults Hname Hlen Hin.
  unfold experiment_trace_wrapper. unfold bind at 1, incr_counter at 1. rewrite Hc.
  unfold bind at 1, get_world at 1.
  apply bind_Raise. by apply (render_inputs_missing _ _ _ _ _ _ _ _ _ j name).
Qed.

Lemma experiment_trace_missing_argument_witness :
  experiment_trace_wrapper None Examples.g_identity 0 [] []
    (mk_world [] 0%Qc [] Examples.empty_pojang [0] [] 1 None)
  = (Raise (TypeError "'NoneType' object is not subscriptable"),
     mk_world [] 0%Qc [] Examples.empty_pojang [1] [] 1 None).
Proof.
  apply (experiment_trace_missing_argument None Examples.g_identity 0 0 [] []
           (mk_world [] 0%Qc [] Examples.empty_pojang [0] [] 1 None) 0 "a");
    first [reflexivity | simpl; lia].
Defined.

(** ** The smaller helpers of [helper/util.py] *)

(** X21: [dict_is_empty] answers the opposite of its name: it returns
    [True] exactly for the dictionaries that have a key. *)
Theorem dict_is_empty_means_non_empty {V : Type} (dictionary : list (string * V)) :
  dict_is_empty dictionary = true <-> exists k, dict_in k dictionary = true.
Proof.
  unfold dict_is_empty. destruct dictionary as [|[k v] rest]; simpl.
  - split; [done|]. by intros [k Hk].
  - split; [|done]. intros _. exists k. unfold dict_in. simpl. by rewrite decide_True.
Qed.

Lemma substring_app_prefix (a b : string) : substring 0 (String.length a) (a +:+ b) = a.
Proof.
  induction a as [|x a IH]; [by destruct b|].
  rewrite string_app_cons. simpl. by rewrite IH.
Qed.

Lemma substring_0_split (n : nat) (s : string) :
  n <= String.length s ->
  exists rest, s = substring 0 n s +:+ rest /\ String.length (substring 0 n s) = n.
Proof.
  revert n. induction s as [|x s IH]; intros [|n] Hn; simpl in *; try lia.
  - by exists "".
  - by exists (String x s).
  - destruct (IH n ltac:(lia)) as (rest & Hs & Hlen).
    exists rest. rewrite string_app_cons, <- Hs, Hlen. done.
Qed.

Lemma drop_last2_app (s : string) (a b : Ascii.ascii) :
  drop_last2 (s +:+ String a (String b "")) = s.
Proof.
  unfold drop_last2. rewrite string_length_app. simpl.
  replace (String.length s + 2 - 2) with (String.length s) by lia.
  apply substring_app_prefix.
Qed.

(** X22: [do_truncate] leaves a sentence of at most [max_length]
    characters as it is.  A longer one does not come back as a shorter
    string but as a pair: a prefix of the sentence and [' ...'].  The
    prefix has [max_length] characters, or for a negative [max_length]
    the sentence without its last [-max_length] characters. *)
Theorem do_truncate_spec (max_length : Z) (sentence : string) :
  let n := Z.of_nat (String.length sentence) in
  ((n <= max_length)%Z /\ do_truncate max_length sentence = DStr sentence) \/
  ((max_length < n)%Z /\
   exists kept cut,
     do_truncate max_length sentence = DTuple [DStr kept; DStr " ..."] /\
     sentence = kept +:+ cut /\
     Z.of_nat (String.length kept)
     = if (max_length <? 0)%Z then Z.max 0 (n + max_length) else max_length).
Proof.
  intros n. unfold do_truncate. fold n.
  destruct (max_length <? n)%Z eqn:Hlt.
  - apply Z.ltb_lt in Hlt. right. split; [done|].
    unfold slice_to. fold n.
    set (stop := if (max_length <? 0)%Z then Z.max 0 (n + max_length)
                 else Z.min n max_length).
    assert (Hstop : (0 <= stop <= n)%Z).
    { unfold stop. destruct (max_length <? 0)%Z eqn:Hneg.
      - apply Z.ltb_lt in Hneg. lia.
      - apply Z.ltb_ge in Hneg. lia. }
    destruct (substring_0_split (Z.to_nat stop) sentence) as (cut & Hs & Hlen);
      [unfold n in Hstop; lia|].
    exists (substring 0 (Z.to_nat stop) sentence), cut.
    split; [done|]. split; [done|]. rewrite Hlen, Z2Nat.id by lia.
    unfold stop. destruct (max_length <? 0)%Z eqn:Hneg; [done|].
    apply Z.ltb_ge in Hneg. lia.
  - apply Z.ltb_ge in Hlt. by left.
Qed.

(** ** [TraceDecorator.get_default_values] *)

Lemma each_with_comma_concat (rs : list string) :
  rs <> [] -> each_with_comma rs = String.concat ", " rs +:+ ", ".
Proof.
  induction rs as [|r rs IH]; [done|]. intros _. simpl.
  destruct rs as [|r' rs]; [by simpl; rewrite string_app_nil_r|].
  rewrite IH by done. by rewrite !string_app_assoc.
Qed.

Lemma default_values_loop_positional `{PyFormat} (func : pyfunc) (args_repr : list string)
    (kw : kwargs) (tests : list pyval) (i default_index : nat) (acc : string)
    (rs : list string) (w : world) :
  drop i args_repr = rs -> length rs = length tests ->
  default_values_loop func args_repr (length args_repr) kw tests i default_index acc w
  = (Return (acc +:+ each_with_comma rs), w).
Proof.
  revert i default_index acc rs.
  induction tests as [|test rest IH]; intros i default_index acc rs Hdrop Hlen.
  - destruct rs; [|done]. simpl. by rewrite string_app_nil_r.
  - destruct rs as [|r rs]; [done|]. simpl in Hlen.
    assert (Hi : args_repr !! i = Some r).
    { rewrite <- (Nat.add_0_r i), <- lookup_drop, Hdrop. done. }
    assert (Hlt : (i <? length args_repr)%nat = true).
    { apply Nat.ltb_lt. by eapply lookup_lt_Some. }
    simpl. unfold bind at 1, get_world at 1. rewrite Hlt, Hi. run.
    rewrite (IH (S i) default_index _ rs).
    + by rewrite !string_app_assoc.
    + rewrite (drop_S _ r) in Hdrop by done. by injection Hdrop.
    + lia.
Qed.

(** X23: For a call with positional arguments, [get_default_values]
    shows those and nothing else: the result is the name of the function
    and the [repr] of each positional argument, separated by commas.
    Keyword arguments and defaults never appear in it. *)
Theorem get_default_values_positional_only `{PyFormat} (func : pyfunc)
    (args : list pyval) (kw : kwargs) (w : world) :
  args <> [] ->
  get_default_values func args kw w
  = (Return ("Debug: calling --> " +:+ f_name func +:+ "("
             +:+ String.concat ", " (map (fun a => py_repr (deref w a)) args) +:+ ")"),
     w).
Proof.
  intros Hargs. unfold get_default_values. unfold bind at 1, get_world at 1.
  set (args_repr := map (fun a => py_repr (deref w a)) args).
  assert (Hlen : length args = length args_repr) by (unfold args_repr; by rewrite length_map).
  rewrite Hlen.
  erewrite bind_Return;
    [|by apply (default_values_loop_positional _ _ _ _ _ _ _ args_repr)].
  unfold ret. rewrite each_with_comma_concat by (by destruct args).
  rewrite <- !string_app_assoc.
  rewrite drop_last2_app. by rewrite !string_app_assoc.
Qed.

Lemma get_default_values_positional_only_witness :
  get_default_values Examples.fn_second [Imm (DInt 1)] [("b", Imm (DInt 5))]
    (Examples.world_of [] Examples.empty_pojang)
  = (Return "Debug: calling --> fn(1)", Examples.world_of [] Examples.empty_pojang).
Proof.
  etrans.
  - by apply (get_default_values_positional_only Examples.fn_second [Imm (DInt 1)]
                [("b", Imm (DInt 5))]).
  - vm_compute. reflexivity.
Defined.

(** X24: For a call without positional arguments, the two characters
    that [get_default_values] cuts off are not a trailing comma and
    space but the opening parenthesis and the last letter of the name of
    the function. *)
Theorem get_default_values_no_arguments `{PyFormat} (func : pyfunc) (kw : kwargs)
    (w : world) (stem : string) (last : Ascii.ascii) :
  f_name func = stem +:+ String last "" ->
  get_default_values func [] kw w = (Return ("Debug: calling --> " +:+ stem +:+ ")"), w).
Proof.
  intros Hname. unfold get_default_values. run. rewrite Hname.
  rewrite (string_app_assoc stem), (string_app_cons last "" "(").
  change ("" +:+ "(") with "(".
  rewrite <- (string_app_assoc "Debug: calling --> " stem (String last "(")).
  by rewrite drop_last2_app, string_app_assoc.
Qed.

Lemma get_default_values_no_arguments_witness :
  get_default_values Examples.fn_second [] [("a", Imm (DInt 1))]
    (Examples.world_of [] Examples.empty_pojang)
  = (Return "Debug: calling --> f)", Examples.world_of [] Examples.empty_pojang).
Proof.
  by apply (get_default_values_no_arguments Examples.fn_second [("a", Imm (DInt 1))]
              (Examples.world_of [] Examples.empty_pojang) "f" (Ascii.ascii_of_nat 110)).
Defined.

(** ** [TimeComputer] *)

Section TimeComputerFacts.
Import TimeComputer.

Lemma t_bind_inr {A B} (m : T A) (k : A -> T B) h a h' :
  m h = (inr a, h') -> t_bind m k h = k a h'.
Proof. unfold t_bind. by intros ->. Qed.

Lemma t_bind_inl {A B} (m : T A) (k : A -> T B) h e h' :
  m h = (inl e, h') -> t_bind m k h = (inl e, h').
Proof. unfold t_bind. by intros ->. Qed.

Lemma read_self_Some self o h :
  instances h !! self = Some o -> read_self self h = (inr o, h).
Proof. unfold read_self. by intros ->. Qed.

Lemma update_self_Some self f o h :
  instances h !! self = Some o ->
  update_self self f h = (inr tt, set_instances (fun os => <[self := f o]> os) h).
Proof. unfold update_self. by intros ->. Qed.

Lemma instances_insert (self : loc) (o' : fields) (os : list fields) (o : fields) :
  os !! self = Some o -> <[self := o']> os !! self = Some o'.
Proof. intros Ho. apply list_lookup_insert_eq. by eapply lookup_lt_Some. Qed.

(** [__enter__] counts the run and notes the time. *)
Lemma enter_spec self o h :
  instances h !! self = Some o ->
  __enter__ self h
  = (inr tt,
     set_instances
       (fun os => <[self := with_start_time (clock (py h))
                              (with_run_count (S (run_count o)) o)]> os) h).
Proof.
  intros Ho. unfold __enter__.
  rewrite (t_bind_inr _ _ _ _ _ (read_self_Some _ _ _ Ho)).
  rewrite (t_bind_inr _ _ _ _ _ (update_self_Some _ _ _ _ Ho)).
  unfold t_bind at 1, lift at 1, time_time at 1. simpl.
  unfold update_self. simpl. rewrite (instances_insert _ _ _ _ Ho).
  unfold set_instances, set_py. simpl. by rewrite list_insert_insert_eq.
Qed.

(** [__exit__] of an instance that appends to the list at [l]. *)
Lemma exit_list_mode tc o l start xs h :
  instances h !! this tc = Some o ->
  _accumulated_time o = AGiven (ArgList l) ->
  _handle_computation o = Some AppendToList ->
  start_time o = Some start ->
  float_lists h !! l = Some xs ->
  let h' := recorded l (clock (py h) - start)%Qc h in
  __exit__ tc h
  = if (log_interval o =? 0)%Z then (inl ZeroDivisionError, h')
    else if (Z.of_nat (run_count o) mod log_interval o =? 0)%Z
    then log_callback tc (AGiven (ArgList l)) (run_count o) h'
    else (inr tt, h').
Proof.
  intros Ho Hacc Hhandler Hstart Hxs h'. unfold __exit__.
  unfold t_bind at 1, lift at 1, time_time at 1. simpl.
  assert (Heq : set_py (py h) h = h) by by destruct h.
  rewrite Heq.
  rewrite (t_bind_inr _ _ _ _ _ (read_self_Some _ _ _ Ho)).
  rewrite Hstart, Hhandler.
  assert (Happend : _append_to_list (this tc) (clock (py h) - start)%Qc h = (inr tt, h')).
  { unfold _append_to_list.
    rewrite (t_bind_inr _ _ _ _ _ (read_self_Some _ _ _ Ho)).
    rewrite Hacc. simpl. rewrite Hxs. unfold h', recorded, set_float_lists.
    by rewrite Hxs. }
  rewrite (t_bind_inr _ _ _ _ _ Happend).
  assert (Ho' : instances h' !! this tc = Some o) by done.
  rewrite (t_bind_inr _ _ _ _ _ (read_self_Some _ _ _ Ho')).
  rewrite Hacc. destruct (log_interval o =? 0)%Z; [done|].
  by destruct (Z.of_nat (run_count o) mod log_interval o =? 0)%Z.
Qed.

Lemma entered_spec self o h :
  instances h !! self = Some o ->
  entered self h
  = set_instances
      (fun os => <[self := with_start_time (clock (py h))
                             (with_run_count (S (run_count o)) o)]> os) h.
Proof. intros Ho. unfold entered. by rewrite (enter_spec _ _ _ Ho). Qed.

Lemma with_list_mode {A} (tc : object) (block : T A) (h h2 : heap) (o : fields)
    (l : loc) (r : error + A) :
  instances h !! this tc = Some o ->
  _accumulated_time o = AGiven (ArgList l) ->
  _handle_computation o = Some AppendToList ->
  block (entered (this tc) h) = (r, h2) ->
  instances h2 !! this tc = instances (entered (this tc) h) !! this tc ->
  is_Some (float_lists h2 !! l) ->
  let n := S (run_count o) in
  let h3 := recorded l (clock (py h2) - clock (py h))%Qc h2 in
  with_ tc block h
  = if (log_interval o =? 0)%Z then (inl ZeroDivisionError, h3)
    else if (Z.of_nat n mod log_interval o =? 0)%Z
    then match log_callback tc (AGiven (ArgList l)) n h3 with
         | (inr _, h4) => (r, h4)
         | (inl e, h4) => (inl e, h4)
         end
    else (r, h3).
Proof.
  intros Ho Hacc Hhandler Hblock Hkept [xs Hxs] n h3.
  rewrite (entered_spec _ _ _ Ho) in Hblock, Hkept.
  unfold with_. rewrite (enter_spec _ _ _ Ho), Hblock.
  simpl in Hkept. rewrite (instances_insert _ _ _ _ Ho) in Hkept.
  rewrite (exit_list_mode tc _ l (clock (py h)) xs h2 Hkept Hacc Hhandler eq_refl Hxs).
  simpl. fold h3. destruct (log_interval o =? 0)%Z; [done|].
  fold n. destruct (Z.of_nat n mod log_interval o =? 0)%Z; [|done].
  by destruct (log_callback tc (AGiven (ArgList l)) n h3) as [[e|[]] h4].
Qed.

Lemma update_self_twice self f g o h :
  instances h !! self = Some o ->
  t_bind (update_self self f) (fun _ => update_self self g) h
  = (inr tt, set_instances (fun os => <[self := g (f o)]> os) h).
Proof.
  intros Ho. rewrite (t_bind_inr _ _ _ _ _ (update_self_Some _ _ _ _ Ho)).
  unfold update_self. simpl. rewrite (instances_insert _ _ _ _ Ho).
  unfold set_instances. simpl. by rewrite list_insert_insert_eq.
Qed.

(** [_init] on a new instance, by what it was given. *)
Lemma init_spec self o h :
  instances h !! self = Some o ->
  _init self h
  = match _accumulated_time o with
    | AGiven (ArgList _) =>
        (inr tt,
         set_instances (fun os => <[self := with_handle_computation AppendToList o]> os) h)
    | AGiven ArgNone | AGiven (ArgCallable _) =>
        (inr tt,
         set_instances
           (fun os => <[self := with_handle_computation ComputeInt
                                  (with_accumulated_time (ANumber false 0%Qc) o)]> os) h)
    | AGiven (ArgOther type_name) => (inl (Py (TypeError (type_message type_name))), h)
    | ANumber is_float _ =>
        (inl (Py (TypeError (type_message
           (if is_float then "<class 'float'>" else "<class 'int'>")))), h)
    end.
Proof.
  intros Ho. unfold _init, _validate.
  destruct o as [[[|l|f|type_name]|is_float x] k m n st wf]; simpl in *.
  - unfold t_bind at 1. rewrite (t_bind_inr _ _ _ _ _ (read_self_Some _ _ _ Ho)). simpl.
    rewrite (t_bind_inr _ _ _ _ _ (read_self_Some _ _ _ Ho)). simpl.
    by rewrite (update_self_twice _ _ _ _ _ Ho).
  - unfold t_bind at 1. rewrite (t_bind_inr _ _ _ _ _ (read_self_Some _ _ _ Ho)). simpl.
    rewrite (t_bind_inr _ _ _ _ _ (read_self_Some _ _ _ Ho)). simpl.
    by rewrite (update_self_Some _ _ _ _ Ho).
  - unfold t_bind at 1. rewrite (t_bind_inr _ _ _ _ _ (read_self_Some _ _ _ Ho)). simpl.
    rewrite (update_self_Some _ _ _ _ Ho).
    set (o1 := with_accumulated_time _ _).
    set (h1 := set_instances _ h).
    assert (Ho1 : instances h1 !! self = Some o1).
    { unfold h1. simpl. by rewrite (instances_insert _ _ _ _ Ho). }
    rewrite (t_bind_inr _ _ _ _ _ (read_self_Some _ _ _ Ho1)). simpl.
    rewrite (update_self_twice _ _ _ _ _ Ho1).
    unfold h1, set_instances. simpl. by rewrite list_insert_insert_eq.
  - unfold t_bind at 1. by rewrite (t_bind_inr _ _ _ _ _ (read_self_Some _ _ _ Ho)).
  - unfold t_bind at 1. by rewrite (t_bind_inr _ _ _ _ _ (read_self_Some _ _ _ Ho)).
Qed.

(** X25: what the constructor makes of [accumulated_time].  A list is
    kept and times are appended to it; [None] and, as in [@TimeComputer]
    without arguments, a callable give a sum that starts at 0; anything
    else, a number included, raises [TypeError].  No run is counted yet
    and [log_interval] is taken as it comes, 0 included. *)
Theorem TimeComputer_init_modes (accumulated_time : argument) (interval : Z)
    (callback : accumulated -> nat -> T unit) (h : heap) :
  let self := length (instances h) in
  let made a m :=
    (inr (mk_object self callback),
     set_instances (fun os => os ++ [mk_fields a interval (Some m) 0 None None]) h) in
  match accumulated_time with
  | ArgList l =>
      __init__ accumulated_time interval callback h = made (AGiven (ArgList l)) AppendToList
  | ArgNone | ArgCallable _ =>
      __init__ accumulated_time interval callback h = made (ANumber false 0%Qc) ComputeInt
  | ArgOther _ =>
      exists msg, (__init__ accumulated_time interval callback h).1
                  = inl (Py (TypeError msg))
  end.
Proof.
  intros self made. unfold __init__. fold self.
  set (o := mk_fields (AGiven accumulated_time) interval None 0 None None).
  set (h0 := set_instances (fun os => os ++ [o]) h).
  assert (Ho : instances h0 !! self = Some o).
  { unfold h0, self. simpl. by rewrite lookup_app_r, Nat.sub_diag. }
  assert (Hput : forall o', <[self := o']> (instances h ++ [o]) = instances h ++ [o']).
  { intros o'. unfold self. rewrite insert_app_r_alt by done. by rewrite Nat.sub_diag. }
  unfold t_bind. rewrite (init_spec _ _ _ Ho).
  destruct accumulated_time as [|l|f|type_name]; simpl;
    try (unfold made, h0, set_instances; simpl; by rewrite Hput).
  by eexists.
Qed.

(** X26: one [with] block, or one call of a decorated function, of an
    instance that appends to a list and whose [log_interval] is not 0.
    The run is counted, and when the block is over, whether it returned
    or raised, the time from entering to leaving is appended to the
    list.  The callback is called when the count is a multiple of
    [log_interval], with the list and the count.  The outcome is that of
    the block, unless the callback raises.  Stated for a block that
    leaves the instance alone. *)
Theorem with_block_records_time {A} (tc : object) (block : T A) (h h2 : heap)
    (o : fields) (l : loc) (r : error + A) :
  instances h !! this tc = Some o ->
  _accumulated_time o = AGiven (ArgList l) ->
  _handle_computation o = Some AppendToList ->
  log_interval o <> 0%Z ->
  block (entered (this tc) h) = (r, h2) ->
  instances h2 !! this tc = instances (entered (this tc) h) !! this tc ->
  is_Some (float_lists h2 !! l) ->
  let n := S (run_count o) in
  let h3 := recorded l (clock (py h2) - clock (py h))%Qc h2 in
  with_ tc block h
  = if (Z.of_nat n mod log_interval o =? 0)%Z
    then match log_callback tc (AGiven (ArgList l)) n h3 with
         | (inr _, h4) => (r, h4)
         | (inl e, h4) => (inl e, h4)
         end
    else (r, h3).
Proof.
  intros Ho Hacc Hhandler Hinterval Hblock Hkept Hlist n h3.
  rewrite (with_list_mode tc block h h2 o l r) by done.
  by apply Z.eqb_neq in Hinterval as ->.
Qed.

Lemma with_block_records_time_witness :
  (with_ Samples.counting (lift (call Examples.work [Imm (DInt 2)] []))
     Samples.timing_heap).1 = inr (Imm (DInt 2)) /\
  map length (float_lists
    (with_ Samples.counting (lift (call Examples.work [Imm (DInt 2)] []))
       Samples.timing_heap).2) = [1] /\
  out (py (with_ Samples.counting (lift (call Examples.work [Imm (DInt 2)] []))
             Samples.timing_heap).2) = [].
Proof.
  rewrite (with_block_records_time Samples.counting
             (lift (call Examples.work [Imm (DInt 2)] [])) Samples.timing_heap
             (lift (call Examples.work [Imm (DInt 2)] [])
                (entered 0 Samples.timing_heap)).2
             (mk_fields (AGiven (ArgList 0)) 2 (Some AppendToList) 0 None None) 0
             (inr (Imm (DInt 2)))); done.
Defined.

(** X27: with [log_interval=0] every [with] block and every call of a
    decorated function ends in [ZeroDivisionError], whatever the block
    did: its result or its own exception is lost.  The run has been
    counted and its time appended by then, and the callback is not
    called. *)
Theorem with_zero_log_interval_raises {A} (tc : object) (block : T A) (h h2 : heap)
    (o : fields) (l : loc) (r : error + A) :
  instances h !! this tc = Some o ->
  _accumulated_time o = AGiven (ArgList l) ->
  _handle_computation o = Some AppendToList ->
  log_interval o = 0%Z ->
  block (entered (this tc) h) = (r, h2) ->
  instances h2 !! this tc = instances (entered (this tc) h) !! this tc ->
  is_Some (float_lists h2 !! l) ->
  with_ tc block h
  = (inl ZeroDivisionError, recorded l (clock (py h2) - clock (py h))%Qc h2).
Proof.
  intros Ho Hacc Hhandler Hinterval Hblock Hkept Hlist.
  rewrite (with_list_mode tc block h h2 o l r) by done.
  by rewrite Hinterval.
Qed.

Lemma with_zero_log_interval_raises_witness :
  (with_ Samples.counting (lift (call Examples.work [Imm (DInt 2)] []))
     Samples.timing_heap_zero).1 = inl ZeroDivisionError.
Proof.
  by rewrite (with_zero_log_interval_raises Samples.counting
                (lift (call Examples.work [Imm (DInt 2)] [])) Samples.timing_heap_zero
                (lift (call Examples.work [Imm (DInt 2)] [])
                   (entered 0 Samples.timing_heap_zero)).2
                (mk_fields (AGiven (ArgList 0)) 0 (Some AppendToList) 0 None None) 0
                (inr (Imm (DInt 2))) eq_refl eq_refl eq_refl eq_refl eq_refl eq_refl
                (ex_intro _ [] eq_refl)).
Defined.

Section float_facts.
Import PrimFloat.

(** X28: [compute_avg_time] divides by the length, so an empty list
    raises [ZeroDivisionError], whatever the unit.  Otherwise the result
    is the sum of the times, as the built-in [sum] rounds it, divided by
    the length as a float; it is multiplied by 1000 for the unit
    ['milliseconds'] and by nothing for any other unit, ['nanoseconds']
    included.  On the times 2, 1 and 4 this is 2.3333333333333335, and
    2333.3333333333335 in milliseconds. *)
Theorem compute_avg_time_spec (py_sum : list float -> float) (time_list : list float) :
  match time_list with
  | [] => forall unit, compute_avg_time py_sum [] unit = inl ZeroDivisionError
  | _ :: _ =>
      compute_avg_time py_sum time_list None
      = inr (PrimFloat.div (py_sum time_list) (float_of_nat (length time_list))) /\
      compute_avg_time py_sum time_list (Some "milliseconds")
      = inr (PrimFloat.mul
               (PrimFloat.div (py_sum time_list) (float_of_nat (length time_list)))
               (float_of_nat 1000)) /\
      (forall unit, unit <> "milliseconds" ->
                    compute_avg_time py_sum time_list (Some unit)
                    = compute_avg_time py_sum time_list None)
  end /\
  compute_avg_time sum_left [float_of_nat 2; float_of_nat 1; float_of_nat 4] None
  = inr 0x1.2aaaaaaaaaaabp+1%float /\
  compute_avg_time sum_left [float_of_nat 2; float_of_nat 1; float_of_nat 4]
    (Some "milliseconds")
  = inr 0x1.23aaaaaaaaaabp+11%float /\
  compute_avg_time sum_left [float_of_nat 2; float_of_nat 1; float_of_nat 4]
    (Some "nanoseconds")
  = inr 0x1.2aaaaaaaaaaabp+1%float.
Proof.
  split; [|split_and!; vm_compute; reflexivity].
  destruct time_list as [|x xs]; [done|].
  split_and!; [done|done|].
  intros unit Hunit. unfold compute_avg_time. simpl.
  by apply String.eqb_neq in Hunit as ->.
Qed.
End float_facts.







End TimeComputerFacts.
